(** * ajournal: storage layer, connector filters, summarization fallback

    A shallow embedding of the parts of the ajournal sources that the
    specification makes testable statements about:

    - [src/services/storage.js]   (class StorageService)
    - the Slack search connector  (class SlackSearchIntegration)
    - [src/integrations/github.js] (filterRepositories)
    - the Google Calendar connector (shouldIncludeEvent, filterCalendars,
      categorizeEvent)
    - [src/services/ai.js]        (fallbackSummary, describeActivity,
      fallbackCategorization)
    - [src/config/config.js]      (load, mergeConfigs, resolveEnvVariables,
      get, set, save, the [config --set] command)

    Conventions of the embedding.

    - JavaScript strings are [string]s; the characters of interest are
      ASCII, so code units and bytes coincide and [String.length] is
      [.length].  Case mapping is the ASCII one.
    - A [Date] is [option Z]: the time value in milliseconds since the
      epoch, [None] being the Invalid Date; the bound of 8.64e15 on time
      values is left out.  Local time is UTC plus a fixed offset [tz]
      (minutes east of Greenwich); daylight-saving changes are not
      modelled.
    - JSON documents are values of [json]; objects are finite maps.  A file
      written by [writeJson] holds the value that [readJson] gives back.
    - The file system is a finite map from paths (lists of segments,
      [path.join] appends segments) to files.
    - Computations that can throw return an [outcome]; [Unmodelled] marks
      inputs that leave the fragment of the JavaScript library embedded
      here (for instance a regular expression with a character class). *)

From Stdlib Require Import ZArith String Ascii List Bool Lia.
From stdpp Require Import gmap strings list fin_maps.

#[local] Open Scope string_scope.
#[local] Open Scope Z_scope.
#[local] Open Scope list_scope.
#[local] Set Warnings "-register-all".

(** ** Outcomes of computations that may throw *)

Inductive exn : Type :=
  | SyntaxError
  | TypeError
  | RangeError
  | FsError (msg : string).

Inductive outcome (A : Type) : Type :=
  | Ret (a : A)
  | Throw (e : exn)
  | Unmodelled.

Arguments Ret {A} a.
Arguments Throw {A} e.
Arguments Unmodelled {A}.

Definition obind {A B} (m : outcome A) (k : A -> outcome B) : outcome B :=
  match m with
  | Ret a => k a
  | Throw e => Throw e
  | Unmodelled => Unmodelled
  end.

#[global] Instance outcome_bind : MBind outcome := fun _ _ k m => obind m k.
#[global] Instance outcome_ret : MRet outcome := fun _ a => Ret a.

(** ** JavaScript string primitives *)

Module Js.

Definition code (a : ascii) : N := N_of_ascii a.

Definition lowerChar (a : ascii) : ascii :=
  if ((65 <=? code a) && (code a <=? 90))%N then ascii_of_N (code a + 32) else a.

Definition upperChar (a : ascii) : ascii :=
  if ((97 <=? code a) && (code a <=? 122))%N then ascii_of_N (code a - 32) else a.

(** [String.prototype.toLowerCase] *)
Fixpoint toLowerCase (s : string) : string :=
  match s with
  | EmptyString => EmptyString
  | String a s' => String (lowerChar a) (toLowerCase s')
  end.

(** [s.startsWith(p)] *)
Fixpoint startsWith (s p : string) : bool :=
  match p, s with
  | EmptyString, _ => true
  | String _ _, EmptyString => false
  | String b p', String a s' => Ascii.eqb a b && startsWith s' p'
  end.

(** [s.includes(p)] *)
Fixpoint includes (s p : string) : bool :=
  startsWith s p ||
  match s with
  | EmptyString => false
  | String _ s' => includes s' p
  end.

(** [s.endsWith(p)] *)
Fixpoint endsWith (s p : string) : bool :=
  String.eqb s p ||
  match s with
  | EmptyString => false
  | String _ s' => endsWith s' p
  end.

(** [s.replace(c, r)] for a one-character search string [c] and a
    replacement [r] without [$]: only the first occurrence is replaced. *)
Fixpoint replace (c : ascii) (r : string) (s : string) : string :=
  match s with
  | EmptyString => EmptyString
  | String a s' =>
      if Ascii.eqb a c then r +:+ s' else String a (replace c r s')
  end.

(** [s.replace(/c/g, r)] for the regular expression of one escaped
    character with the global flag: every occurrence is replaced. *)
Fixpoint replaceAll (c : ascii) (r : string) (s : string) : string :=
  match s with
  | EmptyString => EmptyString
  | String a s' =>
      if Ascii.eqb a c then r +:+ replaceAll c r s'
      else String a (replaceAll c r s')
  end.

(** [list.includes(x)] on a list of strings *)
Definition list_includes (l : list string) (x : string) : bool :=
  existsb (String.eqb x) l.

(** Number of occurrences of a character. *)
Fixpoint count (c : ascii) (s : string) : nat :=
  match s with
  | EmptyString => O
  | String a s' => ((if Ascii.eqb a c then 1 else 0) + count c s')%nat
  end.

(** Decimal digits of a non-negative integer, as [Number.prototype.toString]
    prints an integer. *)
Definition digit (d : Z) : ascii := ascii_of_N (48 + Z.to_N d).

Fixpoint digits_pos (fuel : nat) (n : Z) (acc : string) : string :=
  match fuel with
  | O => acc
  | S f =>
      let acc' := String (digit (n mod 10)) acc in
      if n <? 10 then acc' else digits_pos f (n / 10) acc'
  end.

Definition natToString (n : Z) : string :=
  digits_pos (S (Z.to_nat (Z.log2 n))) n EmptyString.

Definition intToString (n : Z) : string :=
  if n <? 0 then "-" +:+ natToString (- n) else natToString n.

(** A JavaScript number restricted to what the embedded code produces:
    an integer or NaN. *)
Definition numToString (n : option Z) : string :=
  match n with
  | Some z => intToString z
  | None => "NaN"
  end.

Fixpoint repeat0 (n : nat) : string :=
  match n with
  | O => EmptyString
  | S k => String "0" (repeat0 k)
  end.

(** [s.padStart(w, '0')] *)
Definition padStart0 (w : nat) (s : string) : string :=
  repeat0 (w - String.length s) +:+ s.

End Js.

(** ** Regular expressions: the fragment of [RegExp] the filters build

    The exclusion patterns of the connectors are compiled with
    [new RegExp(source, 'i')] and used with [regex.test(name)].  The
    fragment embedded here has literal characters, [.] and the [*]
    quantifier; [test] is decided with derivatives, which for the boolean
    result agrees with the backtracking matcher of the language. *)

Module RegExp.

Inductive re : Type :=
  | Void
  | Eps
  | Chr (a : ascii)
  | Dot
  | Cat (r1 r2 : re)
  | Alt (r1 r2 : re)
  | Star (r : re).

Record t : Type := mk { body : re; ignoreCase : bool }.

(** Characters with a syntactic role in a pattern. *)
Definition syntaxChars : string := "^$\.*+?()[]{}|".

Definition isSyntaxChar (a : ascii) : bool :=
  Js.includes syntaxChars (String a EmptyString).

(** Syntax characters outside the embedded fragment. *)
Definition unmodelledChar (a : ascii) : bool :=
  isSyntaxChar a && negb (Ascii.eqb a ".") && negb (Ascii.eqb a "*").

Fixpoint hasUnmodelled (s : string) : bool :=
  match s with
  | EmptyString => false
  | String a s' => unmodelledChar a || hasUnmodelled s'
  end.

Definition atom (a : ascii) : re :=
  if Ascii.eqb a "." then Dot else Chr a.

(** A pattern is a sequence of terms: an atom, optionally followed by one
    [*].  A [*] with no atom before it is the error "Nothing to repeat". *)
Fixpoint parse (s : string) : option re :=
  match s with
  | EmptyString => Some Eps
  | String a s' =>
      if Ascii.eqb a "*" then None
      else
        match s' with
        | String "*" s'' =>
            match parse s'' with
            | Some r => Some (Cat (Star (atom a)) r)
            | None => None
            end
        | _ =>
            match parse s' with
            | Some r => Some (Cat (atom a) r)
            | None => None
            end
        end
  end.

(** [new RegExp(source, flags)] *)
Definition compile (source flags : string) : outcome t :=
  if negb (String.eqb flags "i" || String.eqb flags EmptyString) then Unmodelled
  else if hasUnmodelled source then Unmodelled
  else
    match parse source with
    | Some r => Ret (mk r (String.eqb flags "i"))
    | None => Throw SyntaxError
    end.

Definition isLineTerminator (a : ascii) : bool :=
  Ascii.eqb a "010" || Ascii.eqb a "013".

(** Character comparison; with the [i] flag both sides are canonicalized
    (upper-cased). *)
Definition sameChar (ic : bool) (a b : ascii) : bool :=
  if ic then Ascii.eqb (Js.upperChar a) (Js.upperChar b) else Ascii.eqb a b.

Fixpoint nullable (r : re) : bool :=
  match r with
  | Void => false
  | Eps => true
  | Chr _ => false
  | Dot => false
  | Cat r1 r2 => nullable r1 && nullable r2
  | Alt r1 r2 => nullable r1 || nullable r2
  | Star _ => true
  end.

Fixpoint deriv (ic : bool) (c : ascii) (r : re) : re :=
  match r with
  | Void => Void
  | Eps => Void
  | Chr a => if sameChar ic a c then Eps else Void
  | Dot => if isLineTerminator c then Void else Eps
  | Cat r1 r2 =>
      if nullable r1
      then Alt (Cat (deriv ic c r1) r2) (deriv ic c r2)
      else Cat (deriv ic c r1) r2
  | Alt r1 r2 => Alt (deriv ic c r1) (deriv ic c r2)
  | Star r1 => Cat (deriv ic c r1) (Star r1)
  end.

(** Does some prefix of [s] match [r]? *)
Fixpoint matchesPrefix (ic : bool) (r : re) (s : string) : bool :=
  nullable r ||
  match s with
  | EmptyString => false
  | String c s' => matchesPrefix ic (deriv ic c r) s'
  end.

(** Does a match start at some position of [s]? *)
Fixpoint search (ic : bool) (r : re) (s : string) : bool :=
  matchesPrefix ic r s ||
  match s with
  | EmptyString => false
  | String _ s' => search ic r s'
  end.

(** [regex.test(s)] for a regular expression without the [g] and [y]
    flags. *)
Definition test (rx : t) (s : string) : bool :=
  search (ignoreCase rx) (body rx) s.

End RegExp.

(** [array.some(f)] and [array.filter(f)] for a callback that may throw:
    elements are visited in order, [some] stops at the first hit. *)
Fixpoint array_some {A} (f : A -> outcome bool) (l : list A) : outcome bool :=
  match l with
  | [] => Ret false
  | x :: l' => b ← f x; if (b : bool) then Ret true else array_some f l'
  end.

Fixpoint array_filter {A} (f : A -> outcome bool) (l : list A) : outcome (list A) :=
  match l with
  | [] => Ret []
  | x :: l' =>
      b ← f x;
      rest ← array_filter f l';
      Ret (if (b : bool) then x :: rest else rest)
  end.

(** ** The Slack search connector (class SlackSearchIntegration) *)

Module Slack.

(** [config.integrations.slack] *)
Record config : Type := {
  excludeChannels : list string;
  excludeChannelPatterns : list string;
  trackDMs : bool;
  minMessageLength : Z;
  maxMessages : Z;
  rateLimitDelay : Z
}.

(** The channel object of a search match. *)
Record channelObj : Type := {
  ch_id : string;
  ch_name : string;
  is_im : bool;
  is_mpim : bool;
  is_private : bool;
  is_channel : bool
}.

(** The activity built by [processSearchMessage]. *)
Record activity : Type := {
  type : string;
  channel : string;
  channelId : string;
  timestamp : string;
  text : string;
  user : string;
  isUserMessage : bool;
  threadTs : option string;
  permalink : string;
  reactions : list string;
  intent : list string;
  searchScore : Z
}.

Definition getChannelInfo (c : channelObj) : string * string :=
  if is_im c then ("direct_message", "Direct Message")
  else if is_mpim c then ("group_message", "Group DM")
  else if is_private c then ("private_channel_message", ch_name c)
  else if is_channel c then ("public_channel_message", ch_name c)
  else ("unknown_message", ch_id c).

(** The exclusion pattern as handed to [new RegExp]:
    [pattern.replace('*', '.*')]. *)
Definition patternSource (pattern : string) : string :=
  Js.replace "*" ".*" pattern.

Definition shouldIncludeMessage (cfg : config) (message : activity) : outcome bool :=
  if Z.of_nat (String.length (text message)) <? minMessageLength cfg then Ret false
  else if Js.list_includes (excludeChannels cfg) (channel message) then Ret false
  else
    excluded ← array_some (fun pattern =>
                  regex ← RegExp.compile (patternSource pattern) "i";
                  Ret (RegExp.test regex (channel message)))
                (excludeChannelPatterns cfg);
    if (excluded : bool) then Ret false
    else if negb (trackDMs cfg) && String.eqb (type message) "direct_message"
         then Ret false
         else Ret true.

(** The six keyword tests of [extractIntent], in source order. *)
Definition isQuestion (text : string) : bool :=
  Js.includes text "?" || Js.startsWith (Js.toLowerCase text) "how " ||
  Js.startsWith (Js.toLowerCase text) "what " || Js.startsWith (Js.toLowerCase text) "why ".

Definition isDecision (text : string) : bool :=
  Js.includes (Js.toLowerCase text) "decision" || Js.includes (Js.toLowerCase text) "decide" ||
  Js.includes (Js.toLowerCase text) "should we".

Definition isStatusUpdate (text : string) : bool :=
  Js.includes (Js.toLowerCase text) "update" || Js.includes (Js.toLowerCase text) "progress" ||
  Js.includes (Js.toLowerCase text) "done" || Js.includes (Js.toLowerCase text) "completed".

Definition isCoordination (text : string) : bool :=
  Js.includes (Js.toLowerCase text) "meeting" || Js.includes (Js.toLowerCase text) "schedule" ||
  Js.includes (Js.toLowerCase text) "sync" || Js.includes (Js.toLowerCase text) "coordinate".

Definition isProblemSolving (text : string) : bool :=
  Js.includes (Js.toLowerCase text) "issue" || Js.includes (Js.toLowerCase text) "problem" ||
  Js.includes (Js.toLowerCase text) "bug" || Js.includes (Js.toLowerCase text) "error".

Definition isInformationSharing (text : string) : bool :=
  Js.includes (Js.toLowerCase text) "fyi" || Js.includes (Js.toLowerCase text) "heads up" ||
  Js.includes (Js.toLowerCase text) "announcement".

(** [intents.push(label)] under a condition. *)
Definition pushIf (c : bool) (label : string) (intents : list string) : list string :=
  if c then intents ++ [label] else intents.

Definition extractIntent (text channelName : string) : list string :=
  let intents := [] in
  let intents := pushIf (isQuestion text) "question" intents in
  let intents := pushIf (isDecision text) "decision" intents in
  let intents := pushIf (isStatusUpdate text) "status_update" intents in
  let intents := pushIf (isCoordination text) "coordination" intents in
  let intents := pushIf (isProblemSolving text) "problem_solving" intents in
  let intents := pushIf (isInformationSharing text) "information_sharing" intents in
  if (0 <? length intents)%nat then intents else ["general_communication"].

End Slack.

(** ** The GitHub connector: [filterRepositories] *)

Module GitHub.

Record config : Type := {
  excludeRepos : list string;
  excludeRepoPatterns : list string
}.

Record activity : Type := {
  type : string;
  repository : string;
  title : string;
  timestamp : string
}.

Definition patternSource (pattern : string) : string :=
  Js.replace "*" ".*" pattern.

Definition keepRepository (cfg : config) (a : activity) : outcome bool :=
  let repoName := repository a in
  if Js.list_includes (excludeRepos cfg) repoName then Ret false
  else
    excluded ← array_some (fun pattern =>
                  regex ← RegExp.compile (patternSource pattern) "i";
                  Ret (RegExp.test regex repoName))
                (excludeRepoPatterns cfg);
    if (excluded : bool) then Ret false else Ret true.

Definition filterRepositories (cfg : config) (activities : list activity)
  : outcome (list activity) :=
  array_filter (keepRepository cfg) activities.

End GitHub.

(** ** Dates: the [Date] object and the date-fns functions used *)

Module JsDate.

(** Time value in milliseconds since the epoch; [None] is Invalid Date. *)
Definition Date : Type := option Z.

Definition msPerMinute : Z := 60000.
Definition msPerDay : Z := 86400000.
Definition millisecondsInWeek : Z := 604800000.

(** Day number of a civil date (MakeDay), [m] counted from 1; a day of
    month beyond the month's length runs over into the next month. *)
Definition daysFromCivil (y m d : Z) : Z :=
  let y' := if m <=? 2 then y - 1 else y in
  let era := y' / 400 in
  let yoe := y' - era * 400 in
  let mp := (m + 9) mod 12 in
  let doy := (153 * mp + 2) / 5 + d - 1 in
  let doe := yoe * 365 + yoe / 4 - yoe / 100 + doy in
  era * 146097 + doe - 719468.

(** Year and month (from 1) of a day number (YearFromTime, MonthFromTime). *)
Definition yearMonthFromDays (z : Z) : Z * Z :=
  let z := z + 719468 in
  let era := z / 146097 in
  let doe := z - era * 146097 in
  let yoe := (doe - doe / 1460 + doe / 36524 - doe / 146096) / 365 in
  let y := yoe + era * 400 in
  let doy := doe - (365 * yoe + yoe / 4 - yoe / 100) in
  let mp := (5 * doy + 2) / 153 in
  let m := if mp <? 10 then mp + 3 else mp - 9 in
  (if m <=? 2 then y + 1 else y, m).

Definition monthStart (z : Z) : Z :=
  let '(y, m) := yearMonthFromDays z in daysFromCivil y m 1.

Definition twoDigits (n : Z) : string := Js.padStart0 2 (Js.intToString n).
Definition threeDigits (n : Z) : string := Js.padStart0 3 (Js.intToString n).
Definition fourDigits (n : Z) : string := Js.padStart0 4 (Js.intToString n).
Definition sixDigits (n : Z) : string := Js.padStart0 6 (Js.intToString n).

Definition dayName (wd : Z) : string :=
  nth (Z.to_nat wd) ["Sun"; "Mon"; "Tue"; "Wed"; "Thu"; "Fri"; "Sat"] EmptyString.

Definition monthName (m : Z) : string :=
  nth (Z.to_nat (m - 1))
    ["Jan"; "Feb"; "Mar"; "Apr"; "May"; "Jun";
     "Jul"; "Aug"; "Sep"; "Oct"; "Nov"; "Dec"] EmptyString.

(** The text of [toISOString] for a time value (UTC). *)
Definition isoString (t : Z) : string :=
  let day := t / msPerDay in
  let ms := t mod msPerDay in
  let y := fst (yearMonthFromDays day) in
  let m := snd (yearMonthFromDays day) in
  let dd := day - monthStart day + 1 in
  let year :=
    if (0 <=? y) && (y <=? 9999) then fourDigits y
    else if y <? 0 then "-" +:+ sixDigits (- y)
    else "+" +:+ sixDigits y in
  year +:+ "-" +:+ twoDigits m +:+ "-" +:+ twoDigits dd +:+ "T" +:+
  twoDigits (ms / 3600000) +:+ ":" +:+
  twoDigits (ms / 60000 mod 60) +:+ ":" +:+
  twoDigits (ms / 1000 mod 60) +:+ "." +:+
  threeDigits (ms mod 1000) +:+ "Z".

(** [date.toISOString()]; a RangeError on an Invalid Date. *)
Definition toISOString (d : Date) : outcome string :=
  match d with
  | None => Throw RangeError
  | Some t => Ret (isoString t)
  end.

Definition isDigit (a : ascii) : bool :=
  ((48 <=? Js.code a) && (Js.code a <=? 57))%N.

Definition digitVal (a : ascii) : Z := Z.of_N (Js.code a) - 48.

(** [new Date(s)] for a string of the date-only form [YYYY-MM-DD]: UTC
    midnight of that day.  The month must be 01..12 and the day 01..31;
    a day past the end of the month runs over (as V8 does).  Other
    strings are outside the embedding. *)
Definition parseDateOnly (s : string) : outcome Date :=
  match s with
  | String y1 (String y2 (String y3 (String y4 (String "-"
      (String m1 (String m2 (String "-" (String d1 (String d2 EmptyString))))))))) =>
      if forallb isDigit [y1; y2; y3; y4; m1; m2; d1; d2] then
        let y := digitVal y1 * 1000 + digitVal y2 * 100 + digitVal y3 * 10 + digitVal y4 in
        let m := digitVal m1 * 10 + digitVal m2 in
        let d := digitVal d1 * 10 + digitVal d2 in
        if (1 <=? m) && (m <=? 12) && (1 <=? d) && (d <=? 31)
        then Ret (Some (daysFromCivil y m d * msPerDay))
        else Ret None
      else Unmodelled
  | _ => Unmodelled
  end.

(** What callers pass where the code writes [new Date(date)]. *)
Inductive dateArg : Type :=
  | OfDate (d : Date)
  | OfString (s : string).

Definition newDate (a : dateArg) : outcome Date :=
  match a with
  | OfDate d => Ret d
  | OfString s => parseDateOnly s
  end.

Section LocalTime.

(** Offset of local time from UTC, in minutes. *)
Variable tz : Z.

Definition localTime (t : Z) : Z := t + tz * msPerMinute.
Definition localDay (t : Z) : Z := localTime t / msPerDay.
Definition timeInDay (t : Z) : Z := localTime t mod msPerDay.

(** The time value of a local day number and a time within the day. *)
Definition fromLocal (day ms : Z) : Z := day * msPerDay + ms - tz * msPerMinute.

Definition getFullYear (d : Date) : option Z :=
  t ← d; Some (fst (yearMonthFromDays (localDay t))).

(** Month counted from 1 (the JavaScript getter counts from 0). *)
Definition getMonth1 (d : Date) : option Z :=
  t ← d; Some (snd (yearMonthFromDays (localDay t))).

Definition getDate (d : Date) : option Z :=
  t ← d; Some (localDay t - monthStart (localDay t) + 1).

(** 0 is Sunday. *)
Definition getDay (d : Date) : option Z :=
  t ← d; Some ((localDay t + 4) mod 7).

(** [d.setDate(n)]: day [n] of the month of [d], same time of day. *)
Definition setDate (d : Date) (n : option Z) : Date :=
  t ← d; n ← n;
  Some (fromLocal (monthStart (localDay t) + n - 1) (timeInDay t)).

(** [d.setHours(0, 0, 0, 0)] *)
Definition setHours0 (d : Date) : Date :=
  t ← d; Some (fromLocal (localDay t) 0).

(** [d.setFullYear(y, 0, day); d.setHours(0, 0, 0, 0)] *)
Definition startOfJanuaryDay (y day : Z) : Date :=
  Some (fromLocal (daysFromCivil y 1 day) 0).

(** date-fns [getYear] *)
Definition getYear (d : Date) : option Z := getFullYear d.

(** date-fns [startOfWeek(date, { weekStartsOn })] *)
Definition startOfWeek (weekStartsOn : Z) (d : Date) : Date :=
  let diff :=
    day ← getDay d;
    Some ((if day <? weekStartsOn then 7 else 0) + day - weekStartsOn) in
  setHours0 (setDate d (dt ← getDate d; df ← diff; Some (dt - df))).

(** [a >= b] on dates: false when either is invalid. *)
Definition dateGe (a b : Date) : bool :=
  match a, b with
  | Some x, Some y => y <=? x
  | _, _ => false
  end.

Definition dateLe (a b : Date) : bool := dateGe b a.

(** date-fns [getWeekYear], with the default [firstWeekContainsDate] 1. *)
Definition getWeekYear (weekStartsOn : Z) (d : Date) : option Z :=
  year ← getFullYear d;
  let startOfNextYear := startOfWeek weekStartsOn (startOfJanuaryDay (year + 1) 1) in
  let startOfThisYear := startOfWeek weekStartsOn (startOfJanuaryDay year 1) in
  if dateGe d startOfNextYear then Some (year + 1)
  else if dateGe d startOfThisYear then Some year
  else Some (year - 1).

(** date-fns [startOfWeekYear] *)
Definition startOfWeekYear (weekStartsOn : Z) (d : Date) : Date :=
  year ← getWeekYear weekStartsOn d;
  startOfWeek weekStartsOn (startOfJanuaryDay year 1).

(** [Math.round(a / b)] for integers [a] and positive [b]. *)
Definition roundDiv (a b : Z) : Z := (2 * a + b) / (2 * b).

(** date-fns [getWeek(date, { weekStartsOn })] *)
Definition getWeek (weekStartsOn : Z) (d : Date) : option Z :=
  a ← startOfWeek weekStartsOn d;
  b ← startOfWeekYear weekStartsOn d;
  Some (roundDiv (a - b) millisecondsInWeek + 1).

(** The [yyyy] token of date-fns: the year of the era, at least four
    digits. *)
Definition formatYear (y : Z) : string :=
  fourDigits (if 0 <? y then y else 1 - y).

(** date-fns [format(date, pattern)] for the pattern [yyyy-MM-dd]; it
    throws a RangeError on an Invalid Date. *)
Definition format (d : Date) (pattern : string) : outcome string :=
  if negb (String.eqb pattern "yyyy-MM-dd") then Unmodelled
  else
    match getFullYear d, getMonth1 d, getDate d with
    | Some y, Some m, Some dd =>
        Ret (formatYear y +:+ "-" +:+ twoDigits m +:+ "-" +:+ twoDigits dd)
    | _, _, _ => Throw RangeError
    end.

(** [date.toDateString()] *)
Definition toDateString (d : Date) : string :=
  match getFullYear d, getMonth1 d, getDate d, getDay d with
  | Some y, Some m, Some dd, Some wd =>
      dayName wd +:+ " " +:+ monthName m +:+ " " +:+ twoDigits dd +:+ " " +:+
      (if y <? 0 then "-" else EmptyString) +:+ fourDigits (Z.abs y)
  | _, _, _, _ => "Invalid Date"
  end.

End LocalTime.

End JsDate.

(** ** JSON values *)

Inductive json : Type :=
  | JNull
  | JBool (b : bool)
  | JNum (n : Z)
  | JStr (s : string)
  | JArr (l : list json)
  | JObj (m : gmap string json).

Module Json.

(** Own enumerable properties of a list-like value, keyed by index. *)
Definition indexed (l : list json) : gmap string json :=
  list_to_map (imap (fun i x => (Js.intToString (Z.of_nat i), x)) l).

Fixpoint chars (s : string) : list json :=
  match s with
  | EmptyString => []
  | String a s' => JStr (String a EmptyString) :: chars s'
  end.

(** The properties copied by the spread [{...v}]; [None] stands for
    [undefined]. *)
Definition spread (v : option json) : gmap string json :=
  match v with
  | Some (JObj m) => m
  | Some (JArr l) => indexed l
  | Some (JStr s) => indexed (chars s)
  | _ => ∅
  end.

(** Truthiness of a value ([None] is [undefined]). *)
Definition truthy (v : option json) : bool :=
  match v with
  | None | Some JNull | Some (JBool false) | Some (JNum 0) | Some (JStr EmptyString) => false
  | Some _ => true
  end.

(** [Array.isArray(data) ? data : [data]] *)
Definition asArray (data : json) : json :=
  match data with
  | JArr _ => data
  | _ => JArr [data]
  end.

(** [v.key] on an object; [None] is [undefined]. *)
Definition field (key : string) (v : json) : option json :=
  match v with
  | JObj m => m !! key
  | _ => None
  end.

End Json.

(** ** The file system

    Paths are lists of segments and directories are implicit: a directory
    is there once something lies below it, so [ensureDir] changes nothing.
    A file written with [writeJson] is a [JsonFile]; reading a [TextFile]
    with [readJson] is the parse error of the source. *)

Module Fs.

Definition path : Type := list string.

Inductive file : Type :=
  | JsonFile (j : json)
  | TextFile (s : string).

Abbreviation filesystem := (gmap (list string) file).

(** A computation over the file system; the state survives a throw. *)
Definition M (A : Type) : Type := filesystem -> outcome A * filesystem.

Definition ret {A} (a : A) : M A := fun fs => (Ret a, fs).
Definition throw {A} (e : exn) : M A := fun fs => (Throw e, fs).
Definition unmodelled {A} : M A := fun fs => (Unmodelled, fs).
Definition lift {A} (o : outcome A) : M A := fun fs => (o, fs).

Definition bind {A B} (m : M A) (k : A -> M B) : M B :=
  fun fs =>
    match m fs with
    | (Ret a, fs') => k a fs'
    | (Throw e, fs') => (Throw e, fs')
    | (Unmodelled, fs') => (Unmodelled, fs')
    end.

(** [try { m } catch (error) { h error }] *)
Definition try_catch {A} (m : M A) (h : exn -> M A) : M A :=
  fun fs =>
    match m fs with
    | (Throw e, fs') => h e fs'
    | r => r
    end.

Fixpoint stripPrefix (dir p : path) : option path :=
  match dir, p with
  | [], _ => Some p
  | d :: dir', s :: p' => if String.eqb d s then stripPrefix dir' p' else None
  | _ :: _, [] => None
  end.

(** The name directly below [dir] on the way to [p], if [p] lies below. *)
Definition childName (dir p : path) : option string :=
  match stripPrefix dir p with
  | Some (n :: _) => Some n
  | _ => None
  end.

Definition isDirectory (fs : filesystem) (p : path) : bool :=
  bool_decide (Exists (fun q => is_Some (childName p q)) (map fst (map_to_list fs))).

Definition pathExists (p : path) : M bool :=
  fun fs => (Ret (bool_decide (is_Some (fs !! p)) || isDirectory fs p), fs).

Definition ensureDir (p : path) : M unit := ret tt.

Definition readJson (p : path) : M json :=
  fun fs =>
    match fs !! p with
    | Some (JsonFile j) => (Ret j, fs)
    | Some (TextFile _) => (Throw SyntaxError, fs)
    | None => (Throw (FsError "ENOENT"), fs)
    end.

Definition readFile (p : path) : M string :=
  fun fs =>
    match fs !! p with
    | Some (TextFile s) => (Ret s, fs)
    | Some (JsonFile _) => (Unmodelled, fs)
    | None => (Throw (FsError "ENOENT"), fs)
    end.

Definition writeJson (p : path) (j : json) : M unit :=
  fun fs => (Ret tt, <[p := JsonFile j]> fs).

Definition writeFile (p : path) (s : string) : M unit :=
  fun fs => (Ret tt, <[p := TextFile s]> fs).

(** [fs.readdir(dir)]: the names directly below [dir].  A directory that
    is not there reads as empty (the source gets ENOENT and changes
    nothing). *)
Definition readdir (dir : path) : M (list string) :=
  fun fs =>
    (Ret (elements (list_to_set (omap (fun q => childName dir q.1) (map_to_list fs))
                    : gset string)), fs).

(** fs-extra [move(src, dest)] without [overwrite]: fails when [dest]
    exists.  Moving a directory is outside the embedding. *)
Definition move (src dest : path) : M unit :=
  fun fs =>
    match fs !! src with
    | Some f =>
        if bool_decide (is_Some (fs !! dest)) || isDirectory fs dest
        then (Throw (FsError "dest already exists."), fs)
        else (Ret tt, <[dest := f]> (delete src fs))
    | None =>
        if isDirectory fs src then (Unmodelled, fs)
        else (Throw (FsError "ENOENT"), fs)
    end.

End Fs.

Notation "x <- m ;; k" := (Fs.bind m (fun x => k))
  (at level 100, m at next level, right associativity, only parsing).

(** ** The storage layer (class StorageService) *)

Module Storage.

Import JsDate.

(** The configuration entries read by the storage layer:
    [config.storage.*], [config.journal.outputDir] and
    [config.journal.dateFormat]. *)
Record config : Type := {
  dataDir : Fs.path;
  syncStateFile : Fs.path;
  rawDataDir : Fs.path;
  outputDir : Fs.path;
  dateFormat : string
}.

Section Service.

Variable tz : Z.
Variable cfg : config.

Definition getDailyJournalPath (date : Date) : Fs.path :=
  let year := getYear tz date in
  let week := getWeek tz 1 date in
  let weekFolder := "week-" +:+ Js.padStart0 2 (Js.numToString week) in
  outputDir cfg ++ ["daily"; Js.numToString year; weekFolder].

Definition getReportPath (type : string) (date : Date) (fileName : string) : Fs.path :=
  let year := getYear tz date in
  outputDir cfg ++ ["reports"; type; Js.numToString year; fileName].

(** [getSyncState(integration)]; [None] is the default [null], and an
    empty name is falsy as well: both give the whole document.  A
    missing file reads as the empty object, and so does any error. *)
Definition getSyncState (integration : option string) : Fs.M json :=
  Fs.try_catch
    (present <- Fs.pathExists (syncStateFile cfg) ;;
     syncState <- (if (present : bool) then Fs.readJson (syncStateFile cfg)
                   else Fs.ret (JObj ∅)) ;;
     match integration with
     | Some (String a name) =>
         match syncState with
         | JObj m =>
             let v := m !! String a name in
             Fs.ret (if Json.truthy v then default JNull v else JObj ∅)
         | JNull => Fs.throw TypeError
         | _ => Fs.unmodelled
         end
     | _ => Fs.ret syncState
     end)
    (fun _ => Fs.ret (JObj ∅)).

(** [setSyncState(integration, state)]; [now] is the clock reading of
    [new Date()].  The document read back must be an object for the
    assignment [currentState[integration] = ...] to be stored: on
    [null] and on primitives the assignment throws a TypeError (module
    code is strict), an array is outside the embedding. *)
Definition setSyncState (now : Z) (integration : string) (state : json) : Fs.M json :=
  Fs.try_catch
    (currentState <- getSyncState None ;;
     match currentState with
     | JObj m =>
         let entry :=
           JObj (<["lastSync" := JStr (isoString now)]>
                   (Json.spread (Some state) ∪ Json.spread (m !! integration))) in
         let currentState' := <[integration := entry]> m in
         _ <- Fs.writeJson (syncStateFile cfg) (JObj currentState') ;;
         Fs.ret entry
     | JArr _ => Fs.unmodelled
     | _ => Fs.throw TypeError
     end)
    (fun error => Fs.throw error).

Definition rawDataPath (integration dateStr : string) : Fs.path :=
  rawDataDir cfg ++ [integration; dateStr +:+ ".json"].

(** [saveRawData(integration, date, data)] *)
Definition saveRawData (now : Z) (integration : string) (date : dateArg) (data : json)
  : Fs.M Fs.path :=
  Fs.try_catch
    (dateStr <- Fs.lift (d ← newDate date; format tz d "yyyy-MM-dd") ;;
     let integrationDir := rawDataDir cfg ++ [integration] in
     _ <- Fs.ensureDir integrationDir ;;
     let filePath := integrationDir ++ [dateStr +:+ ".json"] in
     present <- Fs.pathExists filePath ;;
     existingData <- (if (present : bool) then Fs.readJson filePath
                      else Fs.ret (JObj ∅)) ;;
     let mergedData :=
       JObj (<["data" := Json.asArray data]>
               (<["timestamp" := JStr (isoString now)]>
                  (Json.spread (Some existingData)))) in
     _ <- Fs.writeJson filePath mergedData ;;
     Fs.ret filePath)
    (fun error => Fs.throw error).

(** [getRawData(integration, date)]; [None] is the [null] result. *)
Definition getRawData (integration : string) (date : dateArg) : Fs.M (option json) :=
  Fs.try_catch
    (dateStr <- Fs.lift (d ← newDate date; format tz d "yyyy-MM-dd") ;;
     let filePath := rawDataDir cfg ++ [integration; dateStr +:+ ".json"] in
     present <- Fs.pathExists filePath ;;
     if (present : bool)
     then (j <- Fs.readJson filePath ;; Fs.ret (Some j))
     else Fs.ret None)
    (fun _ => Fs.ret None).

(** [saveJournal(date, content)] for a [Date] object. *)
Definition saveJournal (date : Date) (content : string) : Fs.M Fs.path :=
  Fs.try_catch
    (dateStr <- Fs.lift (format tz date (dateFormat cfg)) ;;
     let fileName := dateStr +:+ ".md" in
     let journalDir := getDailyJournalPath date in
     _ <- Fs.ensureDir journalDir ;;
     let filePath := journalDir ++ [fileName] in
     _ <- Fs.writeFile filePath content ;;
     Fs.ret filePath)
    (fun error => Fs.throw error).

(** [/^(\d{4}-\d{2}-\d{2})\.md$/] and the date part of
    [/weekly-report-(\d{4}-\d{2}-\d{2})\.md$/]: four, two and two
    digits separated by hyphens. *)
Definition isDateText (s : string) : bool :=
  match s with
  | String y1 (String y2 (String y3 (String y4 (String "-"
      (String m1 (String m2 (String "-" (String d1 (String d2 EmptyString))))))))) =>
      forallb isDigit [y1; y2; y3; y4; m1; m2; d1; d2]
  | _ => false
  end.

(** [fileName.match(/^(\d{4}-\d{2}-\d{2})\.md$/)]: the first group. *)
Definition matchDailyName (fileName : string) : option string :=
  let date := substring 0 10 fileName in
  if (String.length fileName =? 13)%nat && isDateText date &&
     String.eqb (substring 10 3 fileName) ".md"
  then Some date else None.

(** [fileName.match(/weekly-report-(\d{4}-\d{2}-\d{2})\.md$/)]: the
    pattern has a fixed length of 27 and is tied to the end only. *)
Definition matchWeeklyName (fileName : string) : option string :=
  let n := String.length fileName in
  let tail := substring (n - 27) 27 fileName in
  let date := substring 14 10 tail in
  if (27 <=? n)%nat && Js.startsWith tail "weekly-report-" && isDateText date &&
     String.eqb (substring 24 3 tail) ".md"
  then Some date else None.

Definition isJournalFile (file : string) : bool :=
  Js.endsWith file ".md" &&
  bool_decide (is_Some (matchDailyName file)) &&
  negb (Js.startsWith file "weekly-report-") &&
  negb (Js.startsWith file "monthly-report-") &&
  negb (Js.startsWith file "quarterly-report-").

Definition isWeeklyReport (file : string) : bool :=
  Js.startsWith file "weekly-report-" && Js.endsWith file ".md".

(** The body of the first loop of [migrateExistingJournals], with its
    [try]/[catch]; the result is the increment of [migrated]. *)
Definition migrateJournal (fileName : string) : Fs.M Z :=
  Fs.try_catch
    (match matchDailyName fileName with
     | Some dateText =>
         date <- Fs.lift (parseDateOnly dateText) ;;
         let newDir := getDailyJournalPath date in
         _ <- Fs.ensureDir newDir ;;
         let oldPath := outputDir cfg ++ [fileName] in
         let newPath := newDir ++ [fileName] in
         _ <- Fs.move oldPath newPath ;;
         Fs.ret 1
     | None => Fs.ret 0
     end)
    (fun _ => Fs.ret 0).

(** The body of the second loop. *)
Definition migrateWeeklyReport (fileName : string) : Fs.M Z :=
  Fs.try_catch
    (match matchWeeklyName fileName with
     | Some dateText =>
         date <- Fs.lift (parseDateOnly dateText) ;;
         let reportPath := getReportPath "weekly" date fileName in
         _ <- Fs.ensureDir (removelast reportPath) ;;
         _ <- Fs.move (outputDir cfg ++ [fileName]) reportPath ;;
         Fs.ret 1
     | None => Fs.ret 0
     end)
    (fun _ => Fs.ret 0).

(** [for (const fileName of files) { ... migrated++ ... }] *)
Fixpoint forEachFile (body : string -> Fs.M Z) (files : list string) (migrated : Z)
  : Fs.M Z :=
  match files with
  | [] => Fs.ret migrated
  | fileName :: rest =>
      n <- body fileName ;;
      forEachFile body rest (migrated + n)
  end.

Definition migrateExistingJournals : Fs.M Z :=
  Fs.try_catch
    (let baseDir := outputDir cfg in
     files <- Fs.readdir baseDir ;;
     let journalFiles := List.filter isJournalFile files in
     migrated <- forEachFile migrateJournal journalFiles 0 ;;
     let weeklyReports := List.filter isWeeklyReport files in
     migrated <- forEachFile migrateWeeklyReport weeklyReports migrated ;;
     Fs.ret migrated)
    (fun error => Fs.throw error).

End Service.

End Storage.

(** ** The Slack search connector: [sync] and [searchUserMessages] *)

Module SlackSync.

Import JsDate.

(** A match of [search.messages].  [ts_ms] is the time value of
    [new Date(parseFloat(msg.ts) * 1000)]; [msg_channel] is [None] when
    the match carries no channel object. *)
Record rawMessage : Type := {
  ts_ms : Date;
  thread_ts : option string;
  msg_text : string;
  msg_user : string;
  msg_channel : option Slack.channelObj;
  msg_permalink : string;
  score : Z
}.

(** One request to [search.messages]. *)
Record request : Type := { query : string; count : Z; page : Z }.

(** One call of [searchUserMessages]: its first argument and the
    requests it issued. *)
Record dailySearch : Type := { dayStart : Date; requests : list request }.

Definition toJson (a : Slack.activity) : json :=
  JObj (list_to_map
    [("type", JStr (Slack.type a)); ("channel", JStr (Slack.channel a));
     ("channelId", JStr (Slack.channelId a)); ("timestamp", JStr (Slack.timestamp a));
     ("text", JStr (Slack.text a)); ("user", JStr (Slack.user a));
     ("isUserMessage", JBool (Slack.isUserMessage a));
     ("threadTs", from_option JStr JNull (Slack.threadTs a));
     ("permalink", JStr (Slack.permalink a));
     ("reactions", JArr (map JStr (Slack.reactions a)));
     ("intent", JArr (map JStr (Slack.intent a)));
     ("searchScore", JNum (Slack.searchScore a))]).

(** [obj[key] = value] on an object whose key order matters. *)
Fixpoint assocSet {A} (key : string) (value : A) (obj : list (string * A))
  : list (string * A) :=
  match obj with
  | [] => [(key, value)]
  | (k, v) :: obj' =>
      if String.eqb k key then (k, value) :: obj' else (k, v) :: assocSet key value obj'
  end.

Section Connector.

Variable tz : Z.
Variable scfg : Storage.config.
Variable cfg : Slack.config.

(** The Slack Web API: [auth.test] giving the user id and name, and
    [search.messages]. *)
Variable authTest : outcome (string * string).
Variable searchMessages : request -> outcome (list rawMessage).

(** [getThreadReplies(messages, dateStr)] goes through
    [conversations.replies], not through the search; it is a parameter
    here. *)
Variable getThreadReplies : list rawMessage -> string -> list rawMessage.

(** Clock readings of the storage calls of one sync, in call order. *)
Variable clock : nat -> Z.

Definition processSearchMessage (msg : rawMessage) : option Slack.activity :=
  match toISOString (ts_ms msg), msg_channel msg with
  | Ret timestamp, Some ch =>
      let channelInfo := Slack.getChannelInfo ch in
      Some {| Slack.type := fst channelInfo;
              Slack.channel := snd channelInfo;
              Slack.channelId := Slack.ch_id ch;
              Slack.timestamp := timestamp;
              Slack.text := msg_text msg;
              Slack.user := msg_user msg;
              Slack.isUserMessage := true;
              Slack.threadTs := thread_ts msg;
              Slack.permalink := msg_permalink msg;
              Slack.reactions := [];
              Slack.intent := Slack.extractIntent (msg_text msg) (snd channelInfo);
              Slack.searchScore := score msg |}
  | _, _ => None
  end.

(** The pagination loop of [searchUserMessages]: [pagesLeft] counts
    down from [maxPages]; [None] is an error of the API. *)
Fixpoint searchPages (pagesLeft : nat) (q : string) (cnt pg : Z)
    (allMessages : list rawMessage) (reqs : list request)
  : option (list rawMessage) * list request :=
  match pagesLeft with
  | O => (Some allMessages, reqs)
  | S pagesLeft' =>
      let rq := {| query := q; count := cnt; page := pg |} in
      match searchMessages rq with
      | Ret matches =>
          if (length matches =? 0)%nat then (Some allMessages, reqs ++ [rq])
          else if Z.of_nat (length matches) <? cnt
               then (Some (allMessages ++ matches), reqs ++ [rq])
               else searchPages pagesLeft' q cnt (pg + 1) (allMessages ++ matches) (reqs ++ [rq])
      | _ => (None, reqs ++ [rq])
      end
  end.

(** [searchUserMessages(startDate, endDate)]: the messages, and the
    requests issued on the way.  Every error ends in the empty list. *)
Definition searchUserMessages (username : string) (startDate endDate : Date)
  : list rawMessage * list request :=
  match format tz startDate "yyyy-MM-dd" with
  | Ret dateStr =>
      let q := "from:" +:+ username +:+ " on:" +:+ dateStr in
      let cnt := Z.min (if Slack.maxMessages cfg =? 0 then 100 else Slack.maxMessages cfg) 100 in
      match searchPages 5 q cnt 1 [] [] with
      | (Some allMessages, reqs) => (getThreadReplies allMessages dateStr, reqs)
      | (None, reqs) => ([], reqs)
      end
  | _ => ([], [])
  end.

Record loopState : Type := {
  allActivities : list Slack.activity;
  allActivitiesByDate : list (string * list Slack.activity)
}.

(** The messages of one day that become activities; an exception of
    [shouldIncludeMessage] leaves the loop. *)
Fixpoint processMessages (messages : list rawMessage) : outcome (list Slack.activity) :=
  match messages with
  | [] => Ret []
  | msg :: rest =>
      match processSearchMessage msg with
      | Some processedMessage =>
          keep ← Slack.shouldIncludeMessage cfg processedMessage;
          dayActivities ← processMessages rest;
          Ret (if (keep : bool) then processedMessage :: dayActivities else dayActivities)
      | None => processMessages rest
      end
  end.

(** The end of one iteration: a day with activities is entered under its
    date. *)
Definition recordDay (currentDate : Date) (dayActivities : list Slack.activity)
    (st : loopState) : outcome loopState :=
  if (0 <? length dayActivities)%nat then
    dateStr ← format tz currentDate "yyyy-MM-dd";
    Ret {| allActivities := allActivities st ++ dayActivities;
           allActivitiesByDate :=
             assocSet dateStr dayActivities (allActivitiesByDate st) |}
  else Ret st.

(** [while (currentDate <= endDate) { ... }].  [fuel] bounds the number
    of iterations, [None] is fuel exhausted.  [log] collects the calls of
    [searchUserMessages]; it is kept when the loop is left by an
    exception. *)
Fixpoint dayLoop (fuel : nat) (username : string) (currentDate endDate : Date)
    (st : loopState) (log : list dailySearch)
  : option (outcome loopState * list dailySearch) :=
  if dateLe currentDate endDate then
    match fuel with
    | O => None
    | S fuel' =>
        let nextDate := setDate tz currentDate (n ← getDate tz currentDate; Some (n + 1)) in
        let dayStart := currentDate in
        let dayEnd := nextDate in
        let found := searchUserMessages username dayStart dayEnd in
        let log' := log ++ [{| dayStart := dayStart; requests := snd found |}] in
        match (dayActivities ← processMessages (fst found);
               recordDay currentDate dayActivities st) with
        | Ret st' =>
            dayLoop fuel' username
              (setDate tz currentDate (n ← getDate tz currentDate; Some (n + 1)))
              endDate st' log'
        | Throw e => Some (Throw e, log')
        | Unmodelled => Some (Unmodelled, log')
        end
    end
  else Some (Ret st, log).

(** Iterations that suffice for the loop from [startDate] to [endDate]. *)
Definition loopFuel (startDate endDate : Date) : nat :=
  match startDate, endDate with
  | Some s, Some e => Z.to_nat ((e - s) / msPerDay + 1)
  | _, _ => O
  end.

(** The saves after the loop, in the order of [Object.entries]. *)
Fixpoint saveAll (i : nat) (entries : list (string * list Slack.activity)) : Fs.M nat :=
  match entries with
  | [] => Fs.ret i
  | (dateStr, dayActivities) :: rest =>
      _ <- Storage.saveRawData tz scfg (clock i) "slack" (OfString dateStr)
             (JArr (map toJson dayActivities)) ;;
      saveAll (S i) rest
  end.

(** What follows the loop in [sync]: the saves and the sync state. *)
Definition finishSync (auth : string * string) (startDate endDate : Date)
    (st : loopState) : Fs.M (list Slack.activity) :=
  i <- saveAll O (allActivitiesByDate st) ;;
  lastSyncStart <- Fs.lift (toISOString startDate) ;;
  lastSyncEnd <- Fs.lift (toISOString endDate) ;;
  _ <- Storage.setSyncState scfg (clock i) "slack"
         (JObj (list_to_map
            [("lastSyncStart", JStr lastSyncStart);
             ("lastSyncEnd", JStr lastSyncEnd);
             ("totalActivities", JNum (Z.of_nat (length (allActivities st))));
             ("userId", JStr (fst auth));
             ("username", JStr (snd auth));
             ("method", JStr "search_api_daily")])) ;;
  Fs.ret (allActivities st).

(** [sync(startDate, endDate)] on a fresh connector: what it returns or
    throws, the file system it leaves, and the calls of
    [searchUserMessages] it made. *)
Definition sync (startDate endDate : Date) (fs : Fs.filesystem)
  : (outcome (list Slack.activity) * Fs.filesystem) * list dailySearch :=
  match authTest with
  | Ret auth =>
      let username := snd auth in
      let currentDate := startDate in
      match dayLoop (loopFuel startDate endDate) username currentDate endDate
              {| allActivities := []; allActivitiesByDate := [] |} [] with
      | None => ((Unmodelled, fs), [])
      | Some (r, log) =>
          (Fs.try_catch
             (st <- Fs.lift r ;; finishSync auth startDate endDate st)
             (fun error => Fs.throw error) fs,
           log)
      end
  | Throw e => ((Throw e, fs), [])
  | Unmodelled => ((Unmodelled, fs), [])
  end.

End Connector.

End SlackSync.

(** ** The Google Calendar connector: [shouldIncludeEvent] *)

Module GCal.

Import JsDate.

(** [config.integrations.gcal]; the two exclusion lists may be absent. *)
Record config : Type := {
  excludeEvents : option (list string);
  excludeEventPatterns : option (list string);
  minDuration : Z
}.

(** [event.start] and [event.end].  A field is [Some d] when the
    property is a non-empty text, [d] being [new Date(text)]. *)
Record eventTime : Type := { dateTime : option Date; date : option Date }.

Record attendee : Type := { self : bool; responseStatus : string }.

Record event : Type := {
  summary : option string;
  start : option eventTime;
  end_ : option eventTime;
  attendees : option (list attendee)
}.

(** The exclusion pattern as handed to [new RegExp]:
    [pattern.replace(/\*/g, '.*')]. *)
Definition patternSource (pattern : string) : string :=
  Js.replaceAll "*" ".*" pattern.

(** [new Date(t.dateTime || t.date)] *)
Definition eventDate (t : eventTime) : Date :=
  match dateTime t, date t with
  | Some d, _ => d
  | None, Some d => d
  | None, None => None
  end.

Definition shouldIncludeEvent (cfg : config) (ev : event) : outcome bool :=
  match start ev with
  | None => Ret false
  | Some st =>
      if negb (bool_decide (is_Some (dateTime st))) && negb (bool_decide (is_Some (date st)))
      then Ret false
      else if bool_decide (is_Some (date st)) && negb (bool_decide (is_Some (dateTime st)))
      then Ret false
      else
        let eventTitle := Js.toLowerCase (default EmptyString (summary ev)) in
        if match excludeEvents cfg with
           | Some l => existsb (fun excluded => String.eqb eventTitle (Js.toLowerCase excluded)) l
           | None => false
           end
        then Ret false
        else
          excluded ← match excludeEventPatterns cfg with
                     | Some l =>
                         array_some (fun pattern =>
                           regex ← RegExp.compile (patternSource pattern) "i";
                           Ret (RegExp.test regex eventTitle)) l
                     | None => Ret false
                     end;
          if (excluded : bool) then Ret false
          else
            match end_ ev with
            | None => Throw TypeError
            | Some en =>
                let tooShort :=
                  match eventDate st, eventDate en with
                  | Some s, Some e => e - s <? minDuration cfg * (1000 * 60)
                  | _, _ => false
                  end in
                if tooShort then Ret false
                else if match attendees ev with
                        | Some l =>
                            existsb (fun a => self a && String.eqb (responseStatus a) "declined") l
                        | None => false
                        end
                then Ret false
                else Ret true
            end
  end.

End GCal.

(** ** The summarization service: the fallback summary *)

Module AI.

Import JsDate.

Definition nl : string := String "010" EmptyString.
Definition dq : string := String "034" EmptyString.

(** An entry of the list handed to the summarizer: [{ source, data }]. *)
Record activity : Type := { source : string; data : option json }.

(** A template-literal hole holding a property value; [None] is
    [undefined].  Arrays and objects are not needed. *)
Definition interpolate (v : option json) : outcome string :=
  match v with
  | None => Ret "undefined"
  | Some JNull => Ret "null"
  | Some (JBool b) => Ret (if b then "true" else "false")
  | Some (JNum n) => Ret (Js.intToString n)
  | Some (JStr s) => Ret s
  | Some _ => Unmodelled
  end.

(** [data.key]: a TypeError on [undefined] and [null]. *)
Definition prop (d : option json) (key : string) : outcome (option json) :=
  match d with
  | None | Some JNull => Throw TypeError
  | Some (JObj m) => Ret (m !! key)
  | Some (JArr _) | Some (JStr _) => Unmodelled
  | Some _ => Ret None
  end.

(** [`${data.key}`] *)
Definition hole (d : option json) (key : string) : outcome string :=
  v ← prop d key; interpolate v.

(** [v === 'text'] *)
Definition isText (v : option json) (t : string) : bool :=
  match v with
  | Some (JStr s) => String.eqb s t
  | _ => false
  end.

Definition describeActivity (a : activity) : outcome string :=
  let d := data a in
  if String.eqb (source a) "slack" then
    type ← hole d "type";
    channel ← hole d "channel";
    text ← prop d "text";
    match text with
    | Some (JStr t) =>
        Ret ("Slack " +:+ type +:+ " in #" +:+ channel +:+ ": " +:+ dq +:+
             substring 0 50 t +:+ "..." +:+ dq)
    | _ => Throw TypeError
    end
  else if String.eqb (source a) "github" then
    ty ← prop d "type";
    repository ← hole d "repository";
    if isText ty "pr_created" then
      title ← hole d "title";
      Ret ("GitHub PR created: " +:+ dq +:+ title +:+ dq +:+ " in " +:+ repository)
    else if isText ty "pr_reviewed" then
      title ← hole d "title";
      Ret ("GitHub PR reviewed: " +:+ dq +:+ title +:+ dq +:+ " in " +:+ repository)
    else if isText ty "commit" then
      message ← hole d "message";
      Ret ("GitHub commit: " +:+ dq +:+ message +:+ dq +:+ " in " +:+ repository)
    else
      type ← interpolate ty;
      Ret ("GitHub " +:+ type +:+ " in " +:+ repository)
  else if String.eqb (source a) "gcal" then
    eventType ← hole d "eventType";
    title ← hole d "title";
    duration ← prop d "duration";
    match duration with
    | Some (JNum n) =>
        Ret ("Calendar: " +:+ eventType +:+ " " +:+ dq +:+ title +:+ dq +:+ " (" +:+
             Js.intToString n +:+ "min)")
    | None =>
        Ret ("Calendar: " +:+ eventType +:+ " " +:+ dq +:+ title +:+ dq +:+ " (NaNmin)")
    | _ => Unmodelled
    end
  else Ret (source a +:+ " activity").

(** [activities.filter(a => a.source === src).length] *)
Definition countSource (src : string) (activities : list activity) : Z :=
  Z.of_nat (length (List.filter (fun a => String.eqb (source a) src) activities)).

(** [list.forEach(activity => { summary += `- ${describe(activity)}\n` })] *)
Fixpoint appendBullets (summary : string) (l : list activity) : outcome string :=
  match l with
  | [] => Ret summary
  | a :: l' =>
      line ← describeActivity a;
      appendBullets (summary +:+ "- " +:+ line +:+ nl) l'
  end.

Definition fallbackSummary (tz : Z) (activities : list activity) (date : Date)
  : outcome string :=
  let dateStr := toDateString tz date in
  let summary := "# Work Summary for " +:+ dateStr +:+ nl +:+ nl in
  let slackCount := countSource "slack" activities in
  let githubCount := countSource "github" activities in
  let calendarCount := countSource "gcal" activities in
  let summary := summary +:+ "## Activity Overview" +:+ nl in
  let summary := summary +:+ "- **Slack Communications**: " +:+
                 Js.intToString slackCount +:+ " activities" +:+ nl in
  let summary := summary +:+ "- **GitHub Activities**: " +:+
                 Js.intToString githubCount +:+ " activities" +:+ nl in
  let summary := summary +:+ "- **Calendar Events**: " +:+
                 Js.intToString calendarCount +:+ " events" +:+ nl +:+ nl in
  let summary := summary +:+ "## Key Activities" +:+ nl in
  appendBullets summary (firstn 10 activities).

(** The lines of a text. *)
Fixpoint linesFrom (cur : string) (s : string) : list string :=
  match s with
  | EmptyString => [cur]
  | String a s' =>
      if Ascii.eqb a "010" then cur :: linesFrom EmptyString s'
      else linesFrom (cur +:+ String a EmptyString) s'
  end.

Definition lines (s : string) : list string := linesFrom EmptyString s.

(** The Markdown bullet items of a text: the lines that open with a
    hyphen and a space. *)
Definition bulletItems (s : string) : list string :=
  List.filter (fun l => Js.startsWith l "- ") (lines s).

End AI.

(** ** The configuration loader (class ConfigManager) *)

Module Config.

(** [process.env]: the variables that are set, with their values. *)
Abbreviation environment := (gmap string string).

(** The longest run of characters other than the closing brace, and what
    follows it: how the greedy [[^}]+] reads. *)
Fixpoint spanName (s : string) : string * string :=
  match s with
  | EmptyString => (EmptyString, EmptyString)
  | String a s' =>
      if Ascii.eqb a "}" then (EmptyString, s)
      else let '(name, rest) := spanName s' in (String a name, rest)
  end.

(** A match of [/\$\{([^}]+)\}/] starting at the first character of [s]:
    the captured name.  After the longest run without a closing brace
    the next character is a closing brace or the end of the text, so no
    shorter run can succeed where the longest fails. *)
Definition matchPlaceholder (s : string) : option string :=
  match s with
  | String "$" (String "{" s') =>
      match spanName s' with
      | (String a name, String "}" _) => Some (String a name)
      | _ => None
      end
  | _ => None
  end.

(** The callback [(match, envVar) => process.env[envVar] || match]; an
    empty value is falsy. *)
Definition substitute (env : environment) (envVar : string) : string :=
  match env !! envVar with
  | Some (String a v) => String a v
  | _ => "${" +:+ envVar +:+ "}"
  end.

(** [obj.replace(/\$\{([^}]+)\}/g, callback)]: matches are looked for
    from left to right; [skip] counts the characters of the match just
    replaced that are still to be passed over. *)
Fixpoint replacePlaceholders (env : environment) (skip : nat) (s : string) : string :=
  match s with
  | EmptyString => EmptyString
  | String a s' =>
      match skip with
      | S k => replacePlaceholders env k s'
      | O =>
          match matchPlaceholder s with
          | Some envVar =>
              substitute env envVar +:+
              replacePlaceholders env (String.length envVar + 2) s'
          | None => String a (replacePlaceholders env O s')
          end
      end
  end.

Fixpoint resolveEnvVariables (env : environment) (obj : json) : json :=
  match obj with
  | JStr s => JStr (replacePlaceholders env O s)
  | JArr l => JArr (map (resolveEnvVariables env) l)
  | JObj m => JObj (resolveEnvVariables env <$> m)
  | _ => obj
  end.

(** [mergeConfigs(defaultConf, userConf)] for an object [userConf]; the
    recursion follows [userConf].  [defaultConf] may be any value
    ([None] is [undefined]): its spread starts the result. *)
Fixpoint mergeConfigs (userConf : json) (defaultConf : option json) {struct userConf}
  : json :=
  match userConf with
  | JObj um =>
      let perKey : gmap string (option json -> json) :=
        (fun v dv =>
           match v with
           | JObj _ => mergeConfigs v (if Json.truthy dv then dv else Some (JObj ∅))
           | _ => v
           end) <$> um in
      JObj (merge (fun dv f =>
              match f with
              | Some f => Some (f dv)
              | None => dv
              end) (Json.spread defaultConf) perKey)
  | _ => JObj (Json.spread defaultConf)
  end.

Section Load.

Variable defaultConfig : gmap string json.
Variable configPath : Fs.path.
Variable env : environment.

(** [load()]: the configuration it leaves in [this.config].  A user
    file holding an array or a text is outside the embedding. *)
Definition load : Fs.M json :=
  fun fs =>
    match
      Fs.bind (Fs.pathExists configPath) (fun present =>
        if (present : bool) then
          Fs.bind (Fs.readJson configPath) (fun userConfig =>
            match userConfig with
            | JArr _ | JStr _ => Fs.unmodelled
            | _ => Fs.ret (mergeConfigs userConfig (Some (JObj defaultConfig)))
            end)
        else
          Fs.bind (Fs.writeJson configPath (JObj defaultConfig)) (fun _ =>
            Fs.ret (JObj defaultConfig))) fs
    with
    | (Ret config, fs') => (Ret (resolveEnvVariables env config), fs')
    | (Throw _, fs') => (Ret (resolveEnvVariables env (JObj defaultConfig)), fs')
    | (Unmodelled, fs') => (Unmodelled, fs')
    end.

End Load.

(** A position in a configuration value: a key of an object or an index
    of an array at each step. *)
Inductive step : Type :=
  | Key (k : string)
  | Index (i : nat).

Fixpoint valueAt (p : list step) (v : json) : option json :=
  match p with
  | [] => Some v
  | Key k :: p' =>
      match v with
      | JObj m => v' ← m !! k; valueAt p' v'
      | _ => None
      end
  | Index i :: p' =>
      match v with
      | JArr l => v' ← l !! i; valueAt p' v'
      | _ => None
      end
  end.

End Config.

(** ** The storage layer: reading a journal back *)

Module Journals.

Import JsDate.

Section Service.

Variable tz : Z.
Variable cfg : Storage.config.

(** [getJournal(date)] for a [Date] object; [None] is the [null] result.
    The nested layout is looked at first, then the flat legacy place. *)
Definition getJournal (date : Date) : Fs.M (option string) :=
  Fs.try_catch
    (dateStr <- Fs.lift (format tz date (Storage.dateFormat cfg)) ;;
     let fileName := dateStr +:+ ".md" in
     let journalDir := Storage.getDailyJournalPath tz cfg date in
     let filePath := journalDir ++ [fileName] in
     present <- Fs.pathExists filePath ;;
     if (present : bool) then (content <- Fs.readFile filePath ;; Fs.ret (Some content))
     else
       let oldFilePath := Storage.outputDir cfg ++ [fileName] in
       presentOld <- Fs.pathExists oldFilePath ;;
       if (presentOld : bool)
       then (content <- Fs.readFile oldFilePath ;; Fs.ret (Some content))
       else Fs.ret None)
    (fun _ => Fs.ret None).

End Service.

End Journals.

(** ** The Google Calendar connector: [filterCalendars], [categorizeEvent] *)

Module Calendar.

(** An entry of the calendar list. *)
Record calendar : Type := { cal_summary : string; cal_id : string }.

(** The entries of [config.integrations.gcal] read by [filterCalendars];
    [includeCalendars] may be absent. *)
Record config : Type := {
  includeCalendars : option (list string);
  excludeCalendars : list string;
  excludeCalendarPatterns : list string
}.

Definition patternSource (pattern : string) : string :=
  Js.replace "*" ".*" pattern.

(** The callback of [includeCalendars.some]. *)
Definition matchesIncluded (cal : calendar) (included : string) : bool :=
  let calendarName := Js.toLowerCase (cal_summary cal) in
  let calendarId := Js.toLowerCase (cal_id cal) in
  let includedLower := Js.toLowerCase included in
  Js.includes calendarName includedLower ||
  Js.includes calendarId includedLower ||
  String.eqb (cal_id cal) included ||
  String.eqb (cal_summary cal) included.

(** The callback of [excludeCalendars.some]. *)
Definition matchesExcluded (cal : calendar) (excluded : string) : bool :=
  let calendarName := Js.toLowerCase (cal_summary cal) in
  let calendarId := Js.toLowerCase (cal_id cal) in
  Js.includes calendarName (Js.toLowerCase excluded) ||
  Js.includes calendarId (Js.toLowerCase excluded).

(** The callback of [calendars.filter]. *)
Definition keepCalendar (cfg : config) (cal : calendar) : outcome bool :=
  let calendarName := Js.toLowerCase (cal_summary cal) in
  let calendarId := Js.toLowerCase (cal_id cal) in
  if match includeCalendars cfg with
     | Some (i :: l) => negb (existsb (matchesIncluded cal) (i :: l))
     | _ => false
     end
  then Ret false
  else if existsb (matchesExcluded cal) (excludeCalendars cfg) then Ret false
  else
    excluded ← array_some (fun pattern =>
                  regex ← RegExp.compile (patternSource pattern) "i";
                  Ret (RegExp.test regex calendarName || RegExp.test regex calendarId))
                (excludeCalendarPatterns cfg);
    if (excluded : bool) then Ret false else Ret true.

Definition filterCalendars (cfg : config) (calendars : list calendar)
  : outcome (list calendar) :=
  array_filter (keepCalendar cfg) calendars.

(** [categorizeEvent(event)]; [description] is [event.description], absent
    or a text. *)
Definition categorizeEvent (ev : GCal.event) (description : option string) : string :=
  let title := Js.toLowerCase (default EmptyString (GCal.summary ev)) in
  let description := Js.toLowerCase (default EmptyString description) in
  let combined := title +:+ " " +:+ description in
  if Js.includes combined "standup" || Js.includes combined "stand up" ||
     Js.includes combined "daily"
  then "standup"
  else if Js.includes combined "retro" || Js.includes combined "retrospective"
  then "retrospective"
  else if Js.includes combined "planning" || Js.includes combined "sprint planning"
  then "planning"
  else if Js.includes combined "review" || Js.includes combined "demo"
  then "review"
  else if Js.includes combined "1:1" || Js.includes combined "one on one" ||
          Js.includes combined "1-on-1"
  then "one_on_one"
  else if Js.includes combined "interview" || Js.includes combined "screening"
  then "interview"
  else if Js.includes combined "all hands" || Js.includes combined "town hall" ||
          Js.includes combined "company"
  then "all_hands"
  else if Js.includes combined "training" || Js.includes combined "workshop" ||
          Js.includes combined "learning"
  then "training"
  else if match GCal.attendees ev with
          | Some l => (1 <? length l)%nat
          | None => false
          end
  then "meeting"
  else "focus_time".

End Calendar.

(** ** The summarization service: the fallback categorization *)

Module Categories.

(** [activities.filter(a => a.source === src)] *)
Definition ofSource (src : string) (activities : list AI.activity) : list AI.activity :=
  List.filter (fun a => String.eqb (AI.source a) src) activities.

(** [fallbackCategorization(activities)]: the object as the list of its
    entries, in key order; a deleted key leaves the others in place. *)
Definition fallbackCategorization (activities : list AI.activity)
  : list (string * list AI.activity) :=
  let categories :=
    [("Communication", ofSource "slack" activities);
     ("Development", ofSource "github" activities);
     ("Meetings", ofSource "gcal" activities)] in
  List.filter (fun entry => negb (length (snd entry) =? 0)%nat) categories.

End Categories.

(** ** The configuration manager: [get], [set], [save] and the
    [config --set] command

    [this.config] after [load] is an object; it is the argument here.
    Reading a property name that every object inherits ([toString],
    [constructor], ...) and is not a property of the object itself, and
    walking into an array or a text, are outside the embedding. *)

Module Settings.

Definition inheritedNames : list string :=
  ["constructor"; "__proto__"; "hasOwnProperty"; "isPrototypeOf"; "propertyIsEnumerable";
   "toLocaleString"; "toString"; "valueOf"; "__defineGetter__"; "__defineSetter__";
   "__lookupGetter__"; "__lookupSetter__"].

Definition inherited (k : string) : bool := Js.list_includes inheritedNames k.

(** [key.split('.')] *)
Fixpoint splitFrom (cur : string) (s : string) : list string :=
  match s with
  | EmptyString => [cur]
  | String a s' =>
      if Ascii.eqb a "." then cur :: splitFrom EmptyString s'
      else splitFrom (cur +:+ String a EmptyString) s'
  end.

Definition split (key : string) : list string := splitFrom EmptyString key.

(** [obj?.[k]]; [None] is [undefined]. *)
Definition optionalIndex (obj : option json) (k : string) : outcome (option json) :=
  match obj with
  | None | Some JNull => Ret None
  | Some (JObj m) =>
      match m !! k with
      | Some v => Ret (Some v)
      | None => if inherited k then Unmodelled else Ret None
      end
  | Some _ => Unmodelled
  end.

(** [keys.reduce((obj, k) => obj?.[k], start)] *)
Fixpoint reduceGet (keys : list string) (obj : option json) : outcome (option json) :=
  match keys with
  | [] => Ret obj
  | k :: keys' => next ← optionalIndex obj k; reduceGet keys' next
  end.

(** [get(key)]; [None] is the default [null], and an empty key is falsy
    as well: both give the whole configuration. *)
Definition get (config : gmap string json) (key : option string) : outcome (option json) :=
  match key with
  | Some (String a key') => reduceGet (split (String a key')) (Some (JObj config))
  | _ => Ret (Some (JObj config))
  end.

(** The walk of [set] from [obj] along [keys] with the assignment
    [target[lastKey] = value] at its end: the object [obj] has become.
    A step onto a missing or falsy value puts an empty object there. *)
Fixpoint assign (keys : list string) (lastKey : string) (value : json) (obj : json)
  : outcome json :=
  match obj with
  | JObj m =>
      match keys with
      | [] =>
          if String.eqb lastKey "__proto__" then Unmodelled
          else Ret (JObj (<[lastKey := value]> m))
      | k :: keys' =>
          match m !! k with
          | Some v =>
              child ← assign keys' lastKey value (if Json.truthy (Some v) then v else JObj ∅);
              Ret (JObj (<[k := child]> m))
          | None =>
              if inherited k then Unmodelled
              else
                child ← assign keys' lastKey value (JObj ∅);
                Ret (JObj (<[k := child]> m))
          end
      end
  | _ => Unmodelled
  end.

(** [set(key, value)]: the configuration after it. *)
Definition set (config : gmap string json) (key : string) (value : json) : outcome json :=
  let keys := split key in
  let lastKey := List.last keys EmptyString in
  let keys := removelast keys in
  assign keys lastKey value (JObj config).

Section Manager.

Variable defaultConfig : gmap string json.
Variable configPath : Fs.path.
Variable env : Config.environment.

(** [save()] *)
Definition save (config : json) : Fs.M unit :=
  Fs.try_catch
    (_ <- Fs.ensureDir (removelast configPath) ;;
     Fs.writeJson configPath config)
    (fun error => Fs.throw error).

(** The action of [config --set key=value] once the value is parsed:
    [load], [set], [save]. *)
Definition setCommand (key : string) (parsedValue : json) : Fs.M unit :=
  config <- Config.load defaultConfig configPath env ;;
  match key with
  | EmptyString => Fs.ret tt
  | _ =>
      match config with
      | JObj m =>
          config' <- Fs.lift (set m key parsedValue) ;;
          save config'
      | _ => Fs.unmodelled
      end
  end.

End Manager.

End Settings.

(** * Definitions used to state the properties *)

Section Statements.

Import JsDate.

(** ** Shapes of results *)

(** The keyword categories of [extractIntent] with the outcome of their
    tests on a text, in source order. *)
Definition intentCategories (text : string) : list (string * bool) :=
  [("question", Slack.isQuestion text);
   ("decision", Slack.isDecision text);
   ("status_update", Slack.isStatusUpdate text);
   ("coordination", Slack.isCoordination text);
   ("problem_solving", Slack.isProblemSolving text);
   ("information_sharing", Slack.isInformationSharing text)].

(** The exclusion pattern compiles to a regular expression. *)
Definition patternCompiles (pattern : string) : bool :=
  match RegExp.compile (Slack.patternSource pattern) "i" with
  | Ret _ => true
  | _ => false
  end.

(** The document [saveRawData] writes over what the file held. *)
Definition mergedData (now : Z) (existingData data : json) : gmap string json :=
  <["data" := Json.asArray data]>
    (<["timestamp" := JStr (JsDate.isoString now)]> (Json.spread (Some existingData))).

(** The text of the fallback summary after its header line when there are
    no activities. *)
Definition emptyOverview : string :=
  AI.nl +:+ "## Activity Overview" +:+ AI.nl +:+
  "- **Slack Communications**: 0 activities" +:+ AI.nl +:+
  "- **GitHub Activities**: 0 activities" +:+ AI.nl +:+
  "- **Calendar Events**: 0 events" +:+ AI.nl +:+ AI.nl +:+
  "## Key Activities" +:+ AI.nl.

(** ** The date-fns week functions on day numbers *)

(** The day on which the week of day [d] starts. *)
Definition weekStartDay (weekStartsOn d : Z) : Z :=
  let day := (d + 4) mod 7 in
  d - ((if day <? weekStartsOn then 7 else 0) + day - weekStartsOn).

(** The week-numbering year of day [d]. *)
Definition weekYearOfDay (weekStartsOn d : Z) : Z :=
  let year := fst (yearMonthFromDays d) in
  if weekStartDay weekStartsOn (daysFromCivil (year + 1) 1 1) <=? d then year + 1
  else if weekStartDay weekStartsOn (daysFromCivil year 1 1) <=? d then year
  else year - 1.

(** The week number of day [d]. *)
Definition weekOfDay (weekStartsOn d : Z) : Z :=
  roundDiv
    ((weekStartDay weekStartsOn d -
      weekStartDay weekStartsOn (daysFromCivil (weekYearOfDay weekStartsOn d) 1 1))
     * msPerDay)
    millisecondsInWeek + 1.

(** ** The day loop *)

(** The number of iterations of the loop from [c] to [e]. *)
Definition iterations (c e : Z) : nat :=
  if c <=? e then Z.to_nat ((e - c) / msPerDay + 1) else O.

(** [n] consecutive days from the time value [c], a day apart. *)
Fixpoint daysFrom (n : nat) (c : Z) : list JsDate.Date :=
  match n with
  | O => []
  | S k => Some c :: daysFrom k (c + JsDate.msPerDay)
  end.

(** The local calendar days of the calls of [searchUserMessages]. *)
Definition searchedDays (tz : Z) (log : list SlackSync.dailySearch) : list (option Z) :=
  map (fun d => JsDate.localDay tz <$> SlackSync.dayStart d) log.

(** ** Concrete settings, disks and surroundings *)

(** The default Slack settings of [src/config/default.js], with [test-*]
    as the only exclusion pattern. *)
Definition slackTestConfig : Slack.config :=
  {| Slack.excludeChannels := ["random"; "general"];
     Slack.excludeChannelPatterns := ["test-*"];
     Slack.trackDMs := true;
     Slack.minMessageLength := 10;
     Slack.maxMessages := 200;
     Slack.rateLimitDelay := 1200 |}.

(** A message of 22 characters on a public channel of the given name. *)
Definition messageOn (channelName : string) : Slack.activity :=
  {| Slack.type := "public_channel_message";
     Slack.channel := channelName;
     Slack.channelId := "C024BE91L";
     Slack.timestamp := "2024-01-15T10:00:00.000Z";
     Slack.text := "deployed the new build";
     Slack.user := "U12345";
     Slack.isUserMessage := true;
     Slack.threadTs := None;
     Slack.permalink := "https://example.slack.com/archives/C024BE91L/p1705312800000200";
     Slack.reactions := [];
     Slack.intent := ["general_communication"];
     Slack.searchScore := 0 |}.

(** The storage settings of [src/config/default.js]. *)
Definition storageConfig : Storage.config :=
  {| Storage.dataDir := ["data"];
     Storage.syncStateFile := ["data"; "sync-state.json"];
     Storage.rawDataDir := ["data"; "raw-data"];
     Storage.outputDir := ["data"; "journals"];
     Storage.dateFormat := "yyyy-MM-dd" |}.

(** The disk after a first save of two Slack activities for 2024-01-15 on
    an empty disk. *)
Definition afterFirstSave : Fs.filesystem :=
  snd (Storage.saveRawData 0 storageConfig 1705312800000 "slack"
         (JsDate.OfString "2024-01-15") (JArr [JStr "first"; JStr "kept?"]) ∅).

(** A sync-state document with entries for two integrations, and the disk
    that holds it. *)
Definition syncStateBefore : gmap string json :=
  {[ "github" := JObj {[ "totalActivities" := JNum 4;
                         "lastSync" := JStr "2024-01-14T09:00:00.000Z" ]};
     "slack" := JObj {[ "totalActivities" := JNum 7; "userId" := JStr "U12345";
                        "lastSync" := JStr "2024-01-14T09:00:01.000Z" ]} ]}.

Definition syncStateDisk : Fs.filesystem :=
  {[ ["data"; "sync-state.json"] := Fs.JsonFile (JObj syncStateBefore) ]}.

(** Defaults with placeholders at two depths, and an environment that
    sets one of the two variables. *)
Definition jiraDefaults : gmap string json :=
  {[ "integrations" :=
       JObj {[ "jira" := JObj {[ "host" := JStr "${JIRA_HOST}";
                                 "projects" := JArr [JStr "OPS"; JStr "${JIRA_PROJECT}"] ]} ]} ]}.

Definition jiraEnvironment : Config.environment :=
  {[ "JIRA_HOST" := "issues.example.org" ]}.

(** An output directory that holds the legacy journal of 2024-01-15 and a
    file of notes. *)
Definition legacyDisk : Fs.filesystem :=
  {[ ["data"; "journals"; "2024-01-15.md"] := Fs.TextFile "# Monday";
     ["data"; "journals"; "notes.md"] := Fs.TextFile "to do" ]}.

(** A Slack workspace without messages: the authentication succeeds and
    every search comes back empty. *)
Definition quietAuth : outcome (string * string) := Ret ("U12345", "ada").

Definition quietSearch (rq : SlackSync.request) : outcome (list SlackSync.rawMessage) :=
  Ret [].

Definition noReplies (messages : list SlackSync.rawMessage) (dateStr : string)
  : list SlackSync.rawMessage := messages.

(** Clock readings a millisecond apart. *)
Definition syncClock (i : nat) : Z := 1705500000000 + Z.of_nat i.

End Statements.

(** ** Further settings, disks and shapes *)

(** A raw-data file that carries a field of its own besides the two the
    storage layer writes. *)
Definition annotatedDisk : Fs.filesystem :=
  {[ ["data"; "raw-data"; "github"; "2024-01-15.json"] :=
       Fs.JsonFile (JObj {[ "data" := JArr [JStr "old"];
                            "timestamp" := JStr "2024-01-15T08:00:00.000Z";
                            "reviewed" := JBool true ]}) ]}.

(** A disk whose sync-state file is not JSON. *)
Definition brokenStateDisk : Fs.filesystem :=
  {[ ["data"; "sync-state.json"] := Fs.TextFile "{ not json" ]}.

(** A legacy journal whose place in the nested layout is taken. *)
Definition takenDisk : Fs.filesystem :=
  {[ ["data"; "journals"; "2024-01-15.md"] := Fs.TextFile "# Monday";
     ["data"; "journals"; "daily"; "2024"; "week-03"; "2024-01-15.md"] :=
       Fs.TextFile "# Monday, rewritten" ]}.

(** An activity that [shouldIncludeMessage] lets through. *)
Definition included (cfg : Slack.config) (a : Slack.activity) : Prop :=
  Slack.shouldIncludeMessage cfg a = Ret true.

(** A workspace with two messages a day: one on [dev], one on
    [test-foo], a channel the pattern [test-*] excludes. *)
Definition channelNamed (name : string) : Slack.channelObj :=
  {| Slack.ch_id := "C024BE91L"; Slack.ch_name := name; Slack.is_im := false;
     Slack.is_mpim := false; Slack.is_private := false; Slack.is_channel := true |}.

Definition messageIn (name : string) : SlackSync.rawMessage :=
  {| SlackSync.ts_ms := Some 1705312800000;
     SlackSync.thread_ts := None;
     SlackSync.msg_text := "deployed the new build";
     SlackSync.msg_user := "U12345";
     SlackSync.msg_channel := Some (channelNamed name);
     SlackSync.msg_permalink := "https://example.slack.com/archives/C024BE91L/p1705312800000200";
     SlackSync.score := 0 |}.

Definition busySearch (rq : SlackSync.request) : outcome (list SlackSync.rawMessage) :=
  Ret [messageIn "dev"; messageIn "test-foo"].

(** GitHub settings that exclude one repository by name and the forks by
    pattern, and three activities. *)
Definition githubTestConfig : GitHub.config :=
  {| GitHub.excludeRepos := ["ada/dotfiles"];
     GitHub.excludeRepoPatterns := ["*-fork"] |}.

Definition commitIn (repo : string) : GitHub.activity :=
  {| GitHub.type := "commit"; GitHub.repository := repo;
     GitHub.title := "fix the build"; GitHub.timestamp := "2024-01-15T10:00:00.000Z" |}.

(** The labels [categorizeEvent] can give, in source order. *)
Definition eventTypes : list string :=
  ["standup"; "retrospective"; "planning"; "review"; "one_on_one"; "interview";
   "all_hands"; "training"; "meeting"; "focus_time"].

(** A timed event of half an hour with the given title, no description
    and no attendees. *)
Definition eventTitled (title : string) : GCal.event :=
  {| GCal.summary := Some title;
     GCal.start := Some {| GCal.dateTime := Some (Some 1705312800000); GCal.date := None |};
     GCal.end_ := Some {| GCal.dateTime := Some (Some 1705314600000); GCal.date := None |};
     GCal.attendees := None |}.

(** The calendar settings of [src/config/default.js] with one calendar to
    include, and the calendar settings as they are. *)
Definition calendarTestConfig : Calendar.config :=
  {| Calendar.includeCalendars := Some ["work"];
     Calendar.excludeCalendars := ["personal"; "Birthdays"; "holidays"];
     Calendar.excludeCalendarPatterns := ["*personal*"; "*birthday*"; "*holiday*"] |}.

Definition calendarNamed (name : string) : Calendar.calendar :=
  {| Calendar.cal_summary := name; Calendar.cal_id := "c_1f3a@group.calendar.google.com" |}.

Definition gcalTestConfig : GCal.config :=
  {| GCal.excludeEvents := Some ["Lunch"];
     GCal.excludeEventPatterns := Some ["*block*"];
     GCal.minDuration := 15 |}.

(** The sources the summarization service knows, with the category of
    each. *)
Definition categoryOfSource : list (string * string) :=
  [("Communication", "slack"); ("Development", "github"); ("Meetings", "gcal")].

Definition knownSource (src : string) : bool :=
  existsb (fun entry => String.eqb src (snd entry)) categoryOfSource.

(** The line of the fallback summary for an activity of a source the
    service does not know. *)
Definition genericBullet (a : AI.activity) : string :=
  "- " +:+ AI.source a +:+ " activity" +:+ AI.nl.

Fixpoint concatAll (l : list string) : string :=
  match l with
  | [] => EmptyString
  | s :: l' => s +:+ concatAll l'
  end.

(** A Jira ticket and a Slack message as handed to the summarizer. *)
Definition jiraTicket : AI.activity :=
  {| AI.source := "jira";
     AI.data := Some (JObj {[ "key" := JStr "OPS-7"; "type" := JStr "ticket_updated" ]}) |}.

Definition slackNote : AI.activity :=
  {| AI.source := "slack";
     AI.data := Some (JObj {[ "type" := JStr "public_channel_message";
                              "channel" := JStr "dev";
                              "text" := JStr "deployed the new build" ]}) |}.

(** Two key paths part ways: after a common prefix they go on with
    different keys. *)
Fixpoint diverge (p q : list string) : bool :=
  match p, q with
  | a :: p', b :: q' => if String.eqb a b then diverge p' q' else true
  | _, _ => false
  end.

(** A loaded configuration in which the Slack entry is [null]. *)
Definition sparseConfig : gmap string json :=
  {[ "integrations" := JObj {[ "slack" := JNull;
                               "github" := JObj {[ "enabled" := JBool true ]} ]};
     "sync" := JObj {[ "lookbackDays" := JNum 1 ]} ]}.

(** The user configuration leaves the path [p] to the defaults: on the
    way along [p] it holds objects, and at some step no entry. *)
Fixpoint untouched (userConf : json) (p : list string) : bool :=
  match p with
  | [] => false
  | k :: p' =>
      match userConf with
      | JObj um =>
          match um !! k with
          | None => true
          | Some v => untouched v p'
          end
      | _ => false
      end
  end.

(** A value other than an object: what [mergeConfigs] copies as it is. *)
Definition isLeaf (v : json) : bool :=
  match v with
  | JObj _ => false
  | _ => true
  end.

(** Defaults and a user file for the merge. *)
Definition slackDefaults : gmap string json :=
  {[ "integrations" :=
       JObj {[ "slack" := JObj {[ "enabled" := JBool true;
                                  "excludeChannels" := JArr [JStr "random"; JStr "general"];
                                  "token" := JStr "${SLACK_USER_TOKEN}" ]} ]} ]}.

Definition slackUserConfig : gmap string json :=
  {[ "integrations" :=
       JObj {[ "slack" := JObj {[ "excludeChannels" := JArr [JStr "lunch"] ]} ]} ]}.

Definition userConfigDisk : Fs.filesystem :=
  {[ ["config.json"] := Fs.JsonFile (JObj slackUserConfig) ]}.

Definition slackEnvironment : Config.environment :=
  {[ "SLACK_USER_TOKEN" := "xoxp-1" ]}.

(** * Properties *)

(** ** String primitives *)

Section StringFacts.

Implicit Types (s r a b : string) (c : ascii).

Lemma append_cons c s r : String c s +:+ r = String c (s +:+ r).
Proof. reflexivity. Qed.

Lemma append_nil_l s : EmptyString +:+ s = s.
Proof. reflexivity. Qed.

Lemma append_assoc s1 s2 s3 : (s1 +:+ s2) +:+ s3 = s1 +:+ (s2 +:+ s3).
Proof.
  induction s1 as [|x s1 IH]; [done |].
  by rewrite !append_cons, IH.
Qed.

Lemma append_empty_r s : s +:+ EmptyString = s.
Proof. induction s as [|x s IH]; [done | by rewrite append_cons, IH]. Qed.

Lemma count_app c a b : Js.count c (a +:+ b) = (Js.count c a + Js.count c b)%nat.
Proof.
  induction a as [|x a IH]; [done |].
  rewrite append_cons. simpl. rewrite IH. lia.
Qed.

(** [replace] rewrites the first occurrence and leaves what follows it
    as it is. *)
Lemma replace_first_occurrence c r a b :
  Js.count c a = O ->
  Js.replace c r (a +:+ String c b) = a +:+ r +:+ b.
Proof.
  induction a as [|x a IH]; intros Hc.
  - rewrite !append_nil_l. simpl. by rewrite Ascii.eqb_refl.
  - rewrite !append_cons. simpl in *.
    destruct (Ascii.eqb x c); [done |]. by rewrite IH.
Qed.

Lemma replace_absent c r s : Js.count c s = O -> Js.replace c r s = s.
Proof.
  induction s as [|x s IH]; simpl; intros Hc; [done |].
  destruct (Ascii.eqb x c); [done |]. by rewrite IH.
Qed.

(** [replaceAll] distributes over concatenation: every occurrence is
    rewritten, wherever it stands. *)
Lemma replaceAll_app c r a b :
  Js.replaceAll c r (a +:+ b) = Js.replaceAll c r a +:+ Js.replaceAll c r b.
Proof.
  induction a as [|x a IH]; [done |].
  rewrite append_cons. simpl.
  destruct (Ascii.eqb x c); rewrite IH; [by rewrite append_assoc | done].
Qed.

Lemma replaceAll_absent c r s : Js.count c s = O -> Js.replaceAll c r s = s.
Proof.
  induction s as [|x s IH]; simpl; intros Hc; [done |].
  destruct (Ascii.eqb x c); [done |]. by rewrite IH.
Qed.

End StringFacts.

(** ** The Slack message filter and the intent labels *)

(** C9.  For every message text [extractIntent] returns a non-empty list
    of labels: the labels of all the keyword categories that match, in
    source order, when at least one matches, and exactly
    [general_communication] when none does. *)
Theorem extractIntent_labels (text channelName : string) :
  Slack.extractIntent text channelName <> [] /\
  Slack.extractIntent text channelName =
    if existsb snd (intentCategories text)
    then map fst (List.filter snd (intentCategories text))
    else ["general_communication"].
Proof.
  unfold Slack.extractIntent, intentCategories, Slack.pushIf.
  destruct (Slack.isQuestion text), (Slack.isDecision text),
    (Slack.isStatusUpdate text), (Slack.isCoordination text),
    (Slack.isProblemSolving text), (Slack.isInformationSharing text);
    split; simpl; congruence.
Qed.

(** A message on a channel that the other conditions of
    [shouldIncludeMessage] let through, under the single pattern given. *)
Lemma shouldIncludeMessage_pattern_only (cfg : Slack.config) (m : Slack.activity) :
  Slack.minMessageLength cfg <= Z.of_nat (String.length (Slack.text m)) ->
  Js.list_includes (Slack.excludeChannels cfg) (Slack.channel m) = false ->
  Slack.trackDMs cfg = true \/ String.eqb (Slack.type m) "direct_message" = false ->
  Slack.shouldIncludeMessage cfg m =
    excluded ← array_some (fun pattern =>
                  regex ← RegExp.compile (Slack.patternSource pattern) "i";
                  Ret (RegExp.test regex (Slack.channel m)))
                (Slack.excludeChannelPatterns cfg);
    Ret (negb excluded).
Proof.
  intros Hlen Hch Hdm. unfold Slack.shouldIncludeMessage.
  destruct (Z.ltb_spec (Z.of_nat (String.length (Slack.text m)))
              (Slack.minMessageLength cfg)) as [Hlt|_]; [lia |].
  rewrite Hch.
  destruct (array_some _ _) as [[|]| |]; simpl; try done.
  destruct Hdm as [-> | ->]; simpl; [done |].
  by rewrite andb_false_r.
Qed.

(** C2, as amended.  Under the pattern list [['test-*']] a message that
    passes the other conditions is excluded on channel [test-foo] and also
    on channel [contest-1] (the expression [test-.*] is not tied to the
    start of the name), and it is kept on channel [test] (the hyphen of the
    pattern is required). *)
Theorem test_star_pattern_unanchored (cfg : Slack.config) (m : Slack.activity) :
  Slack.excludeChannelPatterns cfg = ["test-*"] ->
  Slack.minMessageLength cfg <= Z.of_nat (String.length (Slack.text m)) ->
  Js.list_includes (Slack.excludeChannels cfg) (Slack.channel m) = false ->
  Slack.trackDMs cfg = true \/ String.eqb (Slack.type m) "direct_message" = false ->
  (Slack.channel m = "test-foo" -> Slack.shouldIncludeMessage cfg m = Ret false) /\
  (Slack.channel m = "contest-1" -> Slack.shouldIncludeMessage cfg m = Ret false) /\
  (Slack.channel m = "test" -> Slack.shouldIncludeMessage cfg m = Ret true).
Proof.
  intros Hpat Hlen Hch Hdm.
  rewrite (shouldIncludeMessage_pattern_only cfg m Hlen Hch Hdm), Hpat.
  repeat split; intros ->; vm_compute; reflexivity.
Qed.

Lemma test_star_pattern_unanchored_witness :
  Slack.shouldIncludeMessage slackTestConfig (messageOn "contest-1") = Ret false.
Proof.
  apply (test_star_pattern_unanchored slackTestConfig (messageOn "contest-1"));
    [reflexivity | simpl; lia | reflexivity | left; reflexivity | reflexivity].
Defined.

(** C2, as stated, fails: [test] is kept and [contest-1] is excluded. *)
Lemma test_star_pattern_counterexample :
  ~ (Slack.shouldIncludeMessage slackTestConfig (messageOn "test-foo") = Ret false /\
     Slack.shouldIncludeMessage slackTestConfig (messageOn "test") = Ret false /\
     Slack.shouldIncludeMessage slackTestConfig (messageOn "contest-1") = Ret true).
Proof. intros (_ & H & _). vm_compute in H. discriminate H. Qed.

(** ** Compiling exclusion patterns *)

(** C10.  The Slack channel filter and the GitHub repository filter turn
    only the first [*] of a pattern into [.*]: whatever follows it, later
    [*] characters included, reaches the regular expression as written.
    The calendar event filter goes on converting after the first [*]. *)
Theorem star_conversion_first_only (a b : string) :
  Js.count "*" a = O ->
  Slack.patternSource (a +:+ "*" +:+ b) = a +:+ ".*" +:+ b /\
  GitHub.patternSource (a +:+ "*" +:+ b) = a +:+ ".*" +:+ b /\
  GCal.patternSource (a +:+ "*" +:+ b) = a +:+ ".*" +:+ GCal.patternSource b.
Proof.
  intros Ha. unfold Slack.patternSource, GitHub.patternSource, GCal.patternSource.
  change ("*" +:+ b) with (String "*" b).
  rewrite replace_first_occurrence by done.
  repeat split.
  rewrite replaceAll_app, (replaceAll_absent _ _ a) by done.
  reflexivity.
Qed.

Lemma star_conversion_first_only_witness :
  Slack.patternSource "dev-*-tmp*" = "dev-.*-tmp*" /\
  GitHub.patternSource "dev-*-tmp*" = "dev-.*-tmp*" /\
  GCal.patternSource "dev-*-tmp*" = "dev-.*-tmp.*".
Proof. apply (star_conversion_first_only "dev-" "-tmp*"). reflexivity. Defined.

(** What the difference does to a pattern with two stars: [*sync*] becomes
    [.*sync*] for Slack, where the last star repeats the [c] and a name
    containing [syn] is enough, and [.*sync.*] for the calendar, which asks
    for [sync]. *)
Example two_star_pattern_slack :
  Slack.shouldIncludeMessage
    {| Slack.excludeChannels := []; Slack.excludeChannelPatterns := ["*sync*"];
       Slack.trackDMs := true; Slack.minMessageLength := 10;
       Slack.maxMessages := 200; Slack.rateLimitDelay := 1200 |}
    (messageOn "syntax-help") = Ret false.
Proof. vm_compute. reflexivity. Qed.

Example two_star_pattern_gcal :
  GCal.shouldIncludeEvent
    {| GCal.excludeEvents := None; GCal.excludeEventPatterns := Some ["*sync*"];
       GCal.minDuration := 15 |}
    {| GCal.summary := Some "Syntax help";
       GCal.start := Some {| GCal.dateTime := Some (Some 1705312800000); GCal.date := None |};
       GCal.end_ := Some {| GCal.dateTime := Some (Some 1705316400000); GCal.date := None |};
       GCal.attendees := None |} = Ret true.
Proof. vm_compute. reflexivity. Qed.

(** ** The file-system monad *)

Section FsFacts.

Implicit Types (fs : Fs.filesystem) (p : Fs.path).

(** Reading a path: the document, when the path holds one. *)
Lemma read_if_present fs p :
  Fs.bind (Fs.pathExists p)
    (fun present => if (present : bool) then Fs.readJson p else Fs.ret (JObj ∅)) fs =
  match fs !! p with
  | Some (Fs.JsonFile j) => (Ret j, fs)
  | Some (Fs.TextFile _) => (Throw SyntaxError, fs)
  | None => if Fs.isDirectory fs p then (Throw (FsError "ENOENT"), fs) else (Ret (JObj ∅), fs)
  end.
Proof.
  unfold Fs.bind, Fs.pathExists, Fs.readJson, Fs.ret.
  destruct (fs !! p) as [[j|t]|] eqn:E; simpl; rewrite ?E; try done.
  destruct (Fs.isDirectory fs p); simpl; rewrite ?E; done.
Qed.

End FsFacts.

(** ** Raw data: saving twice *)

Section RawData.

Variable tz : Z.
Variable cfg : Storage.config.

Lemma saveRawData_unfold now integration date data fs :
  Storage.saveRawData tz cfg now integration date data fs =
  match (d ← JsDate.newDate date; JsDate.format tz d "yyyy-MM-dd") with
  | Ret dateStr =>
      let filePath := Storage.rawDataPath cfg integration dateStr in
      match fs !! filePath with
      | Some (Fs.JsonFile j) =>
          (Ret filePath, <[filePath := Fs.JsonFile (JObj (mergedData now j data))]> fs)
      | Some (Fs.TextFile _) => (Throw SyntaxError, fs)
      | None =>
          if Fs.isDirectory fs filePath then (Throw (FsError "ENOENT"), fs)
          else (Ret filePath,
                <[filePath := Fs.JsonFile (JObj (mergedData now (JObj ∅) data))]> fs)
      end
  | Throw e => (Throw e, fs)
  | Unmodelled => (Unmodelled, fs)
  end.
Proof.
  unfold Storage.saveRawData, Storage.rawDataPath, Fs.try_catch, Fs.lift, Fs.bind,
    Fs.ensureDir, Fs.ret, Fs.pathExists, Fs.readJson, Fs.writeJson, Fs.throw.
  destruct (_ ≫= _) as [dateStr|e|]; [|done..].
  rewrite <- (app_assoc _ [integration] [_]). simpl ([integration] ++ _).
  destruct (fs !! _) as [[j|t]|] eqn:E; simpl; rewrite ?E; try done.
  destruct (Fs.isDirectory fs _); simpl; rewrite ?E; done.
Qed.

Lemma getRawData_unfold integration date fs :
  Storage.getRawData tz cfg integration date fs =
  match (d ← JsDate.newDate date; JsDate.format tz d "yyyy-MM-dd") with
  | Ret dateStr =>
      match fs !! Storage.rawDataPath cfg integration dateStr with
      | Some (Fs.JsonFile j) => (Ret (Some j), fs)
      | Some (Fs.TextFile _) => (Ret None, fs)
      | None => (Ret None, fs)
      end
  | Throw e => (Ret None, fs)
  | Unmodelled => (Unmodelled, fs)
  end.
Proof.
  unfold Storage.getRawData, Storage.rawDataPath, Fs.try_catch, Fs.lift, Fs.bind,
    Fs.ret, Fs.pathExists, Fs.readJson.
  destruct (_ ≫= _) as [dateStr|e|]; [|done..].
  destruct (fs !! _) as [[j|t]|] eqn:E; simpl; rewrite ?E; try done.
  destruct (Fs.isDirectory fs _); simpl; rewrite ?E; done.
Qed.

(** C1.  When [saveRawData(integration, day, d1)] has gone through, a
    following [saveRawData(integration, day, d2)] goes through as well
    and leaves, at the same path, a document whose [data] field is [d2]
    as given: nothing of [d1] is kept, and that document is what
    [getRawData] returns. *)
Theorem saveRawData_twice_overwrites
    (now1 now2 : Z) (integration : string) (day : JsDate.dateArg)
    (d1 d2 : list json) (fs fs1 : Fs.filesystem) (p : Fs.path) :
  Storage.saveRawData tz cfg now1 integration day (JArr d1) fs = (Ret p, fs1) ->
  exists (fs2 : Fs.filesystem) (doc : gmap string json),
    Storage.saveRawData tz cfg now2 integration day (JArr d2) fs1 = (Ret p, fs2) /\
    fs2 !! p = Some (Fs.JsonFile (JObj doc)) /\
    doc !! "data" = Some (JArr d2) /\
    Storage.getRawData tz cfg integration day fs2 = (Ret (Some (JObj doc)), fs2).
Proof.
  intros Hfirst. rewrite saveRawData_unfold in Hfirst.
  destruct (_ ≫= _) as [dateStr|e|] eqn:Hday; [|done..].
  set (filePath := Storage.rawDataPath cfg integration dateStr) in *.
  assert (exists j, p = filePath /\ fs1 = <[filePath := Fs.JsonFile (JObj j)]> fs)
    as (j & -> & ->).
  { simpl in Hfirst. destruct (fs !! filePath) as [[j|t]|]; [| done |].
    - injection Hfirst as <- <-. eauto.
    - destruct (Fs.isDirectory fs filePath); [done |].
      injection Hfirst as <- <-. eauto. }
  exists (<[filePath := Fs.JsonFile (JObj (mergedData now2 (JObj j) (JArr d2)))]>
            (<[filePath := Fs.JsonFile (JObj j)]> fs)),
         (mergedData now2 (JObj j) (JArr d2)).
  rewrite saveRawData_unfold, getRawData_unfold, Hday. simpl.
  fold filePath. rewrite !lookup_insert_eq. repeat split.
  unfold mergedData. by rewrite lookup_insert_eq.
Qed.

End RawData.

Lemma pair_eta {A B} (x : A * B) (a : A) : fst x = a -> x = (a, snd x).
Proof. intros <-. by destruct x. Qed.

Lemma saveRawData_twice_overwrites_witness :
  exists (fs2 : Fs.filesystem) (doc : gmap string json),
    Storage.saveRawData 0 storageConfig 1705316400000 "slack"
      (JsDate.OfString "2024-01-15") (JArr [JStr "second"]) afterFirstSave =
      (Ret ["data"; "raw-data"; "slack"; "2024-01-15.json"], fs2) /\
    fs2 !! ["data"; "raw-data"; "slack"; "2024-01-15.json"] = Some (Fs.JsonFile (JObj doc)) /\
    doc !! "data" = Some (JArr [JStr "second"]) /\
    Storage.getRawData 0 storageConfig "slack" (JsDate.OfString "2024-01-15") fs2 =
      (Ret (Some (JObj doc)), fs2).
Proof.
  apply (saveRawData_twice_overwrites 0 storageConfig 1705312800000 1705316400000
           "slack" (JsDate.OfString "2024-01-15") [JStr "first"; JStr "kept?"]
           [JStr "second"] ∅ afterFirstSave
           ["data"; "raw-data"; "slack"; "2024-01-15.json"]).
  apply pair_eta. vm_compute. reflexivity.
Defined.

(** ** Sync state *)

Section SyncState.

Variable cfg : Storage.config.

(** The document [getSyncState()] hands to [setSyncState]. *)
Lemma getSyncState_all (fs : Fs.filesystem) :
  Storage.getSyncState cfg None fs =
  (Ret match fs !! Storage.syncStateFile cfg with
       | Some (Fs.JsonFile j) => j
       | _ => JObj ∅
       end, fs).
Proof.
  unfold Storage.getSyncState, Fs.try_catch, Fs.bind, Fs.ret, Fs.pathExists, Fs.readJson.
  destruct (fs !! _) as [[j|t]|] eqn:E; simpl; rewrite ?E; try done.
  destruct (Fs.isDirectory fs _); simpl; rewrite ?E; done.
Qed.


End SyncState.


(** ** Local time: the date-fns functions on day numbers *)

Section LocalDays.

Import JsDate.

#[local] Arguments yearMonthFromDays : simpl never.
#[local] Arguments daysFromCivil : simpl never.
#[local] Arguments monthStart : simpl never.
#[local] Arguments fromLocal : simpl never.
#[local] Arguments localDay : simpl never.
#[local] Arguments timeInDay : simpl never.
#[local] Arguments roundDiv : simpl never.
#[local] Arguments Z.mul : simpl never.
#[local] Arguments Z.add : simpl never.
#[local] Arguments Z.sub : simpl never.
#[local] Arguments Z.modulo : simpl never.

Variable tz : Z.

Lemma localTime_fromLocal (d ms : Z) :
  localTime tz (fromLocal tz d ms) = d * msPerDay + ms.
Proof. unfold localTime, fromLocal. lia. Qed.

Lemma localDay_fromLocal (d ms : Z) :
  0 <= ms < msPerDay -> localDay tz (fromLocal tz d ms) = d.
Proof.
  intros Hms. unfold localDay. rewrite localTime_fromLocal.
  symmetry. apply (Z.div_unique _ _ _ ms); unfold msPerDay in *; lia.
Qed.

Lemma timeInDay_fromLocal (d ms : Z) :
  0 <= ms < msPerDay -> timeInDay tz (fromLocal tz d ms) = ms.
Proof.
  intros Hms. unfold timeInDay. rewrite localTime_fromLocal.
  symmetry. apply (Z.mod_unique _ _ d); unfold msPerDay in *; lia.
Qed.

Lemma timeInDay_bounds (t : Z) : 0 <= timeInDay tz t < msPerDay.
Proof. unfold timeInDay. apply Z.mod_pos_bound. reflexivity. Qed.

(** A time value is its local day and its time within the day. *)
Lemma fromLocal_localDay (t : Z) : fromLocal tz (localDay tz t) (timeInDay tz t) = t.
Proof.
  unfold fromLocal, localDay, timeInDay.
  pose proof (Z.div_mod (localTime tz t) msPerDay) as H.
  unfold localTime in *. unfold msPerDay in *. lia.
Qed.

(** Advancing the day of the month by one adds a day. *)
Lemma setDate_next (t : Z) :
  setDate tz (Some t) (n ← getDate tz (Some t); Some (n + 1)) = Some (t + msPerDay).
Proof.
  pose proof (fromLocal_localDay t) as H.
  unfold setDate, getDate. simpl. f_equal.
  unfold fromLocal, msPerDay in *. lia.
Qed.

(** Comparing with a local midnight is comparing day numbers. *)
Lemma dateGe_midnight (t d : Z) :
  dateGe (Some t) (Some (fromLocal tz d 0)) = (d <=? localDay tz t).
Proof.
  unfold dateGe, fromLocal, localDay, localTime, msPerDay.
  apply eq_iff_eq_true. rewrite !Z.leb_le.
  split; intros H.
  - apply Z.div_le_lower_bound; lia.
  - pose proof (Z.mul_div_le (t + tz * msPerMinute) 86400000). lia.
Qed.

Lemma startOfWeek_local (weekStartsOn t : Z) :
  startOfWeek tz weekStartsOn (Some t) =
  Some (fromLocal tz (weekStartDay weekStartsOn (localDay tz t)) 0).
Proof.
  unfold startOfWeek, weekStartDay. simpl.
  rewrite localDay_fromLocal by apply timeInDay_bounds.
  do 2 f_equal. lia.
Qed.

Lemma startOfWeek_january (weekStartsOn y : Z) :
  startOfWeek tz weekStartsOn (startOfJanuaryDay tz y 1) =
  Some (fromLocal tz (weekStartDay weekStartsOn (daysFromCivil y 1 1)) 0).
Proof.
  unfold startOfJanuaryDay. rewrite startOfWeek_local.
  by rewrite localDay_fromLocal.
Qed.

Lemma getWeekYear_local (weekStartsOn t : Z) :
  getWeekYear tz weekStartsOn (Some t) =
  Some (weekYearOfDay weekStartsOn (localDay tz t)).
Proof.
  unfold getWeekYear, weekYearOfDay, getFullYear. cbn [mbind option_bind].
  rewrite !startOfWeek_january, !dateGe_midnight.
  repeat case_match; reflexivity.
Qed.

Lemma bind_Some {A B} (x : A) (f : A -> option B) : Some x ≫= f = f x.
Proof. reflexivity. Qed.

Lemma sub_fromLocal (a b : Z) :
  fromLocal tz a 0 - fromLocal tz b 0 = (a - b) * msPerDay.
Proof. unfold fromLocal. lia. Qed.

Lemma getWeek_local (weekStartsOn t : Z) :
  getWeek tz weekStartsOn (Some t) = Some (weekOfDay weekStartsOn (localDay tz t)).
Proof.
  unfold getWeek. rewrite startOfWeek_local, bind_Some.
  unfold startOfWeekYear. rewrite getWeekYear_local, bind_Some.
  rewrite startOfWeek_january, bind_Some, sub_fromLocal.
  reflexivity.
Qed.
Variable cfg : Storage.config.

(** The journal folder and the formatted date depend on the local day
    only. *)
Lemma getDailyJournalPath_local (t : Z) :
  Storage.getDailyJournalPath tz cfg (Some t) =
  Storage.outputDir cfg ++
    ["daily"; Js.intToString (fst (yearMonthFromDays (localDay tz t)));
     "week-" +:+ Js.padStart0 2 (Js.intToString (weekOfDay 1 (localDay tz t)))].
Proof.
  unfold Storage.getDailyJournalPath. rewrite getWeek_local. reflexivity.
Qed.

Lemma format_local (t : Z) :
  format tz (Some t) "yyyy-MM-dd" =
  Ret (formatYear (fst (yearMonthFromDays (localDay tz t))) +:+ "-" +:+
       twoDigits (snd (yearMonthFromDays (localDay tz t))) +:+ "-" +:+
       twoDigits (localDay tz t - monthStart (localDay tz t) + 1)).
Proof. reflexivity. Qed.

(** C3.  For a date whose local calendar day is 2024-01-15, whatever the
    time of day, [getDailyJournalPath] is [<outputDir>/daily/2024/week-03],
    and with the date format [yyyy-MM-dd], [saveJournal] writes the
    journal to [daily/2024/week-03/2024-01-15.md] below the output
    directory. *)
Theorem journal_path_2024_01_15 (ms : Z) (content : string) (fs : Fs.filesystem) :
  0 <= ms < msPerDay ->
  Storage.dateFormat cfg = "yyyy-MM-dd" ->
  let date := Some (fromLocal tz (daysFromCivil 2024 1 15) ms) in
  let file := Storage.outputDir cfg ++ ["daily"; "2024"; "week-03"; "2024-01-15.md"] in
  Storage.getDailyJournalPath tz cfg date =
    Storage.outputDir cfg ++ ["daily"; "2024"; "week-03"] /\
  Storage.saveJournal tz cfg date content fs =
    (Ret file, <[file := Fs.TextFile content]> fs).
Proof.
  intros Hms Hfmt date file.
  assert (Hpath : Storage.getDailyJournalPath tz cfg date =
                  Storage.outputDir cfg ++ ["daily"; "2024"; "week-03"]).
  { unfold date. rewrite getDailyJournalPath_local, localDay_fromLocal by done.
    vm_compute (daysFromCivil 2024 1 15).
    vm_compute (Js.intToString _). vm_compute (Js.padStart0 _ _).
    reflexivity. }
  split; [exact Hpath |].
  unfold Storage.saveJournal, Fs.try_catch, Fs.bind, Fs.lift, Fs.ensureDir, Fs.ret,
    Fs.writeFile.
  rewrite Hfmt, Hpath. unfold date.
  rewrite format_local, localDay_fromLocal by done.
  vm_compute (daysFromCivil 2024 1 15).
  vm_compute (formatYear _). vm_compute (twoDigits _). vm_compute (twoDigits _).
  unfold file. rewrite <- app_assoc. reflexivity.
Qed.

End LocalDays.

Lemma journal_path_2024_01_15_witness :
  Storage.getDailyJournalPath 330 storageConfig (Some 1705293000000) =
    ["data"; "journals"; "daily"; "2024"; "week-03"] /\
  Storage.saveJournal 330 storageConfig (Some 1705293000000) "# Journal" ∅ =
    (Ret ["data"; "journals"; "daily"; "2024"; "week-03"; "2024-01-15.md"],
     <[["data"; "journals"; "daily"; "2024"; "week-03"; "2024-01-15.md"] :=
         Fs.TextFile "# Journal"]> ∅).
Proof.
  apply (journal_path_2024_01_15 330 storageConfig 36000000 "# Journal" ∅).
  - unfold JsDate.msPerDay. lia.
  - reflexivity.
Defined.

(** ** The fallback summary *)

Section NoLineBreak.

(** Number of line breaks in a text. *)
#[local] Abbreviation breaks := (Js.count "010").

Lemma digit_no_break (n : Z) : Ascii.eqb (Js.digit (n mod 10)) "010" = false.
Proof.
  pose proof (Z.mod_pos_bound n 10 eq_refl) as H.
  assert (n mod 10 = 0 \/ n mod 10 = 1 \/ n mod 10 = 2 \/ n mod 10 = 3 \/ n mod 10 = 4 \/
          n mod 10 = 5 \/ n mod 10 = 6 \/ n mod 10 = 7 \/ n mod 10 = 8 \/ n mod 10 = 9)
    as Hcases by lia.
  destruct Hcases as [-> | [-> | [-> | [-> | [-> | [-> | [-> | [-> | [-> | ->]]]]]]]]];
    reflexivity.
Qed.

Lemma digits_pos_breaks (fuel : nat) (n : Z) (acc : string) :
  breaks (Js.digits_pos fuel n acc) = breaks acc.
Proof.
  revert n acc. induction fuel as [|fuel IH]; intros n acc; simpl; [done |].
  destruct (n <? 10); [| rewrite IH]; simpl; by rewrite digit_no_break.
Qed.

Lemma intToString_breaks (n : Z) : breaks (Js.intToString n) = O.
Proof.
  unfold Js.intToString, Js.natToString.
  destruct (n <? 0); [rewrite count_app |]; by rewrite digits_pos_breaks.
Qed.

Lemma repeat0_breaks (k : nat) : breaks (Js.repeat0 k) = O.
Proof. induction k; simpl; done. Qed.

Lemma padStart0_breaks (w : nat) (s : string) : breaks (Js.padStart0 w s) = breaks s.
Proof. unfold Js.padStart0. by rewrite count_app, repeat0_breaks. Qed.

Lemma dayName_breaks (wd : Z) : breaks (JsDate.dayName wd) = O.
Proof.
  unfold JsDate.dayName.
  destruct (Z.to_nat wd) as [|[|[|[|[|[|[|k]]]]]]]; try reflexivity.
  by destruct k.
Qed.

Lemma monthName_breaks (m : Z) : breaks (JsDate.monthName m) = O.
Proof.
  unfold JsDate.monthName.
  destruct (Z.to_nat (m - 1)) as [|[|[|[|[|[|[|[|[|[|[|[|k]]]]]]]]]]]]; try reflexivity.
  by destruct k.
Qed.

Lemma toDateString_breaks (tz : Z) (d : JsDate.Date) :
  breaks (JsDate.toDateString tz d) = O.
Proof.
  unfold JsDate.toDateString.
  destruct (JsDate.getFullYear tz d) as [y|]; [| done].
  destruct (JsDate.getMonth1 tz d) as [m|]; [| done].
  destruct (JsDate.getDate tz d) as [dd|]; [| done].
  destruct (JsDate.getDay tz d) as [wd|]; [| done].
  unfold JsDate.twoDigits, JsDate.fourDigits.
  rewrite !count_app, dayName_breaks, monthName_breaks, !padStart0_breaks,
    !intToString_breaks.
  by destruct (y <? 0).
Qed.

(** A text without line break, followed by a line break, is a line. *)
Lemma linesFrom_line (cur a rest : string) :
  breaks a = O ->
  AI.linesFrom cur (a +:+ String "010" rest) = (cur +:+ a) :: AI.linesFrom EmptyString rest.
Proof.
  revert cur. induction a as [|x a IH]; intros cur Ha.
  - rewrite append_nil_l, append_empty_r. reflexivity.
  - rewrite append_cons. simpl in *.
    destruct (Ascii.eqb x "010"); [done |].
    rewrite IH by done. by rewrite append_assoc.
Qed.

End NoLineBreak.

Lemma fallbackSummary_empty_text (tz : Z) (date : JsDate.Date) :
  AI.fallbackSummary tz [] date =
  Ret ("# Work Summary for " +:+ JsDate.toDateString tz date +:+ AI.nl +:+ emptyOverview).
Proof.
  unfold AI.fallbackSummary. simpl firstn. unfold AI.appendBullets.
  change (AI.countSource _ []) with 0.
  f_equal. rewrite !append_assoc. reflexivity.
Qed.

(** C4, as amended.  For every date the fallback on an empty activity list
    returns (it cannot throw) the document whose first line is the header
    [# Work Summary for <date.toDateString()>], followed by a fixed text:
    the three counters of the activity overview, each a bullet item with
    count 0, and nothing after the [## Key Activities] heading. *)
Theorem fallbackSummary_empty (tz : Z) (date : JsDate.Date) :
  exists s : string,
    AI.fallbackSummary tz [] date = Ret s /\
    AI.lines s =
      ["# Work Summary for " +:+ JsDate.toDateString tz date;
       EmptyString;
       "## Activity Overview";
       "- **Slack Communications**: 0 activities";
       "- **GitHub Activities**: 0 activities";
       "- **Calendar Events**: 0 events";
       EmptyString;
       "## Key Activities";
       EmptyString] /\
    AI.bulletItems s =
      ["- **Slack Communications**: 0 activities";
       "- **GitHub Activities**: 0 activities";
       "- **Calendar Events**: 0 events"].
Proof.
  eexists. split; [apply fallbackSummary_empty_text |].
  assert (Hlines : AI.lines ("# Work Summary for " +:+ JsDate.toDateString tz date +:+
                             AI.nl +:+ emptyOverview) =
                   ("# Work Summary for " +:+ JsDate.toDateString tz date) ::
                   AI.lines emptyOverview).
  { unfold AI.lines. rewrite <- append_assoc.
    change (AI.nl +:+ emptyOverview) with (String "010" emptyOverview).
    rewrite linesFrom_line; [done |].
    rewrite count_app, toDateString_breaks. reflexivity. }
  unfold AI.bulletItems. rewrite Hlines. split; reflexivity.
Qed.

(** C4, as stated, fails: the document has bullet items. *)
Lemma fallbackSummary_empty_counterexample :
  ~ (exists s : string,
       AI.fallbackSummary 0 [] (Some 1705312800000) = Ret s /\
       AI.bulletItems s = []).
Proof.
  intros (s & Hs & Hb). vm_compute in Hs. injection Hs as <-.
  vm_compute in Hb. discriminate Hb.
Qed.

(** ** Environment placeholders in the configuration *)

Section Placeholders.

Variable env : Config.environment.

Lemma spanName_name (name rest : string) :
  Js.count "}" name = O ->
  Config.spanName (name +:+ String "}" rest) = (name, String "}" rest).
Proof.
  induction name as [|x name IH]; intros Hc.
  - reflexivity.
  - rewrite append_cons. simpl in *.
    destruct (Ascii.eqb x "}"); [done |]. by rewrite IH.
Qed.

(** Characters still to be passed over produce nothing. *)
Lemma replacePlaceholders_skip (n : nat) (s : string) :
  (String.length s <= n)%nat -> Config.replacePlaceholders env n s = EmptyString.
Proof.
  revert n. induction s as [|x s IH]; intros n Hn; [done |].
  simpl in *. destruct n as [|n]; [lia |]. apply IH. lia.
Qed.

Lemma length_append (a b : string) :
  String.length (a +:+ b) = (String.length a + String.length b)%nat.
Proof. induction a as [|x a IH]; [done |]. rewrite append_cons. simpl. by rewrite IH. Qed.

Lemma replacePlaceholders_match (a : ascii) (s name : string) :
  Config.matchPlaceholder (String a s) = Some name ->
  Config.replacePlaceholders env O (String a s) =
  Config.substitute env name +:+ Config.replacePlaceholders env (String.length name + 2) s.
Proof. intros H. cbn [Config.replacePlaceholders]. by rewrite H. Qed.

(** A text that is one placeholder is replaced by what the callback
    returns for its name. *)
Lemma replacePlaceholders_whole (name : string) :
  name <> EmptyString ->
  Js.count "}" name = O ->
  Config.replacePlaceholders env O ("${" +:+ name +:+ "}") = Config.substitute env name.
Proof.
  intros Hne Hc.
  change ("${" +:+ name +:+ "}") with (String "$" (String "{" (name +:+ String "}" EmptyString))).
  assert (Hmatch : Config.matchPlaceholder
                     (String "$" (String "{" (name +:+ String "}" EmptyString))) = Some name).
  { unfold Config.matchPlaceholder. rewrite spanName_name by done.
    by destruct name. }
  rewrite (replacePlaceholders_match _ _ _ Hmatch), replacePlaceholders_skip.
  - apply append_empty_r.
  - simpl. rewrite length_append. simpl. lia.
Qed.

Lemma lookup_map_json (f : json -> json) (l : list json) (i : nat) :
  map f l !! i = f <$> l !! i.
Proof. revert i. induction l as [|x l IH]; intros [|i]; simpl; auto. Qed.

(** Substitution reaches every position of a configuration value. *)
Lemma valueAt_resolve (p : list Config.step) (v : json) :
  Config.valueAt p (Config.resolveEnvVariables env v) =
  Config.resolveEnvVariables env <$> Config.valueAt p v.
Proof.
  revert v. induction p as [|[k|i] p IH]; intros v; [done | |].
  - destruct v; try done. simpl. rewrite lookup_fmap.
    destruct (m !! k) as [v'|]; simpl; [apply IH | done].
  - destruct v; try done. simpl. rewrite lookup_map_json.
    destruct (l !! i) as [v'|]; simpl; [apply IH | done].
Qed.

Variable defaultConfig : gmap string json.
Variable configPath : Fs.path.

(** What [load] leaves is the substitution applied to some configuration
    value: the merge of the defaults with the user file, or the defaults. *)
Lemma load_resolved (fs fs' : Fs.filesystem) (r : json) :
  Config.load defaultConfig configPath env fs = (Ret r, fs') ->
  exists merged, r = Config.resolveEnvVariables env merged.
Proof.
  unfold Config.load. destruct (Fs.bind _ _ fs) as [[c|e|] fs0]; intros H.
  - exists c. by injection H as <- _.
  - exists (JObj defaultConfig). by injection H as <- _.
  - discriminate H.
Qed.


End Placeholders.



(** ** Migration of legacy journals *)

Section Migration.

Variable tz : Z.
Variable cfg : Storage.config.

Implicit Types (fs : Fs.filesystem) (p : Fs.path).

(** [move] touches its source and its destination only. *)
Lemma move_other (src dest p : Fs.path) fs fs' (r : outcome unit) :
  Fs.move src dest fs = (r, fs') -> p <> src -> p <> dest -> fs' !! p = fs !! p.
Proof.
  unfold Fs.move. intros H Hsrc Hdest.
  destruct (fs !! src) as [f|].
  - destruct (_ || _); simplify_eq; [done |].
    rewrite lookup_insert_ne, lookup_delete_ne; done.
  - destruct (Fs.isDirectory fs src); by simplify_eq.
Qed.

Lemma flat_path_deeper (dir : Fs.path) (name : string) (rest : list string) :
  (2 <= length rest)%nat -> dir ++ [name] <> dir ++ rest.
Proof.
  intros Hrest Heq. apply (f_equal length) in Heq.
  rewrite !length_app in Heq. simpl in Heq. lia.
Qed.

Lemma flat_path_inj (dir : Fs.path) (name n : string) :
  name <> n -> dir ++ [name] <> dir ++ [n].
Proof. intros Hne Heq. apply app_inv_head in Heq. congruence. Qed.

(** One step of the first loop leaves the other names of the output
    directory alone. *)
Lemma migrateJournal_other (n name : string) fs fs' (r : outcome Z) :
  Storage.migrateJournal tz cfg n fs = (r, fs') ->
  name <> n ->
  fs' !! (Storage.outputDir cfg ++ [name]) = fs !! (Storage.outputDir cfg ++ [name]).
Proof.
  unfold Storage.migrateJournal, Fs.try_catch, Fs.bind, Fs.lift, Fs.ensureDir, Fs.ret.
  intros H Hne.
  destruct (Storage.matchDailyName n) as [dateText|]; [| by simplify_eq].
  destruct (JsDate.parseDateOnly dateText) as [date| |]; [| by simplify_eq..].
  destruct (Fs.move _ _ fs) as [r0 fs0] eqn:Hmove.
  assert (fs0 !! (Storage.outputDir cfg ++ [name]) = fs !! (Storage.outputDir cfg ++ [name]))
    as Hsame.
  { apply (move_other _ _ _ _ _ _ Hmove).
    - by apply flat_path_inj.
    - unfold Storage.getDailyJournalPath. rewrite <- app_assoc.
      apply flat_path_deeper. simpl. lia. }
  destruct r0; by simplify_eq.
Qed.

Lemma migrateWeeklyReport_other (n name : string) fs fs' (r : outcome Z) :
  Storage.migrateWeeklyReport tz cfg n fs = (r, fs') ->
  name <> n ->
  fs' !! (Storage.outputDir cfg ++ [name]) = fs !! (Storage.outputDir cfg ++ [name]).
Proof.
  unfold Storage.migrateWeeklyReport, Fs.try_catch, Fs.bind, Fs.lift, Fs.ensureDir, Fs.ret.
  intros H Hne.
  destruct (Storage.matchWeeklyName n) as [dateText|]; [| by simplify_eq].
  destruct (JsDate.parseDateOnly dateText) as [date| |]; [| by simplify_eq..].
  destruct (Fs.move _ _ fs) as [r0 fs0] eqn:Hmove.
  assert (fs0 !! (Storage.outputDir cfg ++ [name]) = fs !! (Storage.outputDir cfg ++ [name]))
    as Hsame.
  { apply (move_other _ _ _ _ _ _ Hmove).
    - by apply flat_path_inj.
    - unfold Storage.getReportPath. apply flat_path_deeper. simpl. lia. }
  destruct r0; by simplify_eq.
Qed.

(** A loop whose steps leave a path alone leaves it alone. *)
Lemma forEachFile_other (body : string -> Fs.M Z) (p : Fs.path) (name : string)
    (files : list string) :
  (forall n fs fs' r, body n fs = (r, fs') -> name <> n -> fs' !! p = fs !! p) ->
  Forall (fun n => name <> n) files ->
  forall (migrated : Z) fs fs' r,
    Storage.forEachFile body files migrated fs = (r, fs') -> fs' !! p = fs !! p.
Proof.
  intros Hbody Hfiles. induction Hfiles as [|n files Hn _ IH]; intros migrated fs fs' r H.
  - by injection H as _ <-.
  - simpl in H. unfold Fs.bind in H.
    destruct (body n fs) as [[k|e|] fs0] eqn:Hstep.
    + rewrite (IH _ _ _ _ H). eauto.
    + injection H as _ <-. eauto.
    + injection H as _ <-. eauto.
Qed.

(** The second half of C6: a file of the output directory whose name does
    not match [YYYY-MM-DD.md] and is not a weekly report is where it was,
    with the content it had, after the migration. *)
Lemma migrate_skips_other_files (name : string) fs fs' (r : outcome Z) :
  Storage.matchDailyName name = None ->
  Storage.isWeeklyReport name = false ->
  Storage.migrateExistingJournals tz cfg fs = (r, fs') ->
  fs' !! (Storage.outputDir cfg ++ [name]) = fs !! (Storage.outputDir cfg ++ [name]).
Proof.
  intros Hdaily Hweekly.
  assert (Hj : Storage.isJournalFile name = false).
  { unfold Storage.isJournalFile. rewrite Hdaily.
    rewrite bool_decide_eq_false_2 by (by intros [? ?]).
    by rewrite andb_false_r. }
  unfold Storage.migrateExistingJournals, Fs.try_catch, Fs.readdir.
  unfold Fs.bind at 1. set (files := elements _).
  unfold Fs.bind at 1.
  destruct (Storage.forEachFile _ (List.filter Storage.isJournalFile files) 0 fs)
    as [r1 fs1] eqn:H1.
  assert (fs1 !! (Storage.outputDir cfg ++ [name]) = fs !! (Storage.outputDir cfg ++ [name]))
    as Hfirst.
  { eapply (forEachFile_other _ _ name); [| | exact H1].
    - intros n a b c Hbody Hne. by eapply migrateJournal_other.
    - apply Forall_forall. intros n Hin%list_elem_of_In%filter_In. intros <-.
      destruct Hin as [_ Hin]. congruence. }
  destruct r1 as [migrated|e|]; [| intros H; injection H as _ <-; exact Hfirst..].
  unfold Fs.bind at 1.
  destruct (Storage.forEachFile _ (List.filter Storage.isWeeklyReport files) migrated fs1)
    as [r2 fs2] eqn:H2.
  assert (fs2 !! (Storage.outputDir cfg ++ [name]) = fs1 !! (Storage.outputDir cfg ++ [name]))
    as Hsecond.
  { eapply (forEachFile_other _ _ name); [| | exact H2].
    - intros n a b c Hbody Hne. by eapply migrateWeeklyReport_other.
    - apply Forall_forall. intros n Hin%list_elem_of_In%filter_In. intros <-.
      destruct Hin as [_ Hin]. congruence. }
  rewrite <- Hfirst, <- Hsecond.
  destruct r2; unfold Fs.ret, Fs.throw; intros H; by injection H as _ <-.
Qed.

End Migration.

(** With local time at or east of Greenwich the journal goes to week 03. *)
Example migrate_2024_01_15_utc :
  let result := Storage.migrateExistingJournals 0 storageConfig legacyDisk in
  fst result = Ret 1 /\
  snd result !! ["data"; "journals"; "daily"; "2024"; "week-03"; "2024-01-15.md"] =
    Some (Fs.TextFile "# Monday") /\
  snd result !! ["data"; "journals"; "2024-01-15.md"] = None /\
  snd result !! ["data"; "journals"; "notes.md"] = Some (Fs.TextFile "to do").
Proof. vm_compute. repeat split. Qed.

(** C6 at its failing input.  With local time five hours west of
    Greenwich, [new Date('2024-01-15')] is UTC midnight, which is the
    evening of Sunday 2024-01-14 locally: [getWeek] gives 2, and the
    legacy journal [2024-01-15.md] is moved to [daily/2024/week-02], not
    to [daily/2024/week-03], where [saveJournal] places the journal of
    that day. *)
Theorem migrate_2024_01_15_west_of_greenwich :
  let result := Storage.migrateExistingJournals (-300) storageConfig legacyDisk in
  fst result = Ret 1 /\
  snd result !! ["data"; "journals"; "daily"; "2024"; "week-02"; "2024-01-15.md"] =
    Some (Fs.TextFile "# Monday") /\
  snd result !! ["data"; "journals"; "daily"; "2024"; "week-03"; "2024-01-15.md"] = None /\
  snd result !! ["data"; "journals"; "2024-01-15.md"] = None.
Proof. vm_compute. repeat split. Qed.

(** Where the migration files the legacy journal of 2024-01-15, by the
    offset of local time: week 03 at and east of Greenwich, week 02 west
    of it. *)
Lemma legacy_folder_by_offset (tz : Z) (cfg : Storage.config) :
  let date := Some (JsDate.daysFromCivil 2024 1 15 * JsDate.msPerDay) in
  (0 <= tz < 1440 ->
   Storage.getDailyJournalPath tz cfg date =
     Storage.outputDir cfg ++ ["daily"; "2024"; "week-03"]) /\
  (-1440 <= tz < 0 ->
   Storage.getDailyJournalPath tz cfg date =
     Storage.outputDir cfg ++ ["daily"; "2024"; "week-02"]).
Proof.
  intros date. unfold date. split; intros Htz; rewrite getDailyJournalPath_local.
  - replace (JsDate.daysFromCivil 2024 1 15 * JsDate.msPerDay)
      with (JsDate.fromLocal tz (JsDate.daysFromCivil 2024 1 15) (tz * JsDate.msPerMinute))
      by (unfold JsDate.fromLocal; lia).
    rewrite localDay_fromLocal
      by (unfold JsDate.msPerDay, JsDate.msPerMinute; lia).
    vm_compute (JsDate.daysFromCivil 2024 1 15).
    vm_compute (Js.intToString _). vm_compute (Js.padStart0 _ _). reflexivity.
  - replace (JsDate.daysFromCivil 2024 1 15 * JsDate.msPerDay)
      with (JsDate.fromLocal tz (JsDate.daysFromCivil 2024 1 15 - 1)
              (JsDate.msPerDay + tz * JsDate.msPerMinute))
      by (unfold JsDate.fromLocal; lia).
    rewrite localDay_fromLocal
      by (unfold JsDate.msPerDay, JsDate.msPerMinute; lia).
    vm_compute (JsDate.daysFromCivil 2024 1 15 - 1).
    vm_compute (Js.intToString _). vm_compute (Js.padStart0 _ _). reflexivity.
Qed.

(** ** The day loop of the Slack sync *)

Section DayLoop.

Import JsDate.

Variable tz : Z.
Variable scfg : Storage.config.
Variable cfg : Slack.config.
Variable authTest : outcome (string * string).
Variable searchMessages : SlackSync.request -> outcome (list SlackSync.rawMessage).
Variable getThreadReplies : list SlackSync.rawMessage -> string -> list SlackSync.rawMessage.
Variable clock : nat -> Z.

Hypothesis patterns_compile :
  forallb patternCompiles (Slack.excludeChannelPatterns cfg) = true.

Lemma array_some_compiled (name : string) (patterns : list string) :
  forallb patternCompiles patterns = true ->
  exists b : bool,
    array_some (fun pattern =>
       regex ← RegExp.compile (Slack.patternSource pattern) "i";
       Ret (RegExp.test regex name)) patterns = Ret b.
Proof.
  induction patterns as [|p patterns IH]; simpl; intros H; [by exists false |].
  apply andb_prop in H as [Hp Hrest]. unfold patternCompiles in Hp.
  destruct (RegExp.compile _ _) as [regex| |]; [| done..]. simpl.
  destruct (RegExp.test regex name); [by exists true |]. by apply IH.
Qed.

Lemma shouldIncludeMessage_returns (m : Slack.activity) :
  exists b : bool, Slack.shouldIncludeMessage cfg m = Ret b.
Proof.
  unfold Slack.shouldIncludeMessage.
  destruct (_ <? _); [by exists false |].
  destruct (Js.list_includes _ _); [by exists false |].
  destruct (array_some_compiled (Slack.channel m) _ patterns_compile) as [b ->].
  simpl. destruct b; [by exists false |].
  destruct (_ && _); eauto.
Qed.

Lemma processMessages_returns (messages : list SlackSync.rawMessage) :
  exists l, SlackSync.processMessages cfg messages = Ret l.
Proof.
  induction messages as [|msg rest [l IH]]; simpl; [by eexists |].
  destruct (SlackSync.processSearchMessage msg) as [a|]; [| by eexists].
  destruct (shouldIncludeMessage_returns a) as [b ->]. rewrite IH. simpl. by eexists.
Qed.

Lemma recordDay_returns (c : Z) (l : list Slack.activity) (st : SlackSync.loopState) :
  exists st', SlackSync.recordDay tz (Some c) l st = Ret st'.
Proof.
  unfold SlackSync.recordDay. destruct (_ <? _)%nat; [| by eexists].
  rewrite format_local. simpl. by eexists.
Qed.

Lemma iterations_step (c e : Z) :
  c <= e -> iterations c e = S (iterations (c + msPerDay) e).
Proof.
  intros Hle. unfold iterations.
  rewrite (proj2 (Z.leb_le c e)) by done.
  replace (e - c) with ((e - (c + msPerDay)) + 1 * msPerDay) by lia.
  rewrite Z.div_add by done.
  destruct (Z.leb_spec (c + msPerDay) e) as [Hnext | Hnext].
  - assert (0 <= (e - (c + msPerDay)) / msPerDay) by (apply Z.div_pos; unfold msPerDay in *; lia).
    lia.
  - assert ((e - (c + msPerDay)) / msPerDay = -1) as ->; [| done].
    symmetry. apply (Z.div_unique _ _ _ (e - c)); unfold msPerDay in *; lia.
Qed.

Lemma iterations_done (c e : Z) : e < c -> iterations c e = O.
Proof. intros H. unfold iterations. by rewrite (proj2 (Z.leb_gt c e)). Qed.

(** With fuel for every iteration the loop runs to its end without an
    exception, and calls [searchUserMessages] once for each of the days
    [c], [c] plus a day, ... up to the last that is not after [e]. *)
Lemma dayLoop_log (username : string) (e : Z) (fuel : nat) :
  forall (c : Z) (st : SlackSync.loopState) (log : list SlackSync.dailySearch),
    (iterations c e <= fuel)%nat ->
    exists st' log',
      SlackSync.dayLoop tz cfg searchMessages getThreadReplies fuel username
        (Some c) (Some e) st log = Some (Ret st', log') /\
      map SlackSync.dayStart log' =
        map SlackSync.dayStart log ++ daysFrom (iterations c e) c.
Proof.
  induction fuel as [|fuel IH]; intros c st log Hfuel.
  - destruct (Z.le_gt_cases c e) as [Hle | Hgt].
    + rewrite iterations_step in Hfuel by done. lia.
    + exists st, log. rewrite iterations_done by lia. simpl.
      rewrite app_nil_r. split; [| done].
      unfold dateLe, dateGe. by rewrite (proj2 (Z.leb_gt c e)) by lia.
  - destruct (Z.le_gt_cases c e) as [Hle | Hgt].
    + rewrite iterations_step in * by done.
      cbn [SlackSync.dayLoop]. unfold dateLe, dateGe.
      rewrite (proj2 (Z.leb_le c e)) by done.
      destruct (processMessages_returns
                  (fst (SlackSync.searchUserMessages tz cfg searchMessages getThreadReplies
                          username (Some c)
                          (setDate tz (Some c) (n ← getDate tz (Some c); Some (n + 1))))))
        as [l ->].
      cbn [mbind outcome_bind obind].
      destruct (recordDay_returns c l st) as [st1 ->].
      rewrite setDate_next.
      destruct (IH (c + msPerDay) st1
                  (log ++ [{| SlackSync.dayStart := Some c;
                              SlackSync.requests :=
                                snd (SlackSync.searchUserMessages tz cfg searchMessages
                                       getThreadReplies username (Some c)
                                       (Some (c + msPerDay))) |}]))
        as (st' & log' & Hloop & Hlog); [lia |].
      exists st', log'. split; [exact Hloop |].
      rewrite Hlog, map_app. simpl. by rewrite <- app_assoc.
    + exists st, log. rewrite iterations_done by lia. simpl.
      rewrite app_nil_r. split; [| done].
      unfold dateLe, dateGe. by rewrite (proj2 (Z.leb_gt c e)) by lia.
Qed.

(** The calls of [searchUserMessages] made by [sync]. *)
Lemma sync_search_log (auth : string * string) (s e : Z) (fs : Fs.filesystem) :
  authTest = Ret auth ->
  map SlackSync.dayStart
    (snd (SlackSync.sync tz scfg cfg authTest searchMessages getThreadReplies clock
            (Some s) (Some e) fs)) =
  daysFrom (iterations s e) s.
Proof.
  intros Hauth. unfold SlackSync.sync. rewrite Hauth.
  destruct (dayLoop_log (snd auth) e (SlackSync.loopFuel (Some s) (Some e)) s
              {| SlackSync.allActivities := []; SlackSync.allActivitiesByDate := [] |} [])
    as (st' & log' & -> & Hlog).
  - unfold iterations, SlackSync.loopFuel. destruct (s <=? e); lia.
  - exact Hlog.
Qed.

Lemma localDay_next (t : Z) : localDay tz (t + msPerDay) = localDay tz t + 1.
Proof.
  unfold localDay, localTime.
  replace (t + msPerDay + tz * msPerMinute) with (t + tz * msPerMinute + 1 * msPerDay) by lia.
  by rewrite Z.div_add.
Qed.

Lemma daysFrom_local (n : nat) (c : Z) :
  map (fmap (localDay tz)) (daysFrom n c) = map Some (seqZ (localDay tz c) (Z.of_nat n)).
Proof.
  revert c. induction n as [|n IH]; intros c; [done |].
  rewrite Nat2Z.inj_succ, seqZ_cons by lia. simpl.
  rewrite IH, localDay_next. do 3 f_equal. lia.
Qed.

(** When the end is not earlier in its day than the start is in its own,
    the loop runs once for every calendar day from the start's to the
    end's. *)
Lemma iterations_calendar_days (s e : Z) :
  s <= e ->
  timeInDay tz s <= timeInDay tz e ->
  Z.of_nat (iterations s e) = localDay tz e - localDay tz s + 1.
Proof.
  intros Hle Htod. unfold iterations. rewrite (proj2 (Z.leb_le s e)) by done.
  pose proof (timeInDay_bounds tz s) as Hs. pose proof (timeInDay_bounds tz e) as He.
  pose proof (fromLocal_localDay tz s) as Es. pose proof (fromLocal_localDay tz e) as Ee.
  assert ((e - s) / msPerDay = localDay tz e - localDay tz s) as ->.
  { symmetry. apply (Z.div_unique _ _ _ (timeInDay tz e - timeInDay tz s)).
    - unfold msPerDay in *. lia.
    - revert Es Ee. generalize (localDay tz s) (localDay tz e) (timeInDay tz s)
        (timeInDay tz e). unfold fromLocal, msPerDay. intros. lia. }
  assert (localDay tz s <= localDay tz e).
  { unfold localDay, localTime. apply Z.div_le_mono; [done | lia]. }
  lia.
Qed.


End DayLoop.


(** From 2024-01-01 23:00 to 2024-01-02 01:00 UTC the range has two
    calendar days; the loop compares time values, finds 2024-01-02 23:00
    after the end, and searches the first day only. *)
Example sync_late_start :
  1704150000000 <= 1704157200000 /\
  JsDate.localDay 0 1704157200000 - JsDate.localDay 0 1704150000000 + 1 = 2 /\
  searchedDays 0
    (snd (SlackSync.sync 0 storageConfig slackTestConfig quietAuth quietSearch noReplies
            syncClock (Some 1704150000000) (Some 1704157200000) ∅)) = [Some 19723].
Proof. split; [lia |]. split; [reflexivity |]. vm_compute. reflexivity. Qed.


(** ** Requests of one daily search *)

Section DailyRequests.

Variable tz : Z.
Variable cfg : Slack.config.
Variable searchMessages : SlackSync.request -> outcome (list SlackSync.rawMessage).
Variable getThreadReplies : list SlackSync.rawMessage -> string -> list SlackSync.rawMessage.

(** The pagination adds at most [pagesLeft] requests, at least one when a
    page is left, all for the one query. *)
Lemma searchPages_requests (q : string) (cnt : Z) (pagesLeft : nat) :
  forall (pg : Z) (allMessages : list SlackSync.rawMessage) (reqs : list SlackSync.request),
  exists added : list SlackSync.request,
    snd (SlackSync.searchPages searchMessages pagesLeft q cnt pg allMessages reqs) =
      reqs ++ added /\
    (length added <= pagesLeft)%nat /\
    (1 <= pagesLeft -> 1 <= length added)%nat /\
    Forall (fun rq => SlackSync.query rq = q) added.
Proof.
  induction pagesLeft as [|n IH]; intros pg allMessages reqs.
  - exists []. simpl. rewrite app_nil_r. repeat split; [lia | lia | constructor].
  - set (rq := {| SlackSync.query := q; SlackSync.count := cnt; SlackSync.page := pg |}).
    assert (Hone : exists added : list SlackSync.request,
               reqs ++ [rq] = reqs ++ added /\ (length added <= S n)%nat /\
               (1 <= S n -> 1 <= length added)%nat /\
               Forall (fun rq => SlackSync.query rq = q) added).
    { exists [rq]. simpl. repeat split; [lia | lia | by repeat constructor]. }
    cbn [SlackSync.searchPages]. fold rq.
    destruct (searchMessages rq) as [matches| |]; [| exact Hone..].
    destruct (length matches =? 0)%nat; [exact Hone |].
    destruct (_ <? cnt); [exact Hone |].
    destruct (IH (pg + 1) (allMessages ++ matches) (reqs ++ [rq]))
      as (added & -> & Hlen & _ & Hq).
    exists (rq :: added). rewrite <- app_assoc. simpl.
    repeat split; [lia | lia | by constructor].
Qed.

(** One call of [searchUserMessages] for a valid day sends between one and
    five requests, all with the query of that day. *)
Lemma searchUserMessages_requests (username : string) (c : Z) (dayEnd : JsDate.Date) :
  exists dateStr : string,
    JsDate.format tz (Some c) "yyyy-MM-dd" = Ret dateStr /\
    let reqs := snd (SlackSync.searchUserMessages tz cfg searchMessages getThreadReplies
                       username (Some c) dayEnd) in
    (1 <= length reqs <= 5)%nat /\
    Forall (fun rq => SlackSync.query rq = "from:" +:+ username +:+ " on:" +:+ dateStr) reqs.
Proof.
  rewrite format_local. eexists. split; [reflexivity |].
  unfold SlackSync.searchUserMessages. rewrite format_local.
  match goal with
  | |- context [SlackSync.searchPages _ 5 ?q ?cnt 1 [] []] =>
      destruct (searchPages_requests q cnt 5 1 [] []) as (added & Hadd & Hle & Hge & Hq);
      destruct (SlackSync.searchPages searchMessages 5 q cnt 1 [] []) as [[all|] reqs]
  end; simpl in *; subst reqs; (split; [lia | exact Hq]).
Qed.

End DailyRequests.

(** ** Journals: reading back *)

Section JournalFacts.

Variable tz : Z.
Variable cfg : Storage.config.

(** Reading a text from [p], or else from [q]. *)
Lemma read_first_of (p q : Fs.path) (fs : Fs.filesystem) :
  Fs.bind (Fs.pathExists p) (fun present =>
    if (present : bool)
    then Fs.bind (Fs.readFile p) (fun content => Fs.ret (Some content))
    else Fs.bind (Fs.pathExists q) (fun presentOld =>
           if (presentOld : bool)
           then Fs.bind (Fs.readFile q) (fun content => Fs.ret (Some content))
           else Fs.ret None)) fs =
  match fs !! p with
  | Some (Fs.TextFile content) => (Ret (Some content), fs)
  | Some (Fs.JsonFile _) => (Unmodelled, fs)
  | None =>
      if Fs.isDirectory fs p then (Throw (FsError "ENOENT"), fs)
      else
        match fs !! q with
        | Some (Fs.TextFile content) => (Ret (Some content), fs)
        | Some (Fs.JsonFile _) => (Unmodelled, fs)
        | None =>
            if Fs.isDirectory fs q then (Throw (FsError "ENOENT"), fs) else (Ret None, fs)
        end
  end.
Proof.
  unfold Fs.bind, Fs.ret, Fs.pathExists, Fs.readFile.
  destruct (fs !! p) as [[j|t]|] eqn:E; simpl; rewrite ?E; try done.
  destruct (Fs.isDirectory fs p); simpl; rewrite ?E; try done.
  destruct (fs !! q) as [[j|t]|] eqn:E'; simpl; rewrite ?E'; try done.
  destruct (Fs.isDirectory fs q); simpl; rewrite ?E'; done.
Qed.

(** What [getJournal] does once the date has been formatted. *)
Lemma getJournal_unfold (date : JsDate.Date) (fs : Fs.filesystem) :
  Journals.getJournal tz cfg date fs =
  match JsDate.format tz date (Storage.dateFormat cfg) with
  | Ret dateStr =>
      let filePath := Storage.getDailyJournalPath tz cfg date ++ [dateStr +:+ ".md"] in
      let oldFilePath := Storage.outputDir cfg ++ [dateStr +:+ ".md"] in
      match fs !! filePath with
      | Some (Fs.TextFile content) => (Ret (Some content), fs)
      | Some (Fs.JsonFile _) => (Unmodelled, fs)
      | None =>
          if Fs.isDirectory fs filePath then (Ret None, fs)
          else
            match fs !! oldFilePath with
            | Some (Fs.TextFile content) => (Ret (Some content), fs)
            | Some (Fs.JsonFile _) => (Unmodelled, fs)
            | None => (Ret None, fs)
            end
      end
  | Throw _ => (Ret None, fs)
  | Unmodelled => (Unmodelled, fs)
  end.
Proof.
  unfold Journals.getJournal, Fs.try_catch, Fs.lift. unfold Fs.bind at 1.
  destruct (JsDate.format _ _ _) as [dateStr|e|]; [|done..].
  rewrite read_first_of. cbv zeta. unfold Fs.path.
  destruct (fs !! (Storage.getDailyJournalPath tz cfg date ++ [dateStr +:+ ".md"]))
    as [[j|t]|]; [done..|].
  destruct (Fs.isDirectory fs _); [done|].
  destruct (fs !! (Storage.outputDir cfg ++ [dateStr +:+ ".md"])) as [[j|t]|]; [done..|].
  destruct (Fs.isDirectory fs _); done.
Qed.

(** X1.  A journal that [saveJournal] has written is what [getJournal]
    returns for the same date. *)
Theorem getJournal_saveJournal
    (date : JsDate.Date) (content : string) (fs fs1 : Fs.filesystem) (p : Fs.path) :
  Storage.saveJournal tz cfg date content fs = (Ret p, fs1) ->
  Journals.getJournal tz cfg date fs1 = (Ret (Some content), fs1).
Proof.
  unfold Storage.saveJournal, Fs.try_catch, Fs.lift, Fs.bind, Fs.ensureDir, Fs.ret,
    Fs.writeFile.
  rewrite getJournal_unfold.
  destruct (JsDate.format _ _ _) as [dateStr|e|]; [| done..].
  intros H. injection H as _ <-. simpl. by rewrite lookup_insert_eq.
Qed.

(** X2.  [getJournal] prefers the nested layout and falls back to the
    flat legacy file: a journal at [daily/<year>/week-<NN>/<date>.md] is
    returned whatever lies at [<date>.md]; without it the flat file is
    returned; without both the result is [null]. *)
Theorem getJournal_legacy_fallback
    (date : JsDate.Date) (dateStr : string) (fs : Fs.filesystem) :
  JsDate.format tz date (Storage.dateFormat cfg) = Ret dateStr ->
  let filePath := Storage.getDailyJournalPath tz cfg date ++ [dateStr +:+ ".md"] in
  let oldFilePath := Storage.outputDir cfg ++ [dateStr +:+ ".md"] in
  (forall content, fs !! filePath = Some (Fs.TextFile content) ->
     Journals.getJournal tz cfg date fs = (Ret (Some content), fs)) /\
  (forall content, fs !! filePath = None -> Fs.isDirectory fs filePath = false ->
     fs !! oldFilePath = Some (Fs.TextFile content) ->
     Journals.getJournal tz cfg date fs = (Ret (Some content), fs)) /\
  (fs !! filePath = None -> fs !! oldFilePath = None ->
     Journals.getJournal tz cfg date fs = (Ret None, fs)).
Proof.
  intros Hfmt filePath oldFilePath. rewrite getJournal_unfold, Hfmt. simpl.
  fold filePath oldFilePath. repeat split.
  - by intros content ->.
  - by intros content -> -> ->.
  - intros -> ->. by destruct (Fs.isDirectory fs filePath).
Qed.

End JournalFacts.

(** The legacy journal of 2024-01-15 read through the fallback. *)
Lemma getJournal_legacy_fallback_witness :
  let date := Some 1705312800000 in
  let filePath := Storage.getDailyJournalPath 0 storageConfig date ++ ["2024-01-15" +:+ ".md"] in
  let oldFilePath := Storage.outputDir storageConfig ++ ["2024-01-15" +:+ ".md"] in
  (forall content, legacyDisk !! filePath = Some (Fs.TextFile content) ->
     Journals.getJournal 0 storageConfig date legacyDisk = (Ret (Some content), legacyDisk)) /\
  (forall content, legacyDisk !! filePath = None ->
     Fs.isDirectory legacyDisk filePath = false ->
     legacyDisk !! oldFilePath = Some (Fs.TextFile content) ->
     Journals.getJournal 0 storageConfig date legacyDisk = (Ret (Some content), legacyDisk)) /\
  (legacyDisk !! filePath = None -> legacyDisk !! oldFilePath = None ->
     Journals.getJournal 0 storageConfig date legacyDisk = (Ret None, legacyDisk)).
Proof.
  apply (getJournal_legacy_fallback 0 storageConfig (Some 1705312800000) "2024-01-15"
           legacyDisk).
  vm_compute. reflexivity.
Defined.

Lemma getJournal_saveJournal_witness :
  Journals.getJournal 0 storageConfig (Some 1705312800000)
    (snd (Storage.saveJournal 0 storageConfig (Some 1705312800000) "# Monday" ∅)) =
  (Ret (Some "# Monday"),
   snd (Storage.saveJournal 0 storageConfig (Some 1705312800000) "# Monday" ∅)).
Proof.
  apply (getJournal_saveJournal 0 storageConfig (Some 1705312800000) "# Monday" ∅ _
           ["data"; "journals"; "daily"; "2024"; "week-03"; "2024-01-15.md"]).
  apply pair_eta. vm_compute. reflexivity.
Defined.

(** ** Raw data: what is read, what is kept, what is written *)

Section RawDataFrame.

Variable tz : Z.
Variable cfg : Storage.config.


(** X4.  The document [saveRawData] leaves behind: [data] is the given
    array, or the one-element array of a value that is not an array;
    [timestamp] is the clock reading; every other field is the field the
    file held before (none when the file is new). *)
Theorem saveRawData_keeps_other_fields
    (now : Z) (integration : string) (date : JsDate.dateArg) (data : json)
    (fs fs1 : Fs.filesystem) (p : Fs.path) :
  Storage.saveRawData tz cfg now integration date data fs = (Ret p, fs1) ->
  exists doc : gmap string json,
    fs1 !! p = Some (Fs.JsonFile (JObj doc)) /\
    doc !! "data" = Some (Json.asArray data) /\
    ((forall l, data <> JArr l) -> doc !! "data" = Some (JArr [data])) /\
    doc !! "timestamp" = Some (JStr (JsDate.isoString now)) /\
    (forall k, k <> "data" -> k <> "timestamp" ->
       doc !! k = match fs !! p with
                  | Some (Fs.JsonFile j) => Json.spread (Some j) !! k
                  | _ => None
                  end).
Proof.
  rewrite saveRawData_unfold.
  destruct (_ ≫= _) as [dateStr|e|]; [|done..]. cbv zeta.
  set (filePath := Storage.rawDataPath cfg integration dateStr).
  assert (Hwrap : (forall l, data <> JArr l) -> Json.asArray data = JArr [data]).
  { intros Hno. destruct data; try reflexivity. by destruct (Hno l). }
  destruct (fs !! filePath) as [[j|t]|] eqn:E; [| done |].
  - intros H. injection H as <- <-. exists (mergedData now j data).
    rewrite lookup_insert_eq, E. unfold mergedData.
    rewrite lookup_insert_eq, lookup_insert_ne, lookup_insert_eq by done.
    repeat split; [by intros Hno; rewrite Hwrap |].
    intros k Hd Ht. by rewrite !lookup_insert_ne.
  - destruct (Fs.isDirectory fs filePath); [done |].
    intros H. injection H as <- <-. exists (mergedData now (JObj ∅) data).
    rewrite lookup_insert_eq, E. unfold mergedData.
    rewrite lookup_insert_eq, lookup_insert_ne, lookup_insert_eq by done.
    repeat split; [by intros Hno; rewrite Hwrap |].
    intros k Hd Ht. by rewrite !lookup_insert_ne.
Qed.

Lemma saveRawData_one_file
    (now : Z) (integration : string) (date : JsDate.dateArg) (data : json)
    (fs fs1 : Fs.filesystem) (r : outcome Fs.path) :
  Storage.saveRawData tz cfg now integration date data fs = (r, fs1) ->
  match r with
  | Ret p => forall q, q <> p -> fs1 !! q = fs !! q
  | _ => fs1 = fs
  end.
Proof.
  rewrite saveRawData_unfold.
  destruct (_ ≫= _) as [dateStr|e|]; cbv zeta.
  - destruct (fs !! _) as [[j|t]|].
    + intros H. injection H as <- <-. intros q Hq. by rewrite lookup_insert_ne.
    + intros H. by injection H as <- <-.
    + destruct (Fs.isDirectory fs _); intros H; injection H as <- <-; [done |].
      intros q Hq. by rewrite lookup_insert_ne.
  - intros H. by injection H as <- <-.
  - intros H. by injection H as <- <-.
Qed.

(** X5.  [saveRawData] writes one file at most: when it returns a path,
    every other path holds what it held; when it throws, the file system
    is as it was. *)
Theorem saveRawData_writes_one_file
    (now : Z) (integration : string) (date : JsDate.dateArg) (data : json)
    (fs fs1 : Fs.filesystem) (r : outcome Fs.path) :
  Storage.saveRawData tz cfg now integration date data fs = (r, fs1) ->
  match r with
  | Ret p => forall q, q <> p -> fs1 !! q = fs !! q
  | _ => fs1 = fs
  end.
Proof. apply saveRawData_one_file. Qed.

(** The raw data of another integration lie at another path. *)
Lemma rawDataPath_integration (i1 i2 d1 d2 : string) :
  i1 <> i2 -> Storage.rawDataPath cfg i1 d1 <> Storage.rawDataPath cfg i2 d2.
Proof.
  unfold Storage.rawDataPath. intros Hne Heq. apply app_inv_head in Heq. congruence.
Qed.


(** What a date-only text becomes west of Greenwich: UTC midnight of day
    [D] lies on the local day before. *)
Lemma localDay_utc_midnight_west (D : Z) :
  -1440 <= tz < 0 -> JsDate.localDay tz (D * JsDate.msPerDay) = D - 1.
Proof.
  intros Htz.
  replace (D * JsDate.msPerDay)
    with (JsDate.fromLocal tz (D - 1) (JsDate.msPerDay + tz * JsDate.msPerMinute))
    by (unfold JsDate.fromLocal; lia).
  apply localDay_fromLocal. unfold JsDate.msPerDay, JsDate.msPerMinute. lia.
Qed.

Lemma localDay_utc_midnight_east (D : Z) :
  0 <= tz < 1440 -> JsDate.localDay tz (D * JsDate.msPerDay) = D.
Proof.
  intros Htz.
  replace (D * JsDate.msPerDay)
    with (JsDate.fromLocal tz D (tz * JsDate.msPerMinute))
    by (unfold JsDate.fromLocal; lia).
  apply localDay_fromLocal. unfold JsDate.msPerDay, JsDate.msPerMinute. lia.
Qed.

End RawDataFrame.

Lemma localDay_utc (t : Z) : JsDate.localDay 0 t = t / JsDate.msPerDay.
Proof. unfold JsDate.localDay, JsDate.localTime. f_equal. lia. Qed.

(** X6.  A date given to [saveRawData] as the text [YYYY-MM-DD] is read
    as UTC midnight and formatted in local time: west of Greenwich the
    data are filed under the day before, as a process at UTC would file
    the previous day; at and east of Greenwich under the day itself. *)
Theorem saveRawData_date_text_by_offset
    (tz : Z) (cfg : Storage.config) (now : Z) (integration s : string) (D : Z)
    (data : json) (fs : Fs.filesystem) :
  JsDate.newDate (JsDate.OfString s) = Ret (Some (D * JsDate.msPerDay)) ->
  (-1440 <= tz < 0 ->
   Storage.saveRawData tz cfg now integration (JsDate.OfString s) data fs =
   Storage.saveRawData 0 cfg now integration
     (JsDate.OfDate (Some ((D - 1) * JsDate.msPerDay))) data fs) /\
  (0 <= tz < 1440 ->
   Storage.saveRawData tz cfg now integration (JsDate.OfString s) data fs =
   Storage.saveRawData 0 cfg now integration
     (JsDate.OfDate (Some (D * JsDate.msPerDay))) data fs).
Proof.
  intros Hparse. split; intros Htz; rewrite !saveRawData_unfold, Hparse;
    cbn [JsDate.newDate mbind outcome_bind obind]; rewrite !format_local.
  - rewrite localDay_utc_midnight_west by done.
    rewrite localDay_utc, Z.div_mul by done. reflexivity.
  - rewrite localDay_utc_midnight_east by done.
    rewrite localDay_utc, Z.div_mul by done. reflexivity.
Qed.


Lemma saveRawData_keeps_other_fields_witness :
  exists doc : gmap string json,
    snd (Storage.saveRawData 0 storageConfig 1705316400000 "github"
           (JsDate.OfString "2024-01-15") (JStr "one commit") annotatedDisk)
      !! ["data"; "raw-data"; "github"; "2024-01-15.json"] = Some (Fs.JsonFile (JObj doc)) /\
    doc !! "data" = Some (Json.asArray (JStr "one commit")) /\
    ((forall l, JStr "one commit" <> JArr l) -> doc !! "data" = Some (JArr [JStr "one commit"])) /\
    doc !! "timestamp" = Some (JStr (JsDate.isoString 1705316400000)) /\
    (forall k, k <> "data" -> k <> "timestamp" ->
       doc !! k = match annotatedDisk !! ["data"; "raw-data"; "github"; "2024-01-15.json"] with
                  | Some (Fs.JsonFile j) => Json.spread (Some j) !! k
                  | _ => None
                  end).
Proof.
  apply (saveRawData_keeps_other_fields 0 storageConfig 1705316400000 "github"
           (JsDate.OfString "2024-01-15") (JStr "one commit") annotatedDisk).
  apply pair_eta. vm_compute. reflexivity.
Defined.

Lemma saveRawData_writes_one_file_witness :
  snd (Storage.saveRawData 0 storageConfig 1705316400000 "github"
         (JsDate.OfString "2024-01-15") (JStr "one commit") annotatedDisk)
    !! ["data"; "sync-state.json"] =
  annotatedDisk !! ["data"; "sync-state.json"].
Proof.
  apply (saveRawData_writes_one_file 0 storageConfig 1705316400000 "github"
           (JsDate.OfString "2024-01-15") (JStr "one commit") annotatedDisk _
           (Ret ["data"; "raw-data"; "github"; "2024-01-15.json"])).
  - apply pair_eta. vm_compute. reflexivity.
  - discriminate.
Defined.

Lemma saveRawData_date_text_by_offset_witness :
  (-1440 <= -300 < 0 ->
   Storage.saveRawData (-300) storageConfig 1705316400000 "slack"
     (JsDate.OfString "2024-01-15") (JArr []) ∅ =
   Storage.saveRawData 0 storageConfig 1705316400000 "slack"
     (JsDate.OfDate (Some ((19737 - 1) * JsDate.msPerDay))) (JArr []) ∅) /\
  (0 <= -300 < 1440 ->
   Storage.saveRawData (-300) storageConfig 1705316400000 "slack"
     (JsDate.OfString "2024-01-15") (JArr []) ∅ =
   Storage.saveRawData 0 storageConfig 1705316400000 "slack"
     (JsDate.OfDate (Some (19737 * JsDate.msPerDay))) (JArr []) ∅).
Proof.
  apply (saveRawData_date_text_by_offset (-300) storageConfig 1705316400000 "slack"
           "2024-01-15" 19737 (JArr []) ∅).
  vm_compute. reflexivity.
Defined.


(** ** Sync state: reading back, and a file that does not parse *)

Section SyncStateReadBack.

Variable cfg : Storage.config.

Lemma getSyncState_after_set
    (now : Z) (X : string) (state entry : json) (fs fs1 : Fs.filesystem) :
  X <> EmptyString ->
  Storage.setSyncState cfg now X state fs = (Ret entry, fs1) ->
  Storage.getSyncState cfg (Some X) fs1 = (Ret entry, fs1).
Proof.
  intros HX. unfold Storage.setSyncState, Fs.try_catch. unfold Fs.bind at 1.
  rewrite getSyncState_all.
  destruct (match fs !! Storage.syncStateFile cfg with
            | Some (Fs.JsonFile j) => j
            | _ => JObj ∅
            end) as [| | | | |m]; try done.
  unfold Fs.bind, Fs.writeJson, Fs.ret. intros H. injection H as <- <-.
  unfold Storage.getSyncState, Fs.try_catch, Fs.bind, Fs.pathExists, Fs.readJson, Fs.ret.
  rewrite lookup_insert_eq.
  rewrite bool_decide_eq_true_2 by eauto. simpl.
  rewrite lookup_insert_eq.
  destruct X as [|a name]; [done |].
  by rewrite lookup_insert_eq.
Qed.



End SyncStateReadBack.



(** ** Migration: what every run keeps *)

Section MigrationFrame.

Variable tz : Z.
Variable cfg : Storage.config.

Implicit Types (fs : Fs.filesystem) (p : Fs.path).

(** A relation between the file system before and after that every
    [move] out of the output directory respects. *)
Variable R : Fs.filesystem -> Fs.filesystem -> Prop.
Hypothesis R_refl : forall fs, R fs fs.
Hypothesis R_trans : forall fs1 fs2 fs3, R fs1 fs2 -> R fs2 fs3 -> R fs1 fs3.
Hypothesis R_move : forall (name : string) (dest : Fs.path) fs fs' (r : outcome unit),
  Fs.move (Storage.outputDir cfg ++ [name]) dest fs = (r, fs') -> R fs fs'.

Lemma migrateJournal_respects (n : string) fs fs' (r : outcome Z) :
  Storage.migrateJournal tz cfg n fs = (r, fs') -> R fs fs'.
Proof.
  unfold Storage.migrateJournal, Fs.try_catch, Fs.bind, Fs.lift, Fs.ensureDir, Fs.ret.
  intros H.
  destruct (Storage.matchDailyName n) as [dateText|]; [| by simplify_eq].
  destruct (JsDate.parseDateOnly dateText) as [date| |]; [| by simplify_eq..].
  destruct (Fs.move _ _ fs) as [r0 fs0] eqn:Hmove.
  apply R_move in Hmove. destruct r0; by simplify_eq.
Qed.

Lemma migrateWeeklyReport_respects (n : string) fs fs' (r : outcome Z) :
  Storage.migrateWeeklyReport tz cfg n fs = (r, fs') -> R fs fs'.
Proof.
  unfold Storage.migrateWeeklyReport, Fs.try_catch, Fs.bind, Fs.lift, Fs.ensureDir, Fs.ret.
  intros H.
  destruct (Storage.matchWeeklyName n) as [dateText|]; [| by simplify_eq].
  destruct (JsDate.parseDateOnly dateText) as [date| |]; [| by simplify_eq..].
  destruct (Fs.move _ _ fs) as [r0 fs0] eqn:Hmove.
  apply R_move in Hmove. destruct r0; by simplify_eq.
Qed.

Lemma forEachFile_respects (body : string -> Fs.M Z) (files : list string) :
  (forall n fs fs' r, body n fs = (r, fs') -> R fs fs') ->
  forall (migrated : Z) fs fs' r,
    Storage.forEachFile body files migrated fs = (r, fs') -> R fs fs'.
Proof.
  intros Hbody. induction files as [|n files IH]; intros migrated fs fs' r H.
  - by injection H as _ <-.
  - simpl in H. unfold Fs.bind in H.
    destruct (body n fs) as [[k|e|] fs0] eqn:Hstep.
    + eapply R_trans; eauto.
    + injection H as _ <-. eauto.
    + injection H as _ <-. eauto.
Qed.

Lemma migrateExistingJournals_respects fs fs' (r : outcome Z) :
  Storage.migrateExistingJournals tz cfg fs = (r, fs') -> R fs fs'.
Proof.
  unfold Storage.migrateExistingJournals, Fs.try_catch, Fs.readdir.
  unfold Fs.bind at 1. set (files := elements _).
  unfold Fs.bind at 1.
  destruct (Storage.forEachFile _ (List.filter Storage.isJournalFile files) 0 fs)
    as [r1 fs1] eqn:H1.
  apply (forEachFile_respects _ _ migrateJournal_respects) in H1.
  destruct r1 as [migrated|e|]; [| intros H; by injection H as _ <-..].
  unfold Fs.bind at 1.
  destruct (Storage.forEachFile _ (List.filter Storage.isWeeklyReport files) migrated fs1)
    as [r2 fs2] eqn:H2.
  apply (forEachFile_respects _ _ migrateWeeklyReport_respects) in H2.
  destruct r2; unfold Fs.ret, Fs.throw; intros H; injection H as _ <-; eauto.
Qed.

End MigrationFrame.

Section MigrationKeeps.

Variable tz : Z.
Variable cfg : Storage.config.

Implicit Types (fs : Fs.filesystem) (p : Fs.path).

(** A successful [move] found nothing at its destination, so whatever
    lies elsewhere than at the source stays. *)
Lemma move_keeps (src dest p : Fs.path) fs fs' (r : outcome unit) (f : Fs.file) :
  Fs.move src dest fs = (r, fs') -> p <> src -> fs !! p = Some f -> fs' !! p = Some f.
Proof.
  unfold Fs.move. intros H Hsrc Hp.
  destruct (fs !! src) as [g|].
  - destruct (bool_decide (is_Some (fs !! dest))) eqn:Hdest; simpl in H.
    + by simplify_eq.
    + destruct (Fs.isDirectory fs dest); simplify_eq; [done |].
      apply bool_decide_eq_false in Hdest.
      rewrite lookup_insert_ne, lookup_delete_ne; [done | done |].
      intros <-. apply Hdest. eauto.
  - destruct (Fs.isDirectory fs src); by simplify_eq.
Qed.

(** [move] loses no content. *)
Lemma move_content (src dest p : Fs.path) fs fs' (r : outcome unit) (f : Fs.file) :
  Fs.move src dest fs = (r, fs') -> fs !! p = Some f -> exists p', fs' !! p' = Some f.
Proof.
  intros H Hp. destruct (decide (p = src)) as [-> | Hne].
  - unfold Fs.move in H. rewrite Hp in H.
    destruct (_ || _); simplify_eq; [eauto |].
    exists dest. by rewrite lookup_insert_eq.
  - exists p. by eapply move_keeps.
Qed.

(** X9.  The migration loses no file: every content that lies somewhere
    before the run lies somewhere after it, whether the run moved the
    file, skipped it or failed on it. *)
Theorem migrate_keeps_contents fs fs' (r : outcome Z) (p : Fs.path) (f : Fs.file) :
  Storage.migrateExistingJournals tz cfg fs = (r, fs') ->
  fs !! p = Some f ->
  exists p', fs' !! p' = Some f.
Proof.
  intros H. revert p f.
  apply (migrateExistingJournals_respects tz cfg
           (fun a b => forall p f, a !! p = Some f -> exists p', b !! p' = Some f))
    with (r := r); [eauto | | | exact H].
  - intros fs1 fs2 fs3 H12 H23 p f Hp.
    destruct (H12 p f Hp) as [p' Hp']. eauto.
  - intros name dest a b r0 Hmove p f Hp. by eapply move_content.
Qed.

(** X10.  The migration overwrites nothing: a file that does not lie
    directly in the output directory, a journal of the nested layout for
    one, is after the run where it was, with the content it had. *)
Theorem migrate_overwrites_nothing fs fs' (r : outcome Z) (p : Fs.path) (f : Fs.file) :
  Storage.migrateExistingJournals tz cfg fs = (r, fs') ->
  (forall name, p <> Storage.outputDir cfg ++ [name]) ->
  fs !! p = Some f ->
  fs' !! p = Some f.
Proof.
  intros H Hp. revert f.
  apply (migrateExistingJournals_respects tz cfg
           (fun a b => forall f, a !! p = Some f -> b !! p = Some f))
    with (r := r); [eauto | eauto | | exact H].
  intros name dest a b r0 Hmove f Hf. eapply move_keeps; eauto.
Qed.

(** A [catch] that returns a value leaves no exception. *)
Lemma try_catch_ret_no_throw {A} (m : Fs.M A) (x : A) fs (e : exn) :
  fst (Fs.try_catch m (fun _ => Fs.ret x) fs) <> Throw e.
Proof. unfold Fs.try_catch. by destruct (m fs) as [[a|e'|] fs0]. Qed.

(** [forEachFile] with a body that catches its errors does not throw. *)
Lemma forEachFile_no_throw (body : string -> Fs.M Z) (files : list string) :
  (forall n fs e, fst (body n fs) <> Throw e) ->
  forall (migrated : Z) fs e, fst (Storage.forEachFile body files migrated fs) <> Throw e.
Proof.
  intros Hbody. induction files as [|n files IH]; intros migrated fs e.
  - done.
  - simpl. unfold Fs.bind. specialize (Hbody n fs).
    destruct (body n fs) as [[k|e'|] fs0]; simpl in *.
    + apply IH.
    + by destruct (Hbody e').
    + done.
Qed.

(** X11.  With the output directory in place (a missing one makes
    [readdir] fail, which the run passes on), the migration does not
    throw: a file that cannot be moved, for one because its destination
    exists, is passed over and the run goes on to the next file. *)
Theorem migrate_never_throws fs (e : exn) :
  Fs.isDirectory fs (Storage.outputDir cfg) = true ->
  fst (Storage.migrateExistingJournals tz cfg fs) <> Throw e.
Proof.
  intros _.
  unfold Storage.migrateExistingJournals, Fs.try_catch, Fs.readdir.
  unfold Fs.bind at 1. set (files := elements _).
  unfold Fs.bind at 1.
  pose proof (forEachFile_no_throw (Storage.migrateJournal tz cfg)
                (List.filter Storage.isJournalFile files)) as H1.
  pose proof (forEachFile_no_throw (Storage.migrateWeeklyReport tz cfg)
                (List.filter Storage.isWeeklyReport files)) as H2.
  assert (Hj : forall n a e0, fst (Storage.migrateJournal tz cfg n a) <> Throw e0).
  { intros n a e0. apply try_catch_ret_no_throw. }
  assert (Hw : forall n a e0, fst (Storage.migrateWeeklyReport tz cfg n a) <> Throw e0).
  { intros n a e0. apply try_catch_ret_no_throw. }
  specialize (H1 Hj 0 fs). specialize (H2 Hw).
  destruct (Storage.forEachFile _ (List.filter Storage.isJournalFile files) 0 fs)
    as [[migrated|e1|] fs1]; simpl in *.
  - unfold Fs.bind at 1. specialize (H2 migrated fs1).
    destruct (Storage.forEachFile _ (List.filter Storage.isWeeklyReport files) migrated fs1)
      as [[m2|e2|] fs2]; simpl in *; [done | by destruct (H2 e2) | done].
  - by destruct (H1 e1).
  - done.
Qed.

End MigrationKeeps.

(** The legacy journal of 2024-01-15 when its place in the nested layout
    is taken: the run moves nothing and both files stay. *)
Lemma migrate_keeps_contents_witness :
  exists p',
    snd (Storage.migrateExistingJournals 0 storageConfig takenDisk) !! p' =
    Some (Fs.TextFile "# Monday").
Proof.
  apply (migrate_keeps_contents 0 storageConfig takenDisk _ (Ret 0)
           ["data"; "journals"; "2024-01-15.md"] (Fs.TextFile "# Monday")).
  - apply pair_eta. vm_compute. reflexivity.
  - vm_compute. reflexivity.
Defined.

Lemma migrate_overwrites_nothing_witness :
  snd (Storage.migrateExistingJournals 0 storageConfig takenDisk)
    !! ["data"; "journals"; "daily"; "2024"; "week-03"; "2024-01-15.md"] =
  Some (Fs.TextFile "# Monday, rewritten").
Proof.
  apply (migrate_overwrites_nothing 0 storageConfig takenDisk _ (Ret 0)).
  - apply pair_eta. vm_compute. reflexivity.
  - intros name Heq. apply (f_equal length) in Heq. vm_compute in Heq. lia.
  - vm_compute. reflexivity.
Defined.

Lemma migrate_never_throws_witness :
  fst (Storage.migrateExistingJournals 0 storageConfig takenDisk) <>
  Throw (FsError "dest already exists.").
Proof.
  apply (migrate_never_throws 0 storageConfig takenDisk (FsError "dest already exists.")).
  vm_compute. reflexivity.
Defined.

(** ** The Slack sync: what it returns and what it records *)

Section SyncResult.

Import JsDate.

Variable tz : Z.
Variable scfg : Storage.config.
Variable cfg : Slack.config.
Variable authTest : outcome (string * string).
Variable searchMessages : SlackSync.request -> outcome (list SlackSync.rawMessage).
Variable getThreadReplies : list SlackSync.rawMessage -> string -> list SlackSync.rawMessage.
Variable clock : nat -> Z.

(** The activities of one day have passed the filter. *)
Lemma processMessages_included (messages : list SlackSync.rawMessage) :
  forall l, SlackSync.processMessages cfg messages = Ret l ->
  Forall (included cfg) l.
Proof.
  induction messages as [|msg rest IH]; simpl; intros l H.
  - injection H as <-. constructor.
  - destruct (SlackSync.processSearchMessage msg) as [a|] eqn:Hmsg; [| by apply IH].
    destruct (Slack.shouldIncludeMessage cfg a) as [keep| |] eqn:Hkeep; [| done..].
    cbn [mbind outcome_bind obind] in H.
    destruct (SlackSync.processMessages cfg rest) as [l'| |]; [| done..].
    cbn [mbind outcome_bind obind] in H. injection H as <-.
    destruct keep; [| by apply IH].
    constructor; [exact Hkeep | by apply IH].
Qed.

Lemma recordDay_included (d : Date) (l : list Slack.activity) (st st' : SlackSync.loopState) :
  SlackSync.recordDay tz d l st = Ret st' ->
  Forall (included cfg) (SlackSync.allActivities st) ->
  Forall (included cfg) l ->
  Forall (included cfg) (SlackSync.allActivities st').
Proof.
  unfold SlackSync.recordDay. intros H Hst Hl.
  destruct (_ <? _)%nat; [| by injection H as <-].
  destruct (format tz d "yyyy-MM-dd") as [dateStr| |]; [| done..].
  cbn [mbind outcome_bind obind] in H. injection H as <-. simpl.
  apply Forall_app. by split.
Qed.

Lemma dayLoop_included (username : string) (endDate : Date) (fuel : nat) :
  forall (c : Date) (st st' : SlackSync.loopState) (log log' : list SlackSync.dailySearch),
    SlackSync.dayLoop tz cfg searchMessages getThreadReplies fuel username c endDate st log =
      Some (Ret st', log') ->
    Forall (included cfg) (SlackSync.allActivities st) ->
    Forall (included cfg) (SlackSync.allActivities st').
Proof.
  induction fuel as [|fuel IH]; intros c st st' log log' H Hst.
  - simpl in H. destruct (dateLe c endDate); [done |]. by injection H as <- _.
  - cbn [SlackSync.dayLoop] in H.
    destruct (dateLe c endDate); [| by injection H as <- _].
    destruct (SlackSync.processMessages cfg _) as [l| |] eqn:Hl;
      cbn [mbind outcome_bind obind] in H; [| done..].
    destruct (SlackSync.recordDay tz c l st) as [st1| |] eqn:Hrec; [| done..].
    apply (IH _ _ _ _ _ H).
    apply (recordDay_included _ _ _ _ Hrec Hst).
    apply (processMessages_included _ _ Hl).
Qed.

(** What [finishSync] returns, and the call that wrote the sync state. *)
Lemma finishSync_result (auth : string * string) (startDate endDate : Date)
    (st : SlackSync.loopState) (fs fs' : Fs.filesystem) (acts : list Slack.activity) :
  SlackSync.finishSync tz scfg clock auth startDate endDate st fs = (Ret acts, fs') ->
  acts = SlackSync.allActivities st /\
  exists (i : nat) (lastSyncStart lastSyncEnd : string) (fs0 : Fs.filesystem) (entry : json),
    Storage.setSyncState scfg (clock i) "slack"
      (JObj (list_to_map
         [("lastSyncStart", JStr lastSyncStart);
          ("lastSyncEnd", JStr lastSyncEnd);
          ("totalActivities", JNum (Z.of_nat (length (SlackSync.allActivities st))));
          ("userId", JStr (fst auth));
          ("username", JStr (snd auth));
          ("method", JStr "search_api_daily")])) fs0 = (Ret entry, fs').
Proof.
  unfold SlackSync.finishSync. unfold Fs.bind at 1.
  destruct (SlackSync.saveAll _ _ _ _ _ fs) as [[i|e|] fs0]; [| done..].
  unfold Fs.bind at 1, Fs.lift.
  destruct (toISOString startDate) as [lastSyncStart|e|]; [| done..].
  unfold Fs.bind at 1.
  destruct (toISOString endDate) as [lastSyncEnd|e|]; [| done..].
  unfold Fs.bind at 1.
  destruct (Storage.setSyncState _ _ _ _ fs0) as [[entry|e|] fs1] eqn:Hset; [| done..].
  unfold Fs.ret. intros H. injection H as <- <-.
  split; [done |]. by exists i, lastSyncStart, lastSyncEnd, fs0, entry.
Qed.

Lemma sync_result (startDate endDate : Date) (fs fs' : Fs.filesystem)
    (acts : list Slack.activity) :
  fst (SlackSync.sync tz scfg cfg authTest searchMessages getThreadReplies clock
         startDate endDate fs) = (Ret acts, fs') ->
  exists (auth : string * string) (st : SlackSync.loopState)
         (log : list SlackSync.dailySearch) (fs0 : Fs.filesystem),
    SlackSync.dayLoop tz cfg searchMessages getThreadReplies
      (SlackSync.loopFuel startDate endDate) (snd auth) startDate endDate
      {| SlackSync.allActivities := []; SlackSync.allActivitiesByDate := [] |} [] =
      Some (Ret st, log) /\
    SlackSync.finishSync tz scfg clock auth startDate endDate st fs = (Ret acts, fs').
Proof.
  unfold SlackSync.sync.
  destruct authTest as [auth|e|]; [| done..].
  destruct (SlackSync.dayLoop _ _ _ _ _ _ _ _ _ _) as [[r log]|] eqn:Hloop; [| done].
  simpl. unfold Fs.try_catch, Fs.lift. unfold Fs.bind at 1.
  destruct r as [st|e|]; [| done..].
  destruct (SlackSync.finishSync _ _ _ _ _ _ _ fs) as [[a|e|] fs1] eqn:Hfin;
    unfold Fs.throw; [| done..].
  intros H. injection H as <- <-. by exists auth, st, log, fs.
Qed.

(** X12.  Every activity that [sync] returns has passed
    [shouldIncludeMessage]. *)
Theorem sync_returns_included (startDate endDate : Date) (fs fs' : Fs.filesystem)
    (acts : list Slack.activity) :
  fst (SlackSync.sync tz scfg cfg authTest searchMessages getThreadReplies clock
         startDate endDate fs) = (Ret acts, fs') ->
  Forall (included cfg) acts.
Proof.
  intros H. destruct (sync_result _ _ _ _ _ H) as (auth & st & log & fs0 & Hloop & Hfin).
  destruct (finishSync_result _ _ _ _ _ _ _ Hfin) as [-> _].
  by apply (dayLoop_included _ _ _ _ _ _ _ _ Hloop).
Qed.

(** X13.  After a [sync] that returns, the sync state of Slack holds the
    number of activities returned and the method of the search. *)
Theorem sync_records_total (startDate endDate : Date) (fs fs' : Fs.filesystem)
    (acts : list Slack.activity) :
  fst (SlackSync.sync tz scfg cfg authTest searchMessages getThreadReplies clock
         startDate endDate fs) = (Ret acts, fs') ->
  exists entry : gmap string json,
    Storage.getSyncState scfg (Some "slack") fs' = (Ret (JObj entry), fs') /\
    entry !! "totalActivities" = Some (JNum (Z.of_nat (length acts))) /\
    entry !! "method" = Some (JStr "search_api_daily").
Proof.
  intros H. destruct (sync_result _ _ _ _ _ H) as (auth & st & log & fs0 & Hloop & Hfin).
  destruct (finishSync_result _ _ _ _ _ _ _ Hfin)
    as [-> (i & lastSyncStart & lastSyncEnd & fs1 & entry & Hset)].
  pose proof Hset as Hget. apply getSyncState_after_set in Hget; [| done].
  revert Hset. unfold Storage.setSyncState, Fs.try_catch. unfold Fs.bind at 1.
  rewrite getSyncState_all.
  destruct (match fs1 !! Storage.syncStateFile scfg with
            | Some (Fs.JsonFile j) => j
            | _ => JObj ∅
            end) as [| | | | |m]; try done.
  unfold Fs.bind, Fs.writeJson, Fs.ret. intros Hset. injection Hset as <- <-.
  eexists. split; [exact Hget |].
  split.
  - rewrite lookup_insert_ne by done. rewrite lookup_union. cbn [Json.spread list_to_map foldr].
    cbn [fst snd uncurry].
    rewrite lookup_insert_ne, lookup_insert_ne, lookup_insert_eq by done.
    by destruct (Json.spread _ !! _).
  - rewrite lookup_insert_ne by done. rewrite lookup_union. cbn [Json.spread list_to_map foldr].
    cbn [fst snd uncurry].
    do 5 rewrite lookup_insert_ne by done. rewrite lookup_insert_eq.
    by destruct (Json.spread _ !! _).
Qed.

End SyncResult.

(** One day of the workspace with a message on [dev] and one on
    [test-foo]: the first is returned. *)
Lemma sync_returns_included_witness :
  exists acts : list Slack.activity,
    fst (fst (SlackSync.sync 0 storageConfig slackTestConfig quietAuth busySearch noReplies
                syncClock (Some 1705312800000) (Some 1705312800000) ∅)) = Ret acts /\
    map Slack.channel acts = ["dev"] /\
    Forall (included slackTestConfig) acts.
Proof.
  eexists. split; [vm_compute; reflexivity |]. split; [reflexivity |].
  apply (sync_returns_included 0 storageConfig slackTestConfig quietAuth busySearch noReplies
           syncClock (Some 1705312800000) (Some 1705312800000) ∅
           (snd (fst (SlackSync.sync 0 storageConfig slackTestConfig quietAuth busySearch
                        noReplies syncClock (Some 1705312800000) (Some 1705312800000) ∅)))).
  apply pair_eta. vm_compute. reflexivity.
Defined.

Lemma sync_records_total_witness :
  exists entry : gmap string json,
    Storage.getSyncState storageConfig (Some "slack")
      (snd (fst (SlackSync.sync 0 storageConfig slackTestConfig quietAuth busySearch
                   noReplies syncClock (Some 1705312800000) (Some 1705312800000) ∅))) =
      (Ret (JObj entry),
       snd (fst (SlackSync.sync 0 storageConfig slackTestConfig quietAuth busySearch
                   noReplies syncClock (Some 1705312800000) (Some 1705312800000) ∅))) /\
    entry !! "totalActivities" = Some (JNum (Z.of_nat (length [messageOn "dev"]))) /\
    entry !! "method" = Some (JStr "search_api_daily").
Proof.
  apply (sync_records_total 0 storageConfig slackTestConfig quietAuth busySearch noReplies
           syncClock (Some 1705312800000) (Some 1705312800000) ∅).
  apply pair_eta. vm_compute. reflexivity.
Defined.

(** ** The GitHub filter *)

Section ArrayFilter.

Context {A : Type}.
Variable f : A -> outcome bool.

(** [array.filter(f)], when no call of [f] throws: a sublist of the
    array, made of the elements on which [f] is true and of all of them,
    and a fixed point of the filter. *)
Lemma array_filter_spec (l kept : list A) :
  array_filter f l = Ret kept ->
  sublist kept l /\
  Forall (fun a => f a = Ret true) kept /\
  (forall a, In a l -> f a = Ret true -> In a kept) /\
  array_filter f kept = Ret kept.
Proof.
  revert kept. induction l as [|x l IH]; simpl; intros kept H.
  - injection H as <-. repeat split; [constructor | constructor | done].
  - destruct (f x) as [b| |] eqn:Hx; [| done..]. cbn [mbind outcome_bind obind] in H.
    destruct (array_filter f l) as [rest| |]; [| done..].
    cbn [mbind outcome_bind obind] in H. injection H as <-.
    destruct (IH rest eq_refl) as (Hsub & Hall & Hin & Hfix).
    destruct b.
    + repeat split.
      * by constructor.
      * by constructor.
      * intros a [<- | Ha] Hfa; [by left | right; by apply Hin].
      * simpl. by rewrite Hx, Hfix.
    + repeat split; [by constructor | done | | done].
      intros a [<- | Ha] Hfa; [congruence | by apply Hin].
Qed.

End ArrayFilter.

Lemma list_includes_In (l : list string) (x : string) :
  Js.list_includes l x = true <-> In x l.
Proof.
  unfold Js.list_includes. rewrite existsb_exists. split.
  - intros (y & Hy & Heq). apply String.eqb_eq in Heq. by subst.
  - intros Hx. exists x. split; [done | apply String.eqb_refl].
Qed.

(** X14.  [filterRepositories], when it returns: what it keeps is a
    sublist of the activities, in their order; no kept activity is of a
    repository excluded by name; every activity that passes the two
    exclusion tests is kept; and filtering the result again changes
    nothing. *)
Theorem filterRepositories_sound (cfg : GitHub.config) (activities kept : list GitHub.activity) :
  GitHub.filterRepositories cfg activities = Ret kept ->
  sublist kept activities /\
  Forall (fun a => ~ In (GitHub.repository a) (GitHub.excludeRepos cfg)) kept /\
  (forall a, In a activities -> GitHub.keepRepository cfg a = Ret true -> In a kept) /\
  GitHub.filterRepositories cfg kept = Ret kept.
Proof.
  unfold GitHub.filterRepositories. intros H.
  destruct (array_filter_spec _ _ _ H) as (Hsub & Hall & Hin & Hfix).
  repeat split; [done | | done | done].
  eapply Forall_impl; [exact Hall |].
  intros a Ha Hex. apply list_includes_In in Hex.
  unfold GitHub.keepRepository in Ha. by rewrite Hex in Ha.
Qed.

Lemma filterRepositories_sound_witness :
  let activities := [commitIn "ada/journal"; commitIn "ada/dotfiles"; commitIn "grace/cobol-fork"] in
  let kept := [commitIn "ada/journal"] in
  sublist kept activities /\
  Forall (fun a => ~ In (GitHub.repository a) (GitHub.excludeRepos githubTestConfig)) kept /\
  (forall a, In a activities -> GitHub.keepRepository githubTestConfig a = Ret true ->
     In a kept) /\
  GitHub.filterRepositories githubTestConfig kept = Ret kept.
Proof.
  apply (filterRepositories_sound githubTestConfig
           [commitIn "ada/journal"; commitIn "ada/dotfiles"; commitIn "grace/cobol-fork"]
           [commitIn "ada/journal"]).
  vm_compute. reflexivity.
Defined.

(** ** The Google Calendar connector *)

Section CalendarFacts.

Implicit Types (s p t : string).

Lemma startsWith_app s p t :
  Js.startsWith s p = true -> Js.startsWith (s +:+ t) p = true.
Proof.
  revert s. induction p as [|b p IH]; intros s H.
  { destruct s; [rewrite append_nil_l; by destruct t | by rewrite append_cons]. }
  destruct s as [|a s]; [done |].
  rewrite append_cons. simpl in *.
  apply andb_prop in H as [-> H]. by rewrite IH.
Qed.

Lemma includes_app s p t :
  Js.includes s p = true -> Js.includes (s +:+ t) p = true.
Proof.
  induction s as [|a s IH]; intros H.
  - simpl in H. rewrite orb_false_r in H. destruct p; [| done].
    rewrite append_nil_l. by destruct t.
  - rewrite append_cons. cbn [Js.includes] in *.
    apply orb_prop in H as [H | H].
    + rewrite <- append_cons. by rewrite startsWith_app.
    + rewrite IH by done. apply orb_true_r.
Qed.

(** X15.  An event that [shouldIncludeEvent] accepts is a timed event
    (its start has a [dateTime]; an all-day event never passes), it has
    an end, its title is none of the excluded titles, the user has not
    declined it, and when start and end are valid dates it lasts at least
    [minDuration] minutes. *)
Theorem shouldIncludeEvent_sound (cfg : GCal.config) (ev : GCal.event) :
  GCal.shouldIncludeEvent cfg ev = Ret true ->
  exists st en : GCal.eventTime,
    GCal.start ev = Some st /\ is_Some (GCal.dateTime st) /\
    GCal.end_ ev = Some en /\
    (forall l excluded, GCal.excludeEvents cfg = Some l -> In excluded l ->
       Js.toLowerCase (default EmptyString (GCal.summary ev)) <> Js.toLowerCase excluded) /\
    (forall l a, GCal.attendees ev = Some l -> In a l ->
       GCal.self a = true -> GCal.responseStatus a <> "declined") /\
    (forall s e : Z, GCal.eventDate st = Some s -> GCal.eventDate en = Some e ->
       GCal.minDuration cfg * 60000 <= e - s).
Proof.
  unfold GCal.shouldIncludeEvent. intros H.
  destruct (GCal.start ev) as [st|]; [| done].
  destruct (GCal.dateTime st) as [dt|] eqn:Hdt.
  2:{ destruct (GCal.date st); simpl in H; done. }
  rewrite (bool_decide_eq_true_2 (is_Some (Some dt))) in H by eauto.
  rewrite andb_false_r in H. simpl in H.
  destruct (match GCal.excludeEvents cfg with Some _ => _ | None => _ end) eqn:Hex; [done |].
  destruct (match GCal.excludeEventPatterns cfg with Some _ => _ | None => _ end)
    as [[|]| |]; cbn [mbind outcome_bind obind] in H; [done | | done..].
  destruct (GCal.end_ ev) as [en|]; [| done].
  destruct (match GCal.eventDate st with Some _ => _ | None => _ end) eqn:Hshort; [done |].
  destruct (match GCal.attendees ev with Some _ => _ | None => _ end) eqn:Hdecl; [done |].
  exists st, en. rewrite Hdt. repeat split; [eauto | | |].
  - intros l excluded Hl Hin Heq. rewrite Hl in Hex.
    apply not_true_iff_false in Hex. apply Hex.
    apply existsb_exists. exists excluded. split; [done |]. by apply String.eqb_eq.
  - intros l a Hl Hin Hself Hstatus. rewrite Hl in Hdecl.
    apply not_true_iff_false in Hdecl. apply Hdecl.
    apply existsb_exists. exists a. split; [done |].
    rewrite Hself, Hstatus. reflexivity.
  - intros s e Hs He. rewrite Hs, He in Hshort.
    apply Z.ltb_ge in Hshort. lia.
Qed.

(** X16.  [categorizeEvent] gives one of ten labels; the keyword tests go
    in source order over title and description together, so a title that
    mentions [daily] makes a standup whatever else title and description
    say; and [meeting] is given to events with two attendees or more
    only. *)
Theorem categorizeEvent_labels (ev : GCal.event) (description : option string) :
  In (Calendar.categorizeEvent ev description) eventTypes /\
  (Js.includes (Js.toLowerCase (default EmptyString (GCal.summary ev))) "daily" = true ->
   Calendar.categorizeEvent ev description = "standup") /\
  (Calendar.categorizeEvent ev description = "meeting" ->
   exists l, GCal.attendees ev = Some l /\ (2 <= length l)%nat).
Proof.
  unfold Calendar.categorizeEvent, eventTypes.
  set (combined := _ +:+ " " +:+ _).
  split; [| split].
  - repeat case_match; simpl; tauto.
  - intros Hdaily. unfold combined. rewrite (includes_app _ _ _ Hdaily).
    by rewrite !orb_true_r.
  - repeat case_match; try discriminate.
    intros _. eexists. split; [done |]. by apply Nat.ltb_lt.
Qed.

(** X17.  [filterCalendars], when it returns: the calendars kept are a
    sublist of the list; none has a name or identifier that contains an
    excluded text, whether or not the calendar is listed to be included;
    and with a list of calendars to include that is not empty, each one
    kept matches an entry of it. *)
Theorem filterCalendars_sound (cfg : Calendar.config) (calendars kept : list Calendar.calendar) :
  Calendar.filterCalendars cfg calendars = Ret kept ->
  sublist kept calendars /\
  Forall (fun cal =>
    (forall excluded, In excluded (Calendar.excludeCalendars cfg) ->
       Calendar.matchesExcluded cal excluded = false) /\
    (forall l, Calendar.includeCalendars cfg = Some l -> l <> [] ->
       exists included, In included l /\ Calendar.matchesIncluded cal included = true)) kept.
Proof.
  unfold Calendar.filterCalendars. intros H.
  destruct (array_filter_spec _ _ _ H) as (Hsub & Hall & _ & _).
  split; [done |].
  eapply Forall_impl; [exact Hall |].
  intros cal Hkeep. unfold Calendar.keepCalendar in Hkeep.
  destruct (match Calendar.includeCalendars cfg with Some _ => _ | None => _ end) eqn:Hinc;
    [done |].
  destruct (existsb (Calendar.matchesExcluded cal) (Calendar.excludeCalendars cfg)) eqn:Hex;
    [done |].
  split.
  - intros excluded Hin. destruct (Calendar.matchesExcluded cal excluded) eqn:Hm; [| done].
    apply not_true_iff_false in Hex. destruct Hex.
    apply existsb_exists. eauto.
  - intros l Hl Hne. rewrite Hl in Hinc. destruct l as [|i l]; [done |].
    apply negb_false_iff, existsb_exists in Hinc. exact Hinc.
Qed.

End CalendarFacts.

Lemma shouldIncludeEvent_sound_witness :
  exists st en : GCal.eventTime,
    GCal.start (eventTitled "Design review") = Some st /\ is_Some (GCal.dateTime st) /\
    GCal.end_ (eventTitled "Design review") = Some en /\
    (forall l excluded, GCal.excludeEvents gcalTestConfig = Some l -> In excluded l ->
       Js.toLowerCase (default EmptyString (GCal.summary (eventTitled "Design review"))) <>
       Js.toLowerCase excluded) /\
    (forall l a, GCal.attendees (eventTitled "Design review") = Some l -> In a l ->
       GCal.self a = true -> GCal.responseStatus a <> "declined") /\
    (forall s e : Z, GCal.eventDate st = Some s -> GCal.eventDate en = Some e ->
       GCal.minDuration gcalTestConfig * 60000 <= e - s).
Proof.
  apply (shouldIncludeEvent_sound gcalTestConfig (eventTitled "Design review")).
  vm_compute. reflexivity.
Defined.

(** A daily review is a standup: the first test wins. *)
Lemma categorizeEvent_labels_witness :
  Calendar.categorizeEvent (eventTitled "Daily review") (Some "Retro of the sprint") =
  "standup".
Proof.
  apply (proj1 (proj2 (categorizeEvent_labels (eventTitled "Daily review")
                         (Some "Retro of the sprint")))).
  vm_compute. reflexivity.
Defined.

(** [Work] is to be included; [Work (personal)] as well, and is excluded. *)
Lemma filterCalendars_sound_witness :
  let calendars := [calendarNamed "Work"; calendarNamed "Work (personal)"; calendarNamed "Team"] in
  let kept := [calendarNamed "Work"] in
  sublist kept calendars /\
  Forall (fun cal =>
    (forall excluded, In excluded (Calendar.excludeCalendars calendarTestConfig) ->
       Calendar.matchesExcluded cal excluded = false) /\
    (forall l, Calendar.includeCalendars calendarTestConfig = Some l -> l <> [] ->
       exists included, In included l /\ Calendar.matchesIncluded cal included = true)) kept.
Proof.
  apply (filterCalendars_sound calendarTestConfig
           [calendarNamed "Work"; calendarNamed "Work (personal)"; calendarNamed "Team"]
           [calendarNamed "Work"]).
  vm_compute. reflexivity.
Defined.

(** ** The summarization fallbacks *)

Section FallbackFacts.

(** X18.  [fallbackCategorization]: no category of the result is empty;
    each is one of the three of the source, in their order, and holds the
    activities of its source, all of them, in their order; an activity of
    any other source, Jira for one, is in no category. *)
Theorem fallbackCategorization_spec (activities : list AI.activity) :
  let result := Categories.fallbackCategorization activities in
  sublist (map fst result) (map fst categoryOfSource) /\
  (forall name l, In (name, l) result ->
     l <> [] /\
     exists src, In (name, src) categoryOfSource /\
       l = List.filter (fun a => String.eqb (AI.source a) src) activities) /\
  (forall name src a, In (name, src) categoryOfSource -> In a activities ->
     AI.source a = src -> exists l, In (name, l) result /\ In a l) /\
  (forall a name l, knownSource (AI.source a) = false -> In (name, l) result -> ~ In a l).
Proof.
  intros result.
  assert (Hentries : forall name l, In (name, l) result ->
            l <> [] /\
            exists src, In (name, src) categoryOfSource /\
              l = List.filter (fun a => String.eqb (AI.source a) src) activities).
  { intros name l Hin. unfold result, Categories.fallbackCategorization in Hin.
    apply filter_In in Hin as [Hin Hlen]. simpl in Hlen.
    split; [by destruct l |].
    destruct Hin as [H | [H | [H | []]]]; injection H as <- <-;
      [exists "slack" | exists "github" | exists "gcal"]; (split; [simpl; tauto | done]). }
  split; [| split; [exact Hentries | split]].
  - unfold result, Categories.fallbackCategorization, categoryOfSource.
    simpl. repeat case_match; simpl; repeat constructor.
  - intros name src a Hcat Hin Hsrc.
    exists (Categories.ofSource src activities).
    assert (Ha : In a (Categories.ofSource src activities)).
    { apply filter_In. split; [done |]. by apply String.eqb_eq. }
    split; [| done].
    unfold result, Categories.fallbackCategorization. apply filter_In.
    split; [| simpl; by destruct (Categories.ofSource src activities)].
    destruct Hcat as [H | [H | [H | []]]]; injection H as <- <-; simpl; tauto.
  - intros a name l Hknown Hin Ha.
    destruct (Hentries name l Hin) as [_ (src & Hsrc & ->)].
    apply filter_In in Ha as [_ Heq]. apply String.eqb_eq in Heq.
    apply not_true_iff_false in Hknown. apply Hknown.
    unfold knownSource. apply existsb_exists. exists (name, src).
    split; [done |]. simpl. rewrite Heq. apply String.eqb_refl.
Qed.

(** An activity of a source the service does not know is described by
    the name of its source, whatever its data are. *)
Lemma describeActivity_unknown (a : AI.activity) :
  knownSource (AI.source a) = false ->
  AI.describeActivity a = Ret (AI.source a +:+ " activity").
Proof.
  unfold knownSource, AI.describeActivity. simpl. rewrite orb_false_r.
  intros H. apply orb_false_elim in H as [H1 H]. apply orb_false_elim in H as [H2 H3].
  by rewrite H1, H2, H3.
Qed.

Lemma appendBullets_unknown (l : list AI.activity) :
  Forall (fun a => knownSource (AI.source a) = false) l ->
  forall summary,
    AI.appendBullets summary l = Ret (summary +:+ concatAll (map genericBullet l)).
Proof.
  induction 1 as [|a l Ha _ IH]; intros summary; simpl.
  - by rewrite append_empty_r.
  - rewrite (describeActivity_unknown a Ha). cbn [mbind outcome_bind obind].
    rewrite IH. unfold genericBullet. by rewrite !append_assoc.
Qed.

Lemma countSource_unknown (src : string) (l : list AI.activity) :
  knownSource src = true ->
  Forall (fun a => knownSource (AI.source a) = false) l ->
  AI.countSource src l = 0.
Proof.
  intros Hsrc Hl. unfold AI.countSource.
  replace (List.filter _ l) with (@nil AI.activity); [done |].
  symmetry. induction Hl as [|a l Ha _ IH]; [done |]. simpl.
  destruct (String.eqb (AI.source a) src) eqn:Heq; [| done].
  apply String.eqb_eq in Heq. congruence.
Qed.

(** X19.  When no activity is of Slack, GitHub or the calendar (Jira
    tickets, for one), the fallback summary returns whatever the data of
    the activities are: the three counters are 0, and the first ten
    activities are listed by the name of their source alone. *)
Theorem fallbackSummary_unknown_sources
    (tz : Z) (activities : list AI.activity) (date : JsDate.Date) :
  Forall (fun a => knownSource (AI.source a) = false) activities ->
  AI.fallbackSummary tz activities date =
  Ret ("# Work Summary for " +:+ JsDate.toDateString tz date +:+ AI.nl +:+ emptyOverview +:+
       concatAll (map genericBullet (firstn 10 activities))).
Proof.
  intros Hall. unfold AI.fallbackSummary.
  rewrite (countSource_unknown "slack" _ eq_refl Hall).
  rewrite (countSource_unknown "github" _ eq_refl Hall).
  rewrite (countSource_unknown "gcal" _ eq_refl Hall).
  rewrite appendBullets_unknown by (by apply Forall_take).
  f_equal. rewrite !append_assoc. reflexivity.
Qed.

(** An activity of a known source without data cannot be described. *)
Lemma describeActivity_no_data (a : AI.activity) :
  knownSource (AI.source a) = true -> AI.data a = None ->
  AI.describeActivity a = Throw TypeError.
Proof.
  unfold knownSource, AI.describeActivity. simpl. rewrite orb_false_r.
  intros H ->.
  destruct (String.eqb (AI.source a) "slack"); [done |].
  destruct (String.eqb (AI.source a) "github"); [done |].
  destruct (String.eqb (AI.source a) "gcal"); [done | done].
Qed.

Lemma appendBullets_no_data (l : list AI.activity) (a : AI.activity) :
  In a l -> knownSource (AI.source a) = true -> AI.data a = None ->
  forall summary s, AI.appendBullets summary l <> Ret s.
Proof.
  intros Hin Hknown Hdata. induction l as [|b l IH]; [done |]. intros summary s. simpl.
  destruct Hin as [-> | Hin].
  - by rewrite describeActivity_no_data.
  - destruct (AI.describeActivity b); cbn [mbind outcome_bind obind]; [by apply IH | done..].
Qed.

(** X20.  The fallback summary does not return when one of the first ten
    activities is of Slack, GitHub or the calendar and carries no data:
    describing it fails, and nothing catches the failure. *)
Theorem fallbackSummary_needs_data
    (tz : Z) (activities : list AI.activity) (date : JsDate.Date) (a : AI.activity)
    (s : string) :
  In a (firstn 10 activities) ->
  knownSource (AI.source a) = true ->
  AI.data a = None ->
  AI.fallbackSummary tz activities date <> Ret s.
Proof.
  intros Hin Hknown Hdata. unfold AI.fallbackSummary.
  by apply (appendBullets_no_data _ a).
Qed.

End FallbackFacts.

(** A Slack message and a Jira ticket: one category, the ticket in none. *)
Lemma fallbackCategorization_spec_witness :
  Categories.fallbackCategorization [slackNote; jiraTicket] =
    [("Communication", [slackNote])] /\
  forall name l, In (name, l) (Categories.fallbackCategorization [slackNote; jiraTicket]) ->
    ~ In jiraTicket l.
Proof.
  split; [reflexivity |].
  intros name l.
  apply (proj2 (proj2 (proj2 (fallbackCategorization_spec [slackNote; jiraTicket])))
           jiraTicket name l).
  vm_compute. reflexivity.
Defined.

Lemma fallbackSummary_unknown_sources_witness :
  AI.fallbackSummary 0 [jiraTicket; jiraTicket] (Some 1705312800000) =
  Ret ("# Work Summary for " +:+ JsDate.toDateString 0 (Some 1705312800000) +:+ AI.nl +:+
       emptyOverview +:+
       concatAll (map genericBullet (firstn 10 [jiraTicket; jiraTicket]))).
Proof.
  apply (fallbackSummary_unknown_sources 0 [jiraTicket; jiraTicket] (Some 1705312800000)).
  repeat constructor.
Defined.

Lemma fallbackSummary_needs_data_witness :
  AI.fallbackSummary 0 [jiraTicket; {| AI.source := "github"; AI.data := None |}]
    (Some 1705312800000) <> Ret "# Work Summary".
Proof.
  apply (fallbackSummary_needs_data 0 _ _ {| AI.source := "github"; AI.data := None |}).
  - simpl. tauto.
  - reflexivity.
  - reflexivity.
Defined.

(** ** The configuration manager: [get] and [set] *)

Section GetSet.

Implicit Types (keys p q : list string) (k lastKey : string) (obj : json).

Lemma splitFrom_not_nil (cur s : string) : Settings.splitFrom cur s <> [].
Proof.
  revert cur. induction s as [|a s IH]; intros cur; simpl; [done |].
  destruct (Ascii.eqb a "."); [done | apply IH].
Qed.

Lemma split_last (key : string) :
  Settings.split key =
  removelast (Settings.split key) ++ [List.last (Settings.split key) EmptyString].
Proof. apply app_removelast_last, splitFrom_not_nil. Qed.

(** Reading along the path that [assign] has walked gives the value. *)
Lemma reduceGet_assign keys lastKey (value : json) :
  forall obj obj',
    Settings.assign keys lastKey value obj = Ret obj' ->
    Settings.reduceGet (keys ++ [lastKey]) (Some obj') = Ret (Some value).
Proof.
  induction keys as [|k keys IH]; intros obj obj' H.
  - destruct obj as [| | | | |m]; try done. simpl in H.
    destruct (String.eqb lastKey "__proto__"); [done |]. injection H as <-.
    simpl. by rewrite lookup_insert_eq.
  - destruct obj as [| | | | |m]; try done. cbn [Settings.assign] in H.
    assert (Hchild : forall start,
              (child ← Settings.assign keys lastKey value start;
               Ret (JObj (<[k := child]> m))) = Ret obj' ->
              Settings.reduceGet ((k :: keys) ++ [lastKey]) (Some obj') = Ret (Some value)).
    { intros start Hs.
      destruct (Settings.assign keys lastKey value start) as [child| |] eqn:Hc; [| done..].
      cbn [mbind outcome_bind obind] in Hs. injection Hs as <-.
      simpl. rewrite lookup_insert_eq. cbn [mbind outcome_bind obind]. by eapply IH. }
    destruct (m !! k) as [v|]; [by eapply Hchild |].
    destruct (Settings.inherited k); [done | by eapply Hchild].
Qed.

(** Below [undefined] everything is [undefined]. *)
Lemma reduceGet_undefined q : Settings.reduceGet q None = Ret None.
Proof. induction q as [|k q IH]; [done | exact IH]. Qed.

Lemma reduceGet_null q : q <> [] -> Settings.reduceGet q (Some JNull) = Ret None.
Proof. destruct q as [|k q]; [done |]. intros _. apply reduceGet_undefined. Qed.

Lemma reduceGet_empty q :
  q <> [] -> Forall (fun k => Settings.inherited k = false) q ->
  Settings.reduceGet q (Some (JObj ∅)) = Ret None.
Proof.
  destruct q as [|k q]; [done |]. intros _ Hq. apply Forall_cons in Hq as [Hk _].
  simpl. rewrite lookup_empty, Hk. apply reduceGet_undefined.
Qed.

Lemma diverge_not_nil p q : diverge p q = true -> q <> [].
Proof. destruct p, q; done. Qed.

(** A falsy value read through [?.] along a path gives [undefined]. *)
Lemma reduceGet_falsy q (v : json) (r : option json) :
  q <> [] -> Json.truthy (Some v) = false ->
  Settings.reduceGet q (Some v) = Ret r -> r = None.
Proof.
  destruct q as [|k q]; [done |]. intros _ Hv H.
  destruct v as [|[|]|n|s|l|m]; try done.
  - simpl in H. rewrite reduceGet_undefined in H. by injection H as <-.
Qed.

(** Where the path of [assign] and another path part ways, what is read
    along the other path is as before. *)
Lemma reduceGet_assign_other keys lastKey (value : json) :
  forall q obj obj' (r : option json),
    Settings.assign keys lastKey value obj = Ret obj' ->
    diverge (keys ++ [lastKey]) q = true ->
    Forall (fun k => Settings.inherited k = false) q ->
    Settings.reduceGet q (Some obj) = Ret r ->
    Settings.reduceGet q (Some obj') = Ret r.
Proof.
  induction keys as [|k keys IH]; intros q obj obj' r H Hdiv Hq Hread.
  - destruct obj as [| | | | |m]; try done. simpl in H.
    destruct (String.eqb lastKey "__proto__"); [done |]. injection H as <-.
    destruct q as [|b q]; [done |]. simpl in Hdiv.
    destruct (String.eqb lastKey b) eqn:Hb; [by destruct q |].
    apply String.eqb_neq in Hb. simpl in *. by rewrite lookup_insert_ne.
  - destruct obj as [| | | | |m]; try done. cbn [Settings.assign] in H.
    destruct q as [|b q]; [done |].
    apply Forall_cons in Hq as [Hb Hq]. simpl in Hdiv.
    destruct (String.eqb k b) eqn:Hkb.
    + apply String.eqb_eq in Hkb. subst b.
      pose proof (diverge_not_nil _ _ Hdiv) as Hne.
      cbn [Settings.reduceGet Settings.optionalIndex] in Hread.
      destruct (m !! k) as [v|] eqn:Hmk.
      * destruct (Settings.assign keys lastKey value _) as [child| |] eqn:Hc; [| done..].
        cbn [mbind outcome_bind obind] in H, Hread. injection H as <-.
        cbn [Settings.reduceGet Settings.optionalIndex]. rewrite lookup_insert_eq.
        cbn [mbind outcome_bind obind].
        destruct (Json.truthy (Some v)) eqn:Hv.
        -- by eapply IH.
        -- rewrite (reduceGet_falsy q v r Hne Hv Hread).
           eapply IH; [exact Hc | done | done |]. by apply reduceGet_empty.
      * rewrite Hb in H, Hread. cbn [mbind outcome_bind obind] in Hread.
        rewrite reduceGet_undefined in Hread. injection Hread as <-.
        destruct (Settings.assign keys lastKey value _) as [child| |] eqn:Hc; [| done..].
        cbn [mbind outcome_bind obind] in H. injection H as <-.
        cbn [Settings.reduceGet Settings.optionalIndex]. rewrite lookup_insert_eq.
        cbn [mbind outcome_bind obind].
        eapply IH; [exact Hc | done | done |]. by apply reduceGet_empty.
    + apply String.eqb_neq in Hkb.
      assert (Hsame : forall child, (<[k := child]> m) !! b = m !! b).
      { intros child. by rewrite lookup_insert_ne. }
      assert (Hchild : forall start,
                (child ← Settings.assign keys lastKey value start;
                 Ret (JObj (<[k := child]> m))) = Ret obj' ->
                Settings.reduceGet (b :: q) (Some obj') = Ret r).
      { intros start Hs.
        destruct (Settings.assign keys lastKey value start) as [child| |]; [| done..].
        cbn [mbind outcome_bind obind] in Hs. injection Hs as <-.
        cbn [Settings.reduceGet Settings.optionalIndex] in *. by rewrite Hsame. }
      destruct (m !! k) as [v|]; [by eapply Hchild |].
      destruct (Settings.inherited k); [done | by eapply Hchild].
Qed.

(** X21.  After [set(key, value)] has gone through, [get(key)] is
    [value], for every key that is not empty. *)
Theorem get_after_set (config config' : gmap string json) (key : string) (value : json) :
  key <> EmptyString ->
  Settings.set config key value = Ret (JObj config') ->
  Settings.get config' (Some key) = Ret (Some value).
Proof.
  intros Hkey H. destruct key as [|a key]; [done |].
  unfold Settings.get. rewrite split_last. by eapply reduceGet_assign.
Qed.

(** X22.  [set(key, value)] leaves alone what [get] reads along any
    path that parts ways with the path of [key], whatever lay on the way
    of [key]: a missing or falsy entry replaced by an object reads as
    [undefined] below it before and after. *)
Theorem get_other_after_set
    (config config' : gmap string json) (key other : string) (value : json)
    (r : option json) :
  other <> EmptyString ->
  Settings.set config key value = Ret (JObj config') ->
  diverge (Settings.split key) (Settings.split other) = true ->
  Forall (fun k => Settings.inherited k = false) (Settings.split other) ->
  Settings.get config (Some other) = Ret r ->
  Settings.get config' (Some other) = Ret r.
Proof.
  intros Hother H Hdiv Hq. destruct other as [|a other]; [done |].
  unfold Settings.get. rewrite split_last in Hdiv.
  by eapply reduceGet_assign_other.
Qed.

End GetSet.

(** [set('integrations.slack.enabled', true)] over a Slack entry that is
    [null]. *)
Lemma get_after_set_witness :
  exists config' : gmap string json,
    Settings.set sparseConfig "integrations.slack.enabled" (JBool true) = Ret (JObj config') /\
    Settings.get config' (Some "integrations.slack.enabled") = Ret (Some (JBool true)).
Proof.
  eexists. split; [vm_compute; reflexivity |].
  apply (get_after_set sparseConfig _ "integrations.slack.enabled" (JBool true)).
  - discriminate.
  - vm_compute. reflexivity.
Defined.

Lemma get_other_after_set_witness :
  exists config' : gmap string json,
    Settings.set sparseConfig "integrations.slack.enabled" (JBool true) = Ret (JObj config') /\
    Settings.get config' (Some "integrations.github.enabled") = Ret (Some (JBool true)).
Proof.
  eexists. split; [vm_compute; reflexivity |].
  apply (get_other_after_set sparseConfig _ "integrations.slack.enabled"
           "integrations.github.enabled" (JBool true)).
  - discriminate.
  - vm_compute. reflexivity.
  - vm_compute. reflexivity.
  - vm_compute. repeat constructor.
  - vm_compute. reflexivity.
Defined.

(** ** The configuration manager: merging, loading, saving *)

Section Merge.

(** One level of [mergeConfigs]. *)
Lemma mergeConfigs_lookup (um : gmap string json) (defaultConf : option json) (k : string) :
  Json.field k (Config.mergeConfigs (JObj um) defaultConf) =
  match um !! k with
  | Some (JObj u) =>
      Some (Config.mergeConfigs (JObj u)
              (if Json.truthy (Json.spread defaultConf !! k)
               then Json.spread defaultConf !! k else Some (JObj ∅)))
  | Some v => Some v
  | None => Json.spread defaultConf !! k
  end.
Proof.
  cbn [Config.mergeConfigs Json.field].
  rewrite lookup_merge, lookup_fmap.
  destruct (um !! k) as [v|]; simpl.
  - destruct (Json.spread defaultConf !! k); simpl; by destruct v.
  - by destruct (Json.spread defaultConf !! k).
Qed.

Lemma valueAt_key (k : string) (p : list string) (v : json) :
  Config.valueAt (map Config.Key (k :: p)) v =
  Json.field k v ≫= Config.valueAt (map Config.Key p).
Proof. by destruct v. Qed.


(** X24.  A setting of the defaults that the user file leaves alone (on
    the way to it the user file holds objects, and at some step no
    entry) stands in the merged configuration as the defaults have it. *)
Theorem mergeConfigs_default_survives
    (p : list string) (um dm : gmap string json) (v : json) :
  Config.valueAt (map Config.Key p) (JObj dm) = Some v ->
  untouched (JObj um) p = true ->
  Config.valueAt (map Config.Key p) (Config.mergeConfigs (JObj um) (Some (JObj dm))) = Some v.
Proof.
  revert um dm. induction p as [|k p IH]; intros um dm Hat Hun; [done |].
  rewrite valueAt_key in *. rewrite mergeConfigs_lookup.
  cbn [Json.spread Json.field] in *. simpl in Hun.
  destruct (um !! k) as [u|]; [| exact Hat].
  destruct p as [|k' p]; [done |].
  destruct u as [| | | | |u']; try done.
  destruct (dm !! k) as [d|]; [| done]. simpl in Hat.
  destruct d as [| | | | |d']; try done.
  simpl. by apply IH.
Qed.

End Merge.

Section LoadSave.

Variable defaultConfig : gmap string json.
Variable configPath : Fs.path.
Variable env : Config.environment.

(** The ways of [load]. *)
Lemma load_unfold (fs : Fs.filesystem) :
  Config.load defaultConfig configPath env fs =
  match fs !! configPath with
  | Some (Fs.JsonFile userConfig) =>
      match userConfig with
      | JArr _ | JStr _ => (Unmodelled, fs)
      | _ => (Ret (Config.resolveEnvVariables env
                     (Config.mergeConfigs userConfig (Some (JObj defaultConfig)))), fs)
      end
  | Some (Fs.TextFile _) => (Ret (Config.resolveEnvVariables env (JObj defaultConfig)), fs)
  | None =>
      if Fs.isDirectory fs configPath
      then (Ret (Config.resolveEnvVariables env (JObj defaultConfig)), fs)
      else (Ret (Config.resolveEnvVariables env (JObj defaultConfig)),
            <[configPath := Fs.JsonFile (JObj defaultConfig)]> fs)
  end.
Proof.
  unfold Config.load, Fs.bind, Fs.pathExists, Fs.readJson, Fs.writeJson, Fs.ret,
    Fs.unmodelled.
  destruct (fs !! configPath) as [[j|t]|] eqn:E; simpl; rewrite ?E; try done.
  - by destruct j.
  - destruct (Fs.isDirectory fs configPath); simpl; rewrite ?E; done.
Qed.

(** X25.  [load] does not throw, and the one thing it ever writes is the
    configuration file when there is none: the defaults as they are,
    placeholders unresolved.  A configuration file that does not parse is
    left as it is, and the defaults are returned. *)
Theorem load_writes_defaults_only (fs : Fs.filesystem) :
  (forall e, fst (Config.load defaultConfig configPath env fs) <> Throw e) /\
  (snd (Config.load defaultConfig configPath env fs) = fs \/
   fs !! configPath = None /\
   snd (Config.load defaultConfig configPath env fs) =
     <[configPath := Fs.JsonFile (JObj defaultConfig)]> fs) /\
  (forall t, fs !! configPath = Some (Fs.TextFile t) ->
     Config.load defaultConfig configPath env fs =
       (Ret (Config.resolveEnvVariables env (JObj defaultConfig)), fs)).
Proof.
  rewrite load_unfold.
  destruct (fs !! configPath) as [[j|t]|] eqn:E.
  - split; [intros e; by destruct j |]. split; [left; by destruct j | done].
  - split; [done |]. split; [by left |]. by intros t' [= <-].
  - destruct (Fs.isDirectory fs configPath).
    + split; [done |]. split; [by left | done].
    + split; [done |]. split; [by right | done].
Qed.


End LoadSave.

Section PlaceholderInText.

Variable env : Config.environment.

Lemma matchPlaceholder_other (a : ascii) (s : string) :
  Ascii.eqb a "$" = false -> Config.matchPlaceholder (String a s) = None.
Proof.
  intros Ha. unfold Config.matchPlaceholder.
  destruct a as [[] [] [] [] [] [] [] []]; try done.
Qed.

(** Characters passed over after a match. *)
Lemma replacePlaceholders_passed (a b : string) :
  Config.replacePlaceholders env (String.length a) (a +:+ b) =
  Config.replacePlaceholders env O b.
Proof.
  induction a as [|x a IH]; [by destruct b |].
  rewrite append_cons. exact IH.
Qed.

Lemma replacePlaceholders_in_text (pre name post : string) :
  Js.count "$" pre = O ->
  name <> EmptyString ->
  Js.count "}" name = O ->
  Config.replacePlaceholders env O (pre +:+ "${" +:+ name +:+ "}" +:+ post) =
  pre +:+ Config.substitute env name +:+ Config.replacePlaceholders env O post.
Proof.
  intros Hpre Hne Hc. induction pre as [|x pre IH].
  - rewrite !append_nil_l.
    change ("${" +:+ name +:+ "}" +:+ post)
      with (String "$" (String "{" (name +:+ String "}" post))).
    assert (Hmatch : Config.matchPlaceholder
                       (String "$" (String "{" (name +:+ String "}" post))) = Some name).
    { unfold Config.matchPlaceholder. rewrite spanName_name by done. by destruct name. }
    rewrite (replacePlaceholders_match _ _ _ _ Hmatch). f_equal.
    replace (String.length name + 2)%nat
      with (String.length (String "{" (name +:+ "}"))) by (simpl; rewrite length_append; simpl; lia).
    rewrite <- (replacePlaceholders_passed (String "{" (name +:+ "}")) post).
    by rewrite !append_cons, append_assoc.
  - rewrite !(append_cons x pre). simpl in Hpre.
    destruct (Ascii.eqb x "$") eqn:Hx; [done |].
    cbn [Config.replacePlaceholders].
    rewrite matchPlaceholder_other by done.
    rewrite IH by done. reflexivity.
Qed.


End PlaceholderInText.


Lemma mergeConfigs_default_survives_witness :
  Config.valueAt (map Config.Key ["integrations"; "slack"; "enabled"])
    (Config.mergeConfigs (JObj slackUserConfig) (Some (JObj slackDefaults))) =
  Some (JBool true).
Proof.
  apply (mergeConfigs_default_survives ["integrations"; "slack"; "enabled"]
           slackUserConfig slackDefaults (JBool true)).
  - vm_compute. reflexivity.
  - vm_compute. reflexivity.
Defined.


